(** * chat-with-document: a shallow embedding of the indexing and
      conversational-retrieval pipeline

    The development follows the Python sources:
    - [src/src/chatbot.py]  (module [Chatbot]): loading, chunking, index
      construction, chain set-up and querying;
    - [src/src/api.py]      (module [Api]): the module-level [chatbot]
      global, upload, chat and delete endpoints;
    - [src/chatbot.py]      (module [Cli]): the command-line variant;
    - [src/src/document_manager.py], [src/src/vector_store.py]
      (modules [DocumentManager], [Vector_store]);
    - the further endpoints of [src/src/api.py] (modules [Endpoints] and
      [Listing]), its account code over the table of
      [src/src/database.py] (module [Auth]), and
      [src/src/document_loaders.py] with the loading of the document
      manager (modules [DocumentLoader], [Document_manager]).

    Python state is threaded explicitly through a small state-and-exception
    monad in which the state survives a raised exception, as it does in
    Python.  External collaborators (file loaders, the text splitter,
    the embedding service, the language model, the clock) are fields of a
    [Services] record over which every general theorem quantifies. *)

From Stdlib Require Import ZArith String Ascii List DecimalString.
From Stdlib Require DecimalPos DecimalZ Sorted.
From stdpp Require Import base strings list gmap.

Local Open Scope Z_scope.

(** ** Python exceptions *)

Inductive exn :=
| ValueError (msg : string)
| OSError (msg : string)
| AttributeError (msg : string)
| ServiceError (msg : string)
| HTTPException (status_code : nat) (detail : string).

Definition str_of_nat (n : nat) : string :=
  NilZero.string_of_uint (Nat.to_uint n).

Definition str_of_Z (z : Z) : string :=
  NilZero.string_of_int (Z.to_int z).

(** [str(e)]; an [HTTPException] prints as Starlette prints it. *)
Definition str (e : exn) : string :=
  match e with
  | ValueError m | OSError m | AttributeError m | ServiceError m => m
  | HTTPException c d => str_of_nat c +:+ ": " +:+ d
  end.

Definition is_HTTPException (e : exn) : bool :=
  match e with HTTPException _ _ => true | _ => false end.

(** ** Strings as Python uses them *)

(** [s.endswith(suffix)] *)
Definition endswith (s suffix : string) : bool :=
  String.prefix (String.rev suffix) (String.rev s).

(** [s.startswith(p)] *)
Definition startswith (s p : string) : bool := String.prefix p s.

(** [sub in s] *)
Fixpoint contains (sub s : string) : bool :=
  String.prefix sub s ||
  match s with
  | EmptyString => false
  | String _ s' => contains sub s'
  end.

(** Characters removed by [str.strip()] (code points below 256). *)
Definition is_space (c : ascii) : bool :=
  let n := nat_of_ascii c in
  ((9 <=? n) && (n <=? 13) || (28 <=? n) && (n <=? 32)
   || (n =? 133) || (n =? 160))%nat.

(** [not s.strip()] *)
Fixpoint is_blank (s : string) : bool :=
  match s with
  | EmptyString => true
  | String c s' => is_space c && is_blank s'
  end.

Definition slash : ascii := "/"%char.

Fixpoint has_slash (s : string) : bool :=
  match s with
  | EmptyString => false
  | String c s' => Ascii.eqb c slash || has_slash s'
  end.

(** The text after the last [/] of [s], given the text [acc] read since
    the previous one. *)
Fixpoint basename_from (acc s : string) : string :=
  match s with
  | EmptyString => String.rev acc
  | String c s' =>
      if Ascii.eqb c slash then basename_from EmptyString s'
      else basename_from (String c acc) s'
  end.

(** [os.path.basename] *)
Definition basename (p : string) : string := basename_from EmptyString p.

(** [os.path.join(a, b)] *)
Definition path_join (a b : string) : string :=
  if startswith b "/" then b
  else if String.eqb a "" || endswith a "/" then a +:+ b
  else a +:+ "/" +:+ b.

(** A directory named with a trailing [/] is the directory itself. *)
Definition normdir (d : string) : string :=
  match String.rev d with
  | String c r => if Ascii.eqb c slash then String.rev r else d
  | EmptyString => d
  end.

Fixpoint strip_prefix (p s : string) : option string :=
  match p, s with
  | EmptyString, _ => Some s
  | String a p', String b s' =>
      if Ascii.eqb a b then strip_prefix p' s' else None
  | String _ _, EmptyString => None
  end.

(** The name of [p] inside directory [d], when [p] is a direct entry of
    [d]. *)
Definition child_name (d p : string) : option string :=
  match strip_prefix (d +:+ "/") p with
  | Some n => if String.eqb n "" || has_slash n then None else Some n
  | None => None
  end.

(** ** The state-and-exception monad *)

Definition M (S A : Type) : Type := S -> (exn + A) * S.

Definition ret {S A} (a : A) : M S A := fun s => (inr a, s).

Definition raise {S A} (e : exn) : M S A := fun s => (inl e, s).

Definition bind {S A B} (m : M S A) (k : A -> M S B) : M S B :=
  fun s =>
    match m s with
    | (inr a, s') => k a s'
    | (inl e, s') => (inl e, s')
    end.

(** [try: m  except Exception as e: h e] *)
Definition try_except {S A} (m : M S A) (h : exn -> M S A) : M S A :=
  fun s =>
    match m s with
    | (inr a, s') => (inr a, s')
    | (inl e, s') => h e s'
    end.

Definition get {S} : M S S := fun s => (inr s, s).

Definition modify {S} (f : S -> S) : M S unit := fun s => (inr tt, f s).

(** Runs a computation on a component of the state. *)
Definition zoom {S T A} (proj : S -> T) (put : T -> S -> S) (m : M T A)
  : M S A :=
  fun s => let '(r, t) := m (proj s) in (r, put t s).

#[export] Instance M_ret {S} : MRet (M S) := fun _ a => ret a.
#[export] Instance M_bind {S} : MBind (M S) := fun _ _ k m => bind m k.

Definition is_ok {A} (r : exn + A) : bool :=
  match r with inr _ => true | inl _ => false end.

(** The value a step returned, [d] if it raised. *)
Definition value_of {A} (d : A) (r : exn + A) : A :=
  match r with inr a => a | inl _ => d end.

(** The exception a step raised. *)
Definition error_of {A} (r : exn + A) : exn :=
  match r with inl e => e | inr _ => ValueError "" end.

(** ** Data model *)

(** A filesystem node; the filesystem lists its paths in the order in
    which [os.listdir] reports them. *)
Inductive node :=
| RegularFile (content : string)
| Directory.

(** langchain's [Document]: the text and the [source] entry of its
    metadata. *)
Record Document := {
  page_content : string;
  source : option string
}.

(** The conversation held by a [ConversationBufferMemory]. *)
Record Turn := {
  question : string;
  answer : string
}.

(** The arguments of [RecursiveCharacterTextSplitter]. *)
Record SplitterConfig := {
  chunk_size : nat;
  chunk_overlap : nat;
  separators : list string
}.

(** A Chroma vector store, as the arguments of the call that built it:
    [vs_documents] are the documents handed to [Chroma.from_documents], not
    the content of the collection, which a collection of the same name
    found in the persist directory would share. *)
Record VectorStore := {
  vs_documents : list Document;
  vs_collection_name : option string;
  vs_persist_directory : string
}.

(** A [ConversationalRetrievalChain]: the model, the retriever (the store
    it searches and the number of chunks it asks for) and the address of
    its memory object. *)
Record Chain := {
  chain_model : string;
  chain_retriever : VectorStore;
  chain_k : nat;
  chain_memory : nat
}.

Inductive loader :=
| PDFMinerLoader
| PyPDFLoader
| TextLoader
| UnstructuredWordDocumentLoader
| CSVLoader.

(** What the process asked of its collaborators, oldest first. *)
Inductive event :=
| EvLoad (l : loader) (path : string)
| EvClock
| EvEmbedDocuments (n : nat)
| EvPersist
| EvRetrieve (query : string)
| EvLLM (query : string).

(** The process-wide state outside the chatbot objects. *)
Record World := {
  fs : list (string * node);
  OPENAI_API_KEY : option string;
  memories : list (list Turn);
  persisted : list VectorStore;
  trace : list event
}.

(** The collaborators outside the repository.  Network services and the
    clock are indexed by the number of external calls made so far, so that
    the same request may succeed once and fail later. *)
Record Services := {
  (** [time.time()], in microseconds *)
  time_time : nat -> Z;
  (** [loader(path).load()] on a file with the given content *)
  loader_load : loader -> string -> string -> exn + list Document;
  (** [RecursiveCharacterTextSplitter(...).split_text(text)] *)
  split_text : SplitterConfig -> string -> exn + list string;
  (** embedding and insertion inside [Chroma.from_documents] *)
  embed_documents : nat -> list Document -> option exn;
  (** [vector_store.persist()] *)
  persist_store : nat -> VectorStore -> option exn;
  (** embedding of the query and similarity search *)
  retrieve : nat -> VectorStore -> nat -> string -> exn + list Document;
  (** the language model: retrieved chunks, history, question *)
  llm_invoke : nat -> list Document -> list Turn -> string -> exn + string;
  (** what makes [os.remove] fail on a path although the file is there
      (permissions, a lock) *)
  remove_error : nat -> string -> option exn
}.

Definition set_fs (f : list (string * node)) (w : World) : World :=
  {| fs := f; OPENAI_API_KEY := OPENAI_API_KEY w; memories := memories w;
     persisted := persisted w; trace := trace w |}.

Definition set_memories (m : list (list Turn)) (w : World) : World :=
  {| fs := fs w; OPENAI_API_KEY := OPENAI_API_KEY w; memories := m;
     persisted := persisted w; trace := trace w |}.

Definition set_persisted (p : list VectorStore) (w : World) : World :=
  {| fs := fs w; OPENAI_API_KEY := OPENAI_API_KEY w; memories := memories w;
     persisted := p; trace := trace w |}.

Definition set_trace (t : list event) (w : World) : World :=
  {| fs := fs w; OPENAI_API_KEY := OPENAI_API_KEY w; memories := memories w;
     persisted := persisted w; trace := t |}.

(** ** The filesystem *)

(** The tree is a list of entries under the paths that name them, spelled
    as [os.path.join] spells the path of an entry of a directory.  A path is
    looked up as it is written: a component [.] or [..] is not resolved, so
    a path that holds one names no entry here.  What is proved of the path
    of a document therefore speaks of names that are entries of the
    documents directory ([proper_name] below), as are all the names that
    [os.listdir] returns. *)
Module Os.

Fixpoint lookup (p : string) (f : list (string * node)) : option node :=
  match f with
  | [] => None
  | (q, n) :: r => if String.eqb q p then Some n else lookup p r
  end.

(** [os.path.exists] *)
Definition path_exists (p : string) (f : list (string * node)) : bool :=
  match lookup (normdir p) f with Some _ => true | None => false end.

(** [os.path.isfile] *)
Definition isfile (p : string) (f : list (string * node)) : bool :=
  match lookup p f with Some (RegularFile _) => true | _ => false end.

(** [os.path.isdir] *)
Definition isdir (p : string) (f : list (string * node)) : bool :=
  match lookup (normdir p) f with Some Directory => true | _ => false end.

(** [os.listdir] *)
Definition listdir (d : string) (f : list (string * node))
  : exn + list string :=
  match lookup (normdir d) f with
  | Some Directory => inr (omap (fun e => child_name (normdir d) e.1) f)
  | Some (RegularFile _) => inl (OSError "Not a directory")
  | None => inl (OSError "No such file or directory")
  end.

(** [open(p, 'rb').read()] *)
Definition read (p : string) (f : list (string * node)) : exn + string :=
  match lookup p f with
  | Some (RegularFile c) => inr c
  | Some Directory => inl (OSError "Is a directory")
  | None => inl (OSError "No such file or directory")
  end.

(** [os.path.dirname] *)
Definition dirname (p : string) : string :=
  substring 0 (String.length p - String.length (basename p) - 1) p.

Fixpoint replace (p : string) (n : node) (f : list (string * node))
  : list (string * node) :=
  match f with
  | [] => []
  | (q, m) :: r =>
      if String.eqb q p then (q, n) :: r else (q, m) :: replace p n r
  end.

(** [open(p, 'wb').write(c)]: an existing file keeps its place in the
    listing, a new one is listed last. *)
Definition write (p c : string) (f : list (string * node))
  : exn + list (string * node) :=
  if String.eqb (basename p) "" then inl (OSError "Is a directory")
  else
    match lookup p f with
    | Some Directory => inl (OSError "Is a directory")
    | Some (RegularFile _) => inr (replace p (RegularFile c) f)
    | None =>
        if String.eqb (dirname p) "" then inr (f ++ [(p, RegularFile c)])
        else
          match lookup (dirname p) f with
          | Some Directory => inr (f ++ [(p, RegularFile c)])
          | _ => inl (OSError "No such file or directory")
          end
    end.

(** [os.remove] on the tree.  That the system may refuse to remove a file
    that is there is the matter of [os_remove] below. *)
Definition remove (p : string) (f : list (string * node))
  : exn + list (string * node) :=
  match lookup p f with
  | Some (RegularFile _) =>
      inr (filter (fun e => negb (String.eqb e.1 p)) f)
  | Some Directory => inl (OSError "Is a directory")
  | None => inl (OSError "No such file or directory")
  end.

(** [os.makedirs(d, exist_ok=True)] for a directory of the working
    directory. *)
Definition makedirs (d : string) (f : list (string * node))
  : exn + list (string * node) :=
  match lookup (normdir d) f with
  | Some Directory => inr f
  | Some (RegularFile _) => inl (OSError "File exists")
  | None => inr (f ++ [(normdir d, Directory)])
  end.

(** Where [shutil.copy2(src, dst)] writes: into [dst] under the name of
    [src] when [dst] is an existing directory, and to [dst] otherwise. *)
Definition copy_target (src dst : string) (f : list (string * node))
  : string :=
  if isdir dst f then path_join dst (basename src) else dst.

(** [shutil.copy2(src, dst)] *)
Definition copy2 (src dst : string) (f : list (string * node))
  : exn + list (string * node) :=
  let dst := copy_target src dst f in
  match read src f with
  | inl e => inl e
  | inr c =>
      if String.eqb src dst then inl (OSError "are the same file")
      else write dst c f
  end.

End Os.

(** Lifts a filesystem query to the monad. *)
Definition fs_query {A} (q : list (string * node) -> exn + A) : M World A :=
  fun w => (q (fs w), w).

(** Lifts a filesystem update to the monad. *)
Definition fs_update (u : list (string * node) -> exn + list (string * node))
  : M World unit :=
  fun w =>
    match u (fs w) with
    | inr f => (inr tt, set_fs f w)
    | inl e => (inl e, w)
    end.

(** Records an external call and returns its index. *)
Definition tick (ev : event) : M World nat :=
  fun w => (inr (length (trace w)), set_trace (trace w ++ [ev]) w).

(** Turns the outcome of a pure computation into a step. *)
Definition lift {S A} (r : exn + A) : M S A := fun s => (r, s).

(** [os.remove(p)]: the removal fails when the services say so, and
    otherwise as the filesystem has it. *)
Definition os_remove (sv : Services) (p : string) : M World unit :=
  fun w =>
    match remove_error sv (length (trace w)) p with
    | Some e => (inl e, w)
    | None => fs_update (Os.remove p) w
    end.

Definition nl : string := String (ascii_of_nat 10) EmptyString.

(** ** The libraries the sources call *)

Module Langchain.
Section WithServices.
Context (sv : Services).

(** [loader(file_path).load()]: the loader opens the file itself. *)
Definition load (l : loader) (file_path : string) : M World (list Document) :=
  _ ← tick (EvLoad l file_path);
  content ← fs_query (Os.read file_path);
  lift (loader_load sv l file_path content).

(** [Chroma.from_documents(documents, embedding, collection_name,
    persist_directory)]: the documents are embedded and the store is
    returned as the record of the call. *)
Definition Chroma_from_documents (documents : list Document)
    (collection_name : option string) (persist_directory : string)
  : M World VectorStore :=
  i ← tick (EvEmbedDocuments (length documents));
  match embed_documents sv i documents with
  | Some e => raise e
  | None =>
      mret {| vs_documents := documents;
              vs_collection_name := collection_name;
              vs_persist_directory := persist_directory |}
  end.

(** [vector_store.persist()] *)
Definition Chroma_persist (vs : VectorStore) : M World unit :=
  i ← tick EvPersist;
  match persist_store sv i vs with
  | Some e => raise e
  | None => modify (fun w => set_persisted (persisted w ++ [vs]) w)
  end.

(** [text_splitter.split_documents(documents)]: the chunks of every
    document in order, each keeping the metadata of its document. *)
Fixpoint split_documents (cfg : SplitterConfig) (documents : list Document)
  : exn + list Document :=
  match documents with
  | [] => inr []
  | d :: r =>
      match split_text sv cfg (page_content d) with
      | inl e => inl e
      | inr chunks =>
          match split_documents cfg r with
          | inl e => inl e
          | inr rest =>
              inr (map (fun c => {| page_content := c; source := source d |})
                     chunks ++ rest)
          end
      end
  end.

(** [ConversationBufferMemory(...)]: a new, empty memory object. *)
Definition ConversationBufferMemory : M World nat :=
  fun w => (inr (length (memories w)), set_memories (memories w ++ [[]]) w).

(** [memory.chat_memory.messages] *)
Definition messages (m : nat) : M World (list Turn) :=
  fun w =>
    match memories w !! m with
    | Some h => (inr h, w)
    | None => (inl (AttributeError "chat_memory"), w)
    end.

(** [memory.save_context(inputs, outputs)] *)
Definition save_context (m : nat) (t : Turn) : M World unit :=
  fun w =>
    match memories w !! m with
    | Some h => (inr tt, set_memories (<[m := h ++ [t]]> (memories w)) w)
    | None => (inl (AttributeError "chat_memory"), w)
    end.

(** Modelled from the spec: the call of a [ConversationalRetrievalChain],
    which is langchain code and not part of the repository.  Section 4.6:
    embed the query and retrieve the top-k chunks from the bound index,
    build the prompt from the retrieved chunks, the whole prior memory and
    the query, invoke the language model, then append the turn to the
    memory and return the answer.  This is the order of langchain's
    [Chain.__call__]: [prep_inputs] reads the memory, [_call] retrieves and
    asks the model, and [prep_outputs] saves the turn once [_call] has
    returned.  The chain reads the history from its own memory object; a
    [chat_history] passed by the caller is superseded by it. *)
Definition Chain_call (c : Chain) (query : string)
    (chat_history : list Turn) : M World string :=
  history ← messages (chain_memory c);
  i ← tick (EvRetrieve query);
  docs ← lift (retrieve sv i (chain_retriever c) (chain_k c) query);
  j ← tick (EvLLM query);
  result ← lift (llm_invoke sv j docs history query);
  _ ← save_context (chain_memory c) {| question := query; answer := result |};
  mret result.

End WithServices.
End Langchain.

(** ** src/src/chatbot.py *)

Module Chatbot.

(** An attribute that may not have been assigned yet is an option. *)
Record DocumentChatbot := {
  documents_dir : string;
  persist_directory : string;
  embeddings : string;
  text_splitter : SplitterConfig;
  vectorstore : option VectorStore;
  memory : option nat;
  chain : option Chain
}.

Definition set_vectorstore (v : VectorStore) (self : DocumentChatbot) :=
  {| documents_dir := documents_dir self;
     persist_directory := persist_directory self;
     embeddings := embeddings self; text_splitter := text_splitter self;
     vectorstore := Some v; memory := memory self; chain := chain self |}.

Definition set_memory (m : nat) (self : DocumentChatbot) :=
  {| documents_dir := documents_dir self;
     persist_directory := persist_directory self;
     embeddings := embeddings self; text_splitter := text_splitter self;
     vectorstore := vectorstore self; memory := Some m; chain := chain self |}.

Definition set_chain (c : Chain) (self : DocumentChatbot) :=
  {| documents_dir := documents_dir self;
     persist_directory := persist_directory self;
     embeddings := embeddings self; text_splitter := text_splitter self;
     vectorstore := vectorstore self; memory := memory self;
     chain := Some c |}.

(** A method runs on the object and the world. *)
Definition Method (A : Type) : Type := M (DocumentChatbot * World) A.

Definition in_world {A} (m : M World A) : Method A :=
  zoom snd (fun w s => (s.1, w)) m.

Definition on_self (f : DocumentChatbot -> DocumentChatbot) : Method unit :=
  modify (fun s => (f s.1, s.2)).

Definition get_self : Method DocumentChatbot :=
  fun s => (inr s.1, s).

(** Runs a method on an object under construction: the object is the
    result when the method returns, and is lost when it raises. *)
Definition on_new {A} (self : DocumentChatbot) (m : Method A)
  : M World DocumentChatbot :=
  fun w =>
    match m (self, w) with
    | (inr _, (self', w')) => (inr self', w')
    | (inl e, (_, w')) => (inl e, w')
    end.

Definition getenv_key : M World (option string) :=
  fun w => (inr (OPENAI_API_KEY w), w).

(** What passes [if not openai_api_key]: a value that is set and not
    empty. *)
Definition nonempty (openai_api_key : option string) : option string :=
  match openai_api_key with
  | Some key => if String.eqb key "" then None else Some key
  | None => None
  end.

Section WithServices.
Context (sv : Services).

(** The body of the [.pdf] branch of [load_documents]; the documents it
    returns are those by which [documents] is extended, none when the loop
    continues with the next file. *)
Definition load_pdf (file_path : string) : M World (list Document) :=
  try_except
    (header ← fs_query (fun f =>
        match Os.read file_path f with
        | inr c => inr (substring 0 4 c)
        | inl e => inl e
        end);
     if negb (String.eqb header "%PDF") then mret []
     else
       loaded_docs ← Langchain.load sv PDFMinerLoader file_path;
       let valid_docs :=
         filter (fun doc => negb (is_blank (page_content doc))) loaded_docs in
       mret valid_docs)
    (fun pdf_error => mret []).

(** [os.path.getsize] *)
Definition getsize (file_path : string) : M World nat :=
  fs_query (fun f =>
    match Os.lookup file_path f with
    | Some (RegularFile c) => inr (String.length c)
    | Some Directory => inr 0%nat
    | None => inl (OSError "No such file or directory")
    end).

(** One iteration of the loop of [load_documents]. *)
Definition load_file (self : DocumentChatbot) (filename : string)
  : M World (list Document) :=
  let file_path := path_join (documents_dir self) filename in
  _ ← getsize file_path;
  try_except
    (if endswith filename ".pdf" then load_pdf file_path
     else Langchain.load sv TextLoader file_path)
    (fun e => mret []).

Fixpoint load_loop (self : DocumentChatbot) (filenames : list string)
    (documents : list Document) : M World (list Document) :=
  match filenames with
  | [] => mret documents
  | filename :: rest =>
      docs ← load_file self filename;
      load_loop self rest (documents ++ docs)
  end.

Definition load_documents (self : DocumentChatbot)
  : M World (list Document) :=
  _ ← fs_query (Os.listdir (documents_dir self));
  filenames ← fs_query (Os.listdir (documents_dir self));
  documents ← load_loop self filenames [];
  match documents with
  | [] => raise (ValueError "No documents could be loaded successfully")
  | _ => mret documents
  end.

(** One iteration of the loop of [process_documents]: the chunks by which
    [all_texts] is extended. *)
Definition process_document (self : DocumentChatbot) (doc : Document)
  : list Document :=
  let text := page_content doc in
  if is_blank text then []
  else
    match split_text sv (text_splitter self) text with
    | inr chunks =>
        map (fun chunk => {| page_content := chunk; source := None |}) chunks
    | inl e => []
    end.

Definition process_documents (self : DocumentChatbot)
    (documents : list Document) : exn + list Document :=
  let all_texts := flat_map (process_document self) documents in
  match all_texts with
  | [] => inl (ValueError "No text content could be extracted from documents")
  | _ => inr all_texts
  end.

Definition create_vector_store (self : DocumentChatbot)
    (texts : list Document) : M World VectorStore :=
  try_except
    (match texts with
     | [] => raise (ValueError "No texts to process")
     | _ =>
         i ← tick EvClock;
         let collection_name :=
           "collection_" +:+ str_of_Z (Z.quot (time_time sv i) 1000000) in
         vector_store ← Langchain.Chroma_from_documents sv texts
                          (Some collection_name) (persist_directory self);
         _ ← Langchain.Chroma_persist sv vector_store;
         mret vector_store
     end)
    (fun e => raise e).

Definition setup_chain : Method unit :=
  try_except
    (self ← get_self;
     documents ← in_world (load_documents self);
     match documents with
     | [] => mret tt
     | _ =>
         texts ← in_world (lift (process_documents self documents));
         match texts with
         | [] => mret tt
         | _ =>
             vs ← in_world (create_vector_store self texts);
             _ ← on_self (set_vectorstore vs);
             openai_api_key ← in_world getenv_key;
             match nonempty openai_api_key with
             | None =>
                 raise (ValueError
                   "OPENAI_API_KEY not found in environment variables")
             | Some key =>
                 m ← in_world Langchain.ConversationBufferMemory;
                 _ ← on_self (set_memory m);
                 on_self (set_chain
                   {| chain_model := "gpt-3.5-turbo"; chain_retriever := vs;
                      chain_k := 3; chain_memory := m |})
             end
         end
     end)
    (fun e => raise e).

(** [DocumentChatbot()] *)
Definition init : M World DocumentChatbot :=
  openai_api_key ← getenv_key;
  match nonempty openai_api_key with
  | None =>
      raise (ValueError "OPENAI_API_KEY not found in environment variables")
  | Some key =>
      let self :=
        {| documents_dir := "documents/"; persist_directory := "chroma_db";
           embeddings := key;
           text_splitter :=
             {| chunk_size := 1000; chunk_overlap := 200;
                separators := [nl +:+ nl; nl; " "; ""] |};
           vectorstore := None; memory := None; chain := None |} in
      _ ← fs_update (Os.makedirs "chroma_db");
      on_new self setup_chain
  end.

Definition chat (self : DocumentChatbot) (query : string) : M World string :=
  match chain self with
  | None =>
      raise (ValueError
        "Chat chain not initialized. Please upload some documents first.")
  | Some c =>
      try_except
        (chat_history ←
           match memory self with
           | Some m => Langchain.messages m
           | None => mret []
           end;
         Langchain.Chain_call sv c query chat_history)
        (fun e => raise e)
  end.

End WithServices.
End Chatbot.

(** ** src/src/api.py *)

Module Api.

(** The world together with the module-level [chatbot] global. *)
Record State := {
  world : World;
  chatbot : option Chatbot.DocumentChatbot
}.

Definition in_world {A} (m : M World A) : M State A :=
  zoom world (fun w s => {| world := w; chatbot := chatbot s |}) m.

Definition get_chatbot : M State (option Chatbot.DocumentChatbot) :=
  fun s => (inr (chatbot s), s).

(** [chatbot = c] *)
Definition set_chatbot (c : option Chatbot.DocumentChatbot) : M State unit :=
  modify (fun s => {| world := world s; chatbot := c |}).

(** [chatbot.method()]: the method runs on the object the global refers
    to, and what it assigned before raising stays assigned. *)
Definition on_chatbot {A} (m : Chatbot.Method A) : M State A :=
  fun s =>
    match chatbot s with
    | None => (inl (AttributeError "'NoneType' object has no attribute"), s)
    | Some cb =>
        let '(r, (cb', w')) := m (cb, world s) in
        (r, {| world := w'; chatbot := Some cb' |})
    end.

Definition not_ready_detail : string := "Please upload some documents first".

Section WithServices.
Context (sv : Services).

Definition initialize_chatbot : M State (option Chatbot.DocumentChatbot) :=
  try_except
    (cb ← get_chatbot;
     match cb with
     | Some _ => mret None
     | None =>
         new ← in_world (Chatbot.init sv);
         _ ← set_chatbot (Some new);
         present ← in_world (fs_query (fun f =>
                      inr (Os.path_exists "documents" f)));
         if negb present then
           _ ← in_world (fs_update (Os.makedirs "documents"));
           mret None
         else
           documents ← in_world (fs_query (Os.listdir "documents"));
           match documents with
           | [] => mret None
           | _ =>
               _ ← on_chatbot (Chatbot.setup_chain sv);
               get_chatbot
           end
     end)
    (fun e =>
       if contains not_ready_detail (str e) then mret None
       else raise (HTTPException 500
                     ("Failed to initialize chatbot: " +:+ str e))).

(** The endpoint [POST /upload] up to its response; [content] is the
    whole upload, which the source reads in chunks of 1MB, raising 413 as
    soon as the bytes read so far exceed 50MB. *)
Definition upload_file (filename content : string) : M State string :=
  try_except
    (_ ← in_world (fs_update (Os.makedirs "documents"));
     if 50 * 1024 * 1024 <? Z.of_nat (String.length content) then
       raise (HTTPException 413 "File too large. Maximum size is 50MB.")
     else
       let file_path := path_join "documents" filename in
       _ ← in_world (fs_update (Os.write file_path content));
       mret ("Document uploaded successfully: " +:+ filename +:+
             ". Processing in background..."))
    (fun e =>
       if is_HTTPException e then raise e
       else raise (HTTPException 500 (str e))).

(** The background task [init_chatbot] that [upload_file] schedules. *)
Definition init_chatbot (file_path : string) : M State unit :=
  try_except
    (new ← in_world (Chatbot.init sv);
     _ ← set_chatbot (Some new);
     on_chatbot (Chatbot.setup_chain sv))
    (fun e =>
       _ ← try_except (in_world (os_remove sv file_path))
             (fun _ => mret tt);
       raise e).

(** An upload followed by its background task. *)
Definition add (filename content : string) : M State unit :=
  _ ← upload_file filename content;
  init_chatbot (path_join "documents" filename).

(** The endpoint [POST /chat]. *)
Definition chat (message : string) : M State string :=
  try_except
    (present ← in_world (fs_query (fun f =>
                  inr (Os.path_exists "documents" f)));
     empty ← (if negb present then mret true
              else
                l ← in_world (fs_query (Os.listdir "documents"));
                mret (match l with [] => true | _ => false end));
     if (empty : bool) then raise (HTTPException 400 not_ready_detail)
     else
       cb ← get_chatbot;
       _ ← match cb with
           | None => r ← initialize_chatbot; set_chatbot r
           | Some _ => mret tt
           end;
       cb ← get_chatbot;
       match cb with
       | None => raise (HTTPException 400 not_ready_detail)
       | Some c =>
           match Chatbot.chain c with
           | None => raise (HTTPException 400 not_ready_detail)
           | Some _ => in_world (Chatbot.chat sv c message)
           end
       end)
    (fun e =>
       if is_HTTPException e then raise e
       else if contains not_ready_detail (str e)
            then raise (HTTPException 400 not_ready_detail)
            else raise (HTTPException 500 (str e))).

(** The loop of [delete_document]: whether a file was removed. *)
Fixpoint delete_loop (filenames : list string) : M World bool :=
  match filenames with
  | [] => mret false
  | filename :: rest =>
      let file_path := path_join "documents" filename in
      regular ← fs_query (fun f => inr (Os.isfile file_path f));
      if (regular : bool) then
        deleted ← try_except
                    (_ ← os_remove sv file_path; mret true)
                    (fun e => mret false);
        if (deleted : bool) then mret true else delete_loop rest
      else delete_loop rest
  end.

(** The endpoint [DELETE /documents/{document_id}]. *)
Definition delete_document (document_id : string) : M State string :=
  try_except
    (filenames ← in_world (fs_query (Os.listdir "documents"));
     deleted ← in_world (delete_loop filenames);
     if (deleted : bool) then
       _ ← set_chatbot None;
       remaining ← in_world (fs_query (Os.listdir "documents"));
       _ ← match remaining with
           | [] => mret None
           | _ => initialize_chatbot
           end;
       mret "Document deleted successfully"
     else raise (HTTPException 404 "Document not found"))
    (fun e => raise (HTTPException 500 (str e))).

End WithServices.
End Api.

(** ** src/src/document_manager.py *)

Module DocumentManager.

Record DocumentManager := { documents_dir : string }.

(** [DocumentManager(documents_dir)] *)
Definition init (documents_dir : string) : M World DocumentManager :=
  _ ← fs_update (Os.makedirs documents_dir);
  mret {| documents_dir := documents_dir |}.

Definition upload_document (self : DocumentManager) (file_path : string)
  : M World bool :=
  try_except
    (let filename := basename file_path in
     let destination := path_join (documents_dir self) filename in
     _ ← fs_update (Os.copy2 file_path destination);
     mret true)
    (fun e => mret false).

End DocumentManager.

(** ** src/src/vector_store.py *)

Module Vector_store.

(** The attributes of the class [VectorStore]. *)
Record VectorStoreBuilder := {
  embeddings : string;
  persist_directory : string
}.

Section WithServices.
Context (sv : Services).

Definition default_splitter : SplitterConfig :=
  {| chunk_size := 1000; chunk_overlap := 200;
     separators := [nl +:+ nl; nl; " "; ""] |}.

Definition create_vector_store (self : VectorStoreBuilder)
    (documents : list Document) : M World VectorStore :=
  match documents with
  | [] => raise (ValueError "No documents provided")
  | _ =>
      splits ← lift (Langchain.split_documents sv default_splitter documents);
      Langchain.Chroma_from_documents sv splits None (persist_directory self)
  end.

End WithServices.
End Vector_store.

(** ** src/chatbot.py *)

Module Cli.

Record DocumentChatbot := {
  documents_dir : string;
  embeddings : string;
  vectorstore : option VectorStore;
  memory : option nat;
  chain : option Chain
}.

Definition set_vectorstore (v : VectorStore) (self : DocumentChatbot) :=
  {| documents_dir := documents_dir self; embeddings := embeddings self;
     vectorstore := Some v; memory := memory self; chain := chain self |}.

Definition set_memory (m : nat) (self : DocumentChatbot) :=
  {| documents_dir := documents_dir self; embeddings := embeddings self;
     vectorstore := vectorstore self; memory := Some m; chain := chain self |}.

Definition set_chain (c : Chain) (self : DocumentChatbot) :=
  {| documents_dir := documents_dir self; embeddings := embeddings self;
     vectorstore := vectorstore self; memory := memory self;
     chain := Some c |}.

Definition Method (A : Type) : Type := M (DocumentChatbot * World) A.

Definition in_world {A} (m : M World A) : Method A :=
  zoom snd (fun w s => (s.1, w)) m.

Definition on_self (f : DocumentChatbot -> DocumentChatbot) : Method unit :=
  modify (fun s => (f s.1, s.2)).

Definition get_self : Method DocumentChatbot :=
  fun s => (inr s.1, s).

Definition on_new {A} (self : DocumentChatbot) (m : Method A)
  : M World DocumentChatbot :=
  fun w =>
    match m (self, w) with
    | (inr _, (self', w')) => (inr self', w')
    | (inl e, (_, w')) => (inl e, w')
    end.

Section WithServices.
Context (sv : Services).

(** The loader chosen for a file name, [None] for an unsupported type. *)
Definition choose_loader (filename : string) : option loader :=
  if endswith filename ".pdf" then Some PyPDFLoader
  else if endswith filename ".txt" then Some TextLoader
  else if endswith filename ".docx" then Some UnstructuredWordDocumentLoader
  else if endswith filename ".csv" then Some CSVLoader
  else None.

(** One iteration of the loop of [setup_vectorstore]. *)
Definition load_file (self : DocumentChatbot) (filename : string)
  : M World (list Document) :=
  let file_path := path_join (documents_dir self) filename in
  try_except
    (match choose_loader filename with
     | Some l => Langchain.load sv l file_path
     | None => mret []
     end)
    (fun e => mret []).

Fixpoint load_loop (self : DocumentChatbot) (filenames : list string)
    (documents : list Document) : M World (list Document) :=
  match filenames with
  | [] => mret documents
  | filename :: rest =>
      docs ← load_file self filename;
      load_loop self rest (documents ++ docs)
  end.

Definition setup_vectorstore : Method unit :=
  self ← get_self;
  filenames ← in_world (fs_query (Os.listdir (documents_dir self)));
  documents ← in_world (load_loop self filenames []);
  match documents with
  | [] => mret tt
  | _ =>
      splits ← lift (Langchain.split_documents sv
                       {| chunk_size := 1000; chunk_overlap := 200;
                          separators := [nl +:+ nl; nl; " "; ""] |}
                       documents);
      vs ← in_world (Langchain.Chroma_from_documents sv splits None "db");
      on_self (set_vectorstore vs)
  end.

Definition setup_chain : Method unit :=
  m ← in_world Langchain.ConversationBufferMemory;
  _ ← on_self (set_memory m);
  self ← get_self;
  match vectorstore self with
  | None =>
      raise (AttributeError
        "'DocumentChatbot' object has no attribute 'vectorstore'")
  | Some vs =>
      on_self (set_chain
        {| chain_model := "gpt-4o"; chain_retriever := vs; chain_k := 4;
           chain_memory := m |})
  end.

(** [DocumentChatbot()] *)
Definition init : M World DocumentChatbot :=
  _ ← fs_update (Os.makedirs "documents/");
  key ← Chatbot.getenv_key;
  match key with
  | None => raise (ValueError "Did not find openai_api_key")
  | Some k =>
      let self :=
        {| documents_dir := "documents/"; embeddings := k;
           vectorstore := None; memory := None; chain := None |} in
      on_new self (_ ← setup_vectorstore; setup_chain)
  end.

Definition upload_document (file_path : string) : Method bool :=
  try_except
    (self ← get_self;
     let filename := basename file_path in
     let destination := path_join (documents_dir self) filename in
     _ ← in_world (fs_update (Os.copy2 file_path destination));
     _ ← setup_vectorstore;
     mret true)
    (fun e => mret false).

Definition chat (query : string) : Method string :=
  self ← get_self;
  match chain self with
  | None =>
      raise (AttributeError
        "'DocumentChatbot' object has no attribute 'chain'")
  | Some c => in_world (Langchain.Chain_call sv c query [])
  end.

End WithServices.
End Cli.

(** ** Concrete collaborators and states *)

Module Sample.

(** Every file is read as one document holding its content unless the
    content says [corrupt], a text is one chunk, the services succeed unless
    the corpus exceeds two chunks or the question is [crash], retrieval
    returns the first [k] chunks and the model echoes them.  A clock reading
    is taken every 0.1s, and no removal of a file is refused. *)
Definition services : Services :=
  {| time_time := fun i => 1700000000200000 + Z.of_nat i * 100000;
     loader_load := fun l path content =>
       if contains "corrupt" content then inl (ServiceError "cannot parse")
       else inr [{| page_content := content; source := Some path |}];
     split_text := fun cfg text => inr [text];
     embed_documents := fun i docs =>
       if (3 <=? length docs)%nat then Some (ServiceError "quota exceeded")
       else None;
     persist_store := fun i vs => None;
     retrieve := fun i vs k query => inr (take k (vs_documents vs));
     llm_invoke := fun i docs history query =>
       if String.eqb query "crash" then inl (ServiceError "model unavailable")
       else inr (String.concat " " (map page_content docs));
     remove_error := fun i p => None |}.

(** The same collaborators on a system that refuses to remove
    [documents/a.txt]. *)
Definition locked : Services :=
  {| time_time := time_time services;
     loader_load := loader_load services;
     split_text := split_text services;
     embed_documents := embed_documents services;
     persist_store := persist_store services;
     retrieve := retrieve services;
     llm_invoke := llm_invoke services;
     remove_error := fun i p =>
       if String.eqb p "documents/a.txt"
       then Some (OSError "Permission denied") else None |}.

Definition empty_world : World :=
  {| fs := [("documents", Directory)]; OPENAI_API_KEY := Some "sk-test";
     memories := []; persisted := []; trace := [] |}.

Definition start : Api.State :=
  {| Api.world := empty_world; Api.chatbot := None |}.

(** The state reached from [s] by a step, whatever its outcome. *)
Definition after {A} (m : M Api.State A) (s : Api.State) : Api.State :=
  (m s).2.

Definition one_document : Api.State :=
  after (Api.add services "a.txt" "The sky is blue.") start.

Definition two_documents : Api.State :=
  after (Api.add services "b.txt" "Grass is green.") one_document.

(** A text file followed by a file named [.pdf] that is no PDF. *)
Definition with_bad_pdf : Api.State :=
  after (Api.add services "b.pdf" "junk") one_document.

(** An object on which [setup_chain] has assigned nothing. *)
Definition unbound : Chatbot.DocumentChatbot :=
  {| Chatbot.documents_dir := "documents/";
     Chatbot.persist_directory := "chroma_db";
     Chatbot.embeddings := "sk-test";
     Chatbot.text_splitter :=
       {| chunk_size := 1000; chunk_overlap := 200;
          separators := [nl +:+ nl; nl; " "; ""] |};
     Chatbot.vectorstore := None; Chatbot.memory := None;
     Chatbot.chain := None |}.

(** The chatbot of [two_documents] and its chain. *)
Definition bound_chatbot : Chatbot.DocumentChatbot :=
  match Api.chatbot two_documents with Some cb => cb | None => unbound end.

Definition bound_chain : Chain :=
  match Chatbot.chain bound_chatbot with
  | Some c => c
  | None =>
      {| chain_model := "";
         chain_retriever :=
           {| vs_documents := []; vs_collection_name := None;
              vs_persist_directory := "" |};
         chain_k := 0; chain_memory := 0 |}
  end.

(** A command-line session: the chatbot has been built over [a.txt];
    [b.txt] waits outside the store. *)
Definition cli_world : World :=
  {| fs := [("documents", Directory);
            ("documents/a.txt", RegularFile "The sky is blue.");
            ("uploads", Directory);
            ("uploads/b.txt", RegularFile "Grass is green.")];
     OPENAI_API_KEY := Some "sk-test";
     memories := []; persisted := []; trace := [] |}.

(** The store holds a directory [notes]; a file of that name waits
    outside. *)
Definition nested_world : World :=
  {| fs := [("documents", Directory);
            ("documents/notes", Directory);
            ("inbox", Directory);
            ("inbox/notes", RegularFile "Remember the milk.")];
     OPENAI_API_KEY := Some "sk-test";
     memories := []; persisted := []; trace := [] |}.



(** A store with a text file, a file named [.pdf] that is no PDF and a
    PDF that cannot be extracted. *)
Definition mixed_world : World :=
  {| fs := [("documents", Directory);
            ("documents/a.txt", RegularFile "The sky is blue.");
            ("documents/b.pdf", RegularFile "junk");
            ("documents/c.pdf", RegularFile "%PDF-1.4 corrupt")];
     OPENAI_API_KEY := Some "sk-test";
     memories := []; persisted := []; trace := [] |}.

(** An upload whose background task has not run yet. *)
Definition uploaded_not_processed : Api.State :=
  after (Api.upload_file "b.pdf" "junk") start.

End Sample.

(** The chatbot objects the program can hold: what [DocumentChatbot()]
    returns, and what a later [setup_chain()] makes of such an object,
    whether it returns or raises. *)
Inductive constructed (sv : Services) : Chatbot.DocumentChatbot -> Prop :=
| constructed_init w cb w' :
    Chatbot.init sv w = (inr cb, w') -> constructed sv cb
| constructed_setup_chain cb w r cb' w' :
    constructed sv cb ->
    Chatbot.setup_chain sv (cb, w) = (r, (cb', w')) ->
    constructed sv cb'.

(** A file name proper: not empty and without a directory part. *)
Definition plain_name (name : string) : bool :=
  negb (String.eqb name "") && negb (has_slash name).

(** Two worlds that differ at most in the record of external calls. *)
Definition same_store (w w' : World) : Prop :=
  fs w = fs w' /\ OPENAI_API_KEY w = OPENAI_API_KEY w'
  /\ memories w = memories w' /\ persisted w = persisted w'.

(** The file starts with the four bytes [%PDF]. *)
Definition pdf_header_ok (file_path : string) (f : list (string * node))
  : bool :=
  match Os.read file_path f with
  | inr c => String.eqb (substring 0 4 c) "%PDF"
  | inl _ => false
  end.

(** [PDFMinerLoader] cannot extract the file. *)
Definition extraction_fails (sv : Services) (file_path : string)
    (f : list (string * node)) : bool :=
  match Os.read file_path f with
  | inr c => negb (is_ok (loader_load sv PDFMinerLoader file_path c))
  | inl _ => true
  end.

(** ** Further endpoints of src/src/api.py *)

Module Endpoints.

(** The body of the answer of [GET /health]. *)
Record Health := {
  status : string;
  chatbot_initialized : bool;
  has_documents : bool
}.

Section WithServices.
Context (sv : Services).

(** The endpoint [GET /health]. *)
Definition health_check : M Api.State Health :=
  try_except
    (present ← Api.in_world (fs_query (fun f =>
                  inr (Os.path_exists "documents" f)));
     has_documents ← (if (present : bool) then
                        l ← Api.in_world (fs_query (Os.listdir "documents"));
                        mret (match l with [] => false | _ => true end)
                      else mret false);
     cb ← Api.get_chatbot;
     _ ← match cb with
         | None =>
             if (has_documents : bool)
             then _ ← Api.initialize_chatbot sv; mret tt
             else mret tt
         | Some _ => mret tt
         end;
     cb' ← Api.get_chatbot;
     mret {| status := "healthy";
             chatbot_initialized :=
               match cb' with Some _ => true | None => false end;
             has_documents := has_documents |})
    (fun e => raise (HTTPException 500 (str e))).

End WithServices.

(** The size limit of [upload_file], in bytes. *)
Definition max_upload : Z := 50 * 1024 * 1024.

(** The loop of [upload_file] that reads the upload: [rest] is what the
    file object has not returned yet, [n] the chunk size asked of
    [file.read], [fuel] bounds the number of iterations. *)
Fixpoint read_chunks (fuel n : nat) (rest : string) (file_size : Z)
    (content : string) : exn + string :=
  match fuel with
  | O => inr content
  | S fuel' =>
      let chunk := substring 0 n rest in
      if String.eqb chunk "" then inr content
      else
        let file_size := file_size + Z.of_nat (String.length chunk) in
        let content := content +:+ chunk in
        if max_upload <? file_size then
          inl (HTTPException 413 "File too large. Maximum size is 50MB.")
        else
          read_chunks fuel' n
            (substring n (String.length rest - n) rest) file_size content
  end.

End Endpoints.

(** A name that the system takes for an entry of a directory: not
    empty, at most 255 characters, without a slash or a NUL character, and
    neither of the names [.] and [..].  With such a name
    [os.path.join("documents", name)] is the path of that entry and of
    nothing else. *)
Definition proper_name (name : string) : bool :=
  plain_name name
  && (String.length name <=? 255)%nat
  && negb (existsb (Ascii.eqb zero) (list_ascii_of_string name))
  && negb (String.eqb name ".")
  && negb (String.eqb name "..").

(** The regular files of [f'] are those of [f], with the same contents. *)
Definition same_files (f f' : list (string * node)) : Prop :=
  forall q c,
    Os.lookup q f' = Some (RegularFile c) <-> Os.lookup q f = Some (RegularFile c).

(** [f'] is [f] followed by new directories that are no entries of the
    documents directory. *)
Definition dirs_added (f f' : list (string * node)) : Prop :=
  exists ds,
    f' = f ++ map (fun d => (d, Directory)) ds
    /\ Forall (fun d => child_name "documents" d = None) ds.

(** The first name of a listing that is a regular file of the documents
    directory and whose removal does not fail. *)
Definition first_removable (sv : Services) (w : World) (names : list string)
  : option string :=
  List.find
    (fun name =>
       Os.isfile (path_join "documents" name) (fs w)
       && match remove_error sv (length (trace w))
                  (path_join "documents" name) with
          | Some _ => false
          | None => true
          end) names.


(** ** The states of the web application *)

(** A chatbot object that can answer: it has a chain over a non-empty
    index that asks for three chunks, the chain keeps its conversation in
    the memory of the object, and that memory exists. *)
Definition well_bound (cb : Chatbot.DocumentChatbot) (w : World) : Prop :=
  exists c,
    Chatbot.chain cb = Some c
    /\ Chatbot.memory cb = Some (chain_memory c)
    /\ is_Some (memories w !! chain_memory c)
    /\ chain_k c = 3%nat
    /\ vs_documents (chain_retriever c) <> [].

(** The [chatbot] global is unbound or refers to such an object. *)
Definition chatbot_ok (s : Api.State) : Prop :=
  forall cb, Api.chatbot s = Some cb -> well_bound cb (Api.world s).

(** [ms'] holds the conversations of [ms] as they are, followed by new,
    empty ones. *)
Definition memories_extended (ms ms' : list (list Turn)) : Prop :=
  exists n, ms' = ms ++ repeat [] n.

(** What the process of src/src/api.py is asked to do: the
    [initialize_chatbot()] of the module body, the endpoints, and the
    background task that an upload schedules. *)
Inductive request :=
| Initialize
| Upload (filename content : string)
| Process (file_path : string)
| Chat (message : string)
| Delete (document_id : string)
| HealthCheck.

(** The state a request leaves, whatever it answers. *)
Definition handle (sv : Services) (r : request) (s : Api.State) : Api.State :=
  match r with
  | Initialize => (Api.initialize_chatbot sv s).2
  | Upload filename content => (Api.upload_file filename content s).2
  | Process file_path => (Api.init_chatbot sv file_path s).2
  | Chat message => (Api.chat sv message s).2
  | Delete document_id => (Api.delete_document sv document_id s).2
  | HealthCheck => (Endpoints.health_check sv s).2
  end.

(** The states the process can be in: it starts with [chatbot = None],
    serves requests, and between requests the files and the environment
    variable may change under it. *)
Inductive reachable (sv : Services) : Api.State -> Prop :=
| reachable_start w :
    reachable sv {| Api.world := w; Api.chatbot := None |}
| reachable_request s r :
    reachable sv s -> reachable sv (handle sv r s)
| reachable_environment s f key :
    reachable sv s ->
    reachable sv
      {| Api.world :=
           {| fs := f; OPENAI_API_KEY := key;
              memories := memories (Api.world s);
              persisted := persisted (Api.world s);
              trace := trace (Api.world s) |};
         Api.chatbot := Api.chatbot s |}.

(** ** Accounts: the authentication code of src/src/api.py and the table
    of src/src/database.py *)

Module Auth.

Definition ACCESS_TOKEN_EXPIRE_MINUTES : Z := 30.
Definition REFRESH_TOKEN_EXPIRE_DAYS : Z := 7.
Definition PASSWORD_RESET_TOKEN_EXPIRE_MINUTES : Z := 15.
Definition MAX_LOGIN_ATTEMPTS : Z := 5.
Definition LOGIN_COOLDOWN_MINUTES : Z := 15.

(** [timedelta(minutes=n)] and [timedelta(days=n)], in microseconds.  A
    point in time is the number of microseconds since the epoch, so that
    [timestamp()] and [fromtimestamp] are the identity. *)
Definition minutes (n : Z) : Z := n * 60 * 1000000.
Definition days (n : Z) : Z := n * 24 * 60 * 60 * 1000000.

(** A row of the table [users]; a nullable column is an option. *)
Record DBUser := {
  username : string;
  email : string;
  hashed_password : string;
  disabled : bool;
  failed_login_attempts : Z;
  last_failed_login : option Z;
  refresh_token : option string;
  reset_token : option string;
  reset_token_expires : option Z
}.

Definition with_email (e : string) (u : DBUser) : DBUser :=
  {| username := username u; email := e;
     hashed_password := hashed_password u; disabled := disabled u;
     failed_login_attempts := failed_login_attempts u;
     last_failed_login := last_failed_login u;
     refresh_token := refresh_token u; reset_token := reset_token u;
     reset_token_expires := reset_token_expires u |}.

Definition with_hashed_password (h : string) (u : DBUser) : DBUser :=
  {| username := username u; email := email u;
     hashed_password := h; disabled := disabled u;
     failed_login_attempts := failed_login_attempts u;
     last_failed_login := last_failed_login u;
     refresh_token := refresh_token u; reset_token := reset_token u;
     reset_token_expires := reset_token_expires u |}.

Definition with_failed_login (n : Z) (t : option Z) (u : DBUser) : DBUser :=
  {| username := username u; email := email u;
     hashed_password := hashed_password u; disabled := disabled u;
     failed_login_attempts := n; last_failed_login := t;
     refresh_token := refresh_token u; reset_token := reset_token u;
     reset_token_expires := reset_token_expires u |}.

Definition with_refresh_token (t : option string) (u : DBUser) : DBUser :=
  {| username := username u; email := email u;
     hashed_password := hashed_password u; disabled := disabled u;
     failed_login_attempts := failed_login_attempts u;
     last_failed_login := last_failed_login u;
     refresh_token := t; reset_token := reset_token u;
     reset_token_expires := reset_token_expires u |}.

Definition with_reset_token (t : option string) (e : option Z) (u : DBUser)
  : DBUser :=
  {| username := username u; email := email u;
     hashed_password := hashed_password u; disabled := disabled u;
     failed_login_attempts := failed_login_attempts u;
     last_failed_login := last_failed_login u;
     refresh_token := refresh_token u; reset_token := t;
     reset_token_expires := e |}.

(** The claims that [create_token] signs. *)
Record Claims := {
  sub : string;
  refresh : bool;
  exp : Z
}.

(** The response model [Token]. *)
Record Token := {
  access_token : string;
  token_refresh_token : string;
  token_type : string
}.

(** The request model [UserUpdate]. *)
Record UserUpdate := {
  update_email : option string;
  current_password : option string;
  new_password : option string
}.

(** The committed rows, oldest first, and the number of calls made so
    far to the collaborators below. *)
Record Db := {
  users : list DBUser;
  calls : nat
}.

(** The collaborators outside the repository: the clocks, passlib,
    [secrets] and jose.  What depends on time or on randomness is indexed by
    the number of calls made so far. *)
Record Services := {
  (** [datetime.now()] *)
  now : nat -> Z;
  (** [datetime.utcnow()] *)
  utcnow : nat -> Z;
  (** [str] of a [datetime] *)
  datetime_str : Z -> string;
  (** [pwd_context.hash(password)] *)
  pwd_hash : nat -> string -> exn + string;
  (** [pwd_context.verify(plain_password, hashed_password)] *)
  pwd_verify : string -> string -> exn + bool;
  (** [secrets.token_urlsafe(32)] *)
  token_urlsafe : nat -> string;
  (** [jwt.encode(claims, SECRET_KEY, algorithm=ALGORITHM)] *)
  jwt_encode : Claims -> string;
  (** [jwt.decode(token, SECRET_KEY, algorithms=[ALGORITHM]).get("sub")],
      [None] when [jwt.decode] raises [JWTError] *)
  jwt_decode : nat -> string -> option (option string);
  (** pydantic's [EmailStr]: the address as validated, [None] when it is
      refused *)
  email_str : string -> option string
}.

(** Counts a call to a collaborator and returns its index. *)
Definition call : M Db nat :=
  fun s => (inr (calls s), {| users := users s; calls := S (calls s) |}).

(** [db.query(DBUser).filter(...).first()] *)
Definition first (p : DBUser -> bool) : M Db (option DBUser) :=
  fun s => (inr (List.find p (users s)), s).

(** [db.commit()] after assignments to attributes of [user]: the row of
    that user is replaced; a new value of the unique column [email] that
    another row holds is refused. *)
Definition commit (user : DBUser) : M Db unit :=
  fun s =>
    match List.find (fun u => String.eqb (username u) (username user))
            (users s) with
    | None => (inr tt, s)
    | Some old =>
        if negb (String.eqb (email old) (email user))
           && existsb (fun u => String.eqb (email u) (email user)) (users s)
        then (inl (ServiceError "IntegrityError"), s)
        else
          (inr tt,
           {| users :=
                map (fun u =>
                       if String.eqb (username u) (username user) then user
                       else u) (users s);
              calls := calls s |})
    end.

(** [db.add(db_user); db.commit()]: the primary key [username] and the
    unique column [email] are enforced. *)
Definition add (db_user : DBUser) : M Db unit :=
  fun s =>
    if existsb (fun u => String.eqb (username u) (username db_user)
                         || String.eqb (email u) (email db_user)) (users s)
    then (inl (ServiceError "IntegrityError"), s)
    else (inr tt, {| users := users s ++ [db_user]; calls := calls s |}).

(** [c.isupper()] and [c.isdigit()] for a character, a code point
    below 256. *)
Definition isupper (c : ascii) : bool :=
  let n := nat_of_ascii c in
  ((65 <=? n) && (n <=? 90) || (192 <=? n) && (n <=? 214)
   || (216 <=? n) && (n <=? 222))%nat.

Definition isdigit (c : ascii) : bool :=
  let n := nat_of_ascii c in
  ((48 <=? n) && (n <=? 57) || (n =? 178) || (n =? 179) || (n =? 185))%nat.

(** [any(p(c) for c in s)] *)
Fixpoint any (p : ascii -> bool) (s : string) : bool :=
  match s with
  | EmptyString => false
  | String c r => p c || any p r
  end.

(** pydantic's [constr(min_length, max_length)]: whether the string is
    accepted. *)
Definition constr (min_length : nat) (max_length : option nat) (s : string)
  : bool :=
  (min_length <=? String.length s)%nat
  && match max_length with
     | Some m => (String.length s <=? m)%nat
     | None => true
     end.

(** The answer of FastAPI to a request that the model of its body refuses:
    status 422, before the endpoint runs.  The detail, the list of the
    refused fields, is not represented. *)
Definition unprocessable : exn := HTTPException 422 "Unprocessable Entity".

(** The truth value of an optional string. *)
Definition truthy (o : option string) : bool :=
  match o with
  | Some s => negb (String.eqb s "")
  | None => false
  end.

Definition get_user (username' : string) : M Db (option DBUser) :=
  first (fun u => String.eqb (username u) username').

Definition get_user_by_email (email' : string) : M Db (option DBUser) :=
  first (fun u => String.eqb (email u) email').

Section WithServices.
Context (sv : Services).

Definition verify_password (plain_password hashed_password' : string)
  : M Db bool :=
  lift (pwd_verify sv plain_password hashed_password').

Definition get_password_hash (password : string) : M Db string :=
  i ← call;
  lift (pwd_hash sv i password).

(** [False] is [None]. *)
Definition authenticate_user (username' password : string)
  : M Db (option DBUser) :=
  user ← get_user username';
  match user with
  | None => mret None
  | Some user =>
      user ←
        (if MAX_LOGIN_ATTEMPTS <=? failed_login_attempts user then
           match last_failed_login user with
           | None => mret user
           | Some t =>
               if t =? 0 then mret user
               else
                 let lockout_time := t + minutes LOGIN_COOLDOWN_MINUTES in
                 i ← call;
                 if now sv i <? lockout_time then
                   raise (HTTPException 403
                            ("Account locked. Try again after " +:+
                             datetime_str sv lockout_time))
                 else
                   let user :=
                     with_failed_login 0 (last_failed_login user) user in
                   _ ← commit user;
                   mret user
           end
         else mret user);
      ok ← verify_password password (hashed_password user);
      if negb ok then
        i ← call;
        let user :=
          with_failed_login (failed_login_attempts user + 1)
            (Some (now sv i)) user in
        _ ← commit user;
        raise (HTTPException 401 "Incorrect password")
      else
        let user := with_failed_login 0 None user in
        _ ← commit user;
        mret (Some user)
  end.

Definition create_token (sub' : string) (refresh' : bool)
    (expires_delta : option Z) : M Db string :=
  i ← call;
  let expire :=
    match expires_delta with
    | Some d => if d =? 0 then utcnow sv i + minutes 15 else utcnow sv i + d
    | None => utcnow sv i + minutes 15
    end in
  mret (jwt_encode sv {| sub := sub'; refresh := refresh'; exp := expire |}).

Definition credentials_exception : exn :=
  HTTPException 401 "Could not validate credentials".

Definition get_current_user (token : string) : M Db DBUser :=
  i ← call;
  match jwt_decode sv i token with
  | None => raise credentials_exception
  | Some None => raise credentials_exception
  | Some (Some username') =>
      user ← get_user username';
      match user with
      | None => raise credentials_exception
      | Some user => mret user
      end
  end.

Definition get_current_active_user (token : string) : M Db DBUser :=
  current_user ← get_current_user token;
  if disabled current_user then raise (HTTPException 400 "Inactive user")
  else mret current_user.

(** [POST /token] *)
Definition login_for_access_token (username' password : string)
  : M Db Token :=
  user ← authenticate_user username' password;
  match user with
  | None => raise (HTTPException 401 "Incorrect username or password")
  | Some user =>
      access_token' ←
        create_token (username user) false
          (Some (minutes ACCESS_TOKEN_EXPIRE_MINUTES));
      refresh_token' ←
        create_token (username user) true
          (Some (days REFRESH_TOKEN_EXPIRE_DAYS));
      _ ← commit (with_refresh_token (Some refresh_token') user);
      mret {| access_token := access_token';
              token_refresh_token := refresh_token';
              token_type := "bearer" |}
  end.

(** The request model [UserCreate]: the fields as validated, [None] when
    one of them is refused. *)
Definition UserCreate (username' email' password : string)
  : option (string * string * string) :=
  if negb (constr 3 (Some 50%nat) username') then None
  else
    match email_str sv email' with
    | None => None
    | Some email' =>
        if negb (constr 8 None password) then None
        else Some (username', email', password)
    end.

(** [POST /register]; the answer is the new row. *)
Definition register_user (username' email' password : string)
  : M Db DBUser :=
  match UserCreate username' email' password with
  | None => raise unprocessable
  | Some (username', email', password) =>
      db_user ← get_user username';
      match db_user with
      | Some _ => raise (HTTPException 400 "Username already registered")
      | None =>
          db_user ← get_user_by_email email';
          match db_user with
          | Some _ => raise (HTTPException 400 "Email already registered")
          | None =>
              if (String.length password <? 8)%nat then
                raise (HTTPException 400
                         "Password must be at least 8 characters")
              else if negb (any isupper password) then
                raise (HTTPException 400
                         "Password must contain at least one uppercase letter")
              else if negb (any isdigit password) then
                raise (HTTPException 400
                         "Password must contain at least one number")
              else
                hashed_password' ← get_password_hash password;
                let db_user :=
                  {| username := username'; email := email';
                     hashed_password := hashed_password'; disabled := false;
                     failed_login_attempts := 0; last_failed_login := None;
                     refresh_token := None; reset_token := None;
                     reset_token_expires := None |} in
                _ ← add db_user;
                mret db_user
          end
      end
  end.

(** [POST /refresh-token] *)
Definition refresh_access_token (refresh_token' : string) : M Db Token :=
  i ← call;
  match jwt_decode sv i refresh_token' with
  | None => raise (HTTPException 401 "Invalid refresh token")
  | Some username' =>
      if negb (truthy username') then
        raise (HTTPException 401 "Invalid refresh token")
      else
        let username' := default "" username' in
        user ← get_user username';
        match user with
        | None => raise (HTTPException 401 "Invalid refresh token")
        | Some user =>
            if match refresh_token user with
               | Some t => negb (String.eqb t refresh_token')
               | None => true
               end
            then raise (HTTPException 401 "Invalid refresh token")
            else
              access_token' ←
                create_token username' false
                  (Some (minutes ACCESS_TOKEN_EXPIRE_MINUTES));
              new_refresh_token ←
                create_token username' true
                  (Some (days REFRESH_TOKEN_EXPIRE_DAYS));
              _ ← commit (with_refresh_token (Some new_refresh_token) user);
              mret {| access_token := access_token';
                      token_refresh_token := new_refresh_token;
                      token_type := "bearer" |}
        end
  end.

Definition reset_message : string :=
  "If the email exists, a password reset link will be sent".

(** [POST /reset-password]; the body is a [PasswordReset]. *)
Definition request_password_reset (email' : string) : M Db string :=
  match email_str sv email' with
  | None => raise unprocessable
  | Some email' =>
      user ← get_user_by_email email';
      match user with
      | None => mret reset_message
      | Some user =>
          i ← call;
          let reset_token' := token_urlsafe sv i in
          j ← call;
          let expires :=
            now sv j + minutes PASSWORD_RESET_TOKEN_EXPIRE_MINUTES in
          _ ← commit (with_reset_token (Some reset_token') (Some expires)
                        user);
          mret reset_message
      end
  end.

(** [POST /reset-password-confirm]; the body is a
    [PasswordResetConfirm]. *)
Definition confirm_password_reset (token new_password' : string)
  : M Db string :=
  if negb (constr 8 None new_password') then raise unprocessable
  else
    user ← first (fun u =>
              match reset_token u with
              | Some t => String.eqb t token
              | None => false
              end);
    match user with
    | None => raise (HTTPException 400 "Invalid or expired reset token")
    | Some user =>
        expired ←
          match reset_token_expires user with
          | None => mret true
          | Some e =>
              if e =? 0 then mret true
              else i ← call; mret (e <? now sv i)
          end;
        if (expired : bool) then
          raise (HTTPException 400 "Reset token has expired")
        else
          hashed_password' ← get_password_hash new_password';
          _ ← commit (with_reset_token None None
                        (with_hashed_password hashed_password' user));
          mret "Password has been reset successfully"
    end.

(** The body of [PUT /users/me] for the user that
    [get_current_active_user] returned. *)
Definition update_user (user_update : UserUpdate) (current_user : DBUser)
  : M Db DBUser :=
  current_user ←
    (if truthy (update_email user_update) then
       let email' := default "" (update_email user_update) in
       existing_user ← get_user_by_email email';
       match existing_user with
       | Some existing_user =>
           if negb (String.eqb (username existing_user)
                      (username current_user))
           then raise (HTTPException 400 "Email already registered")
           else mret (with_email email' current_user)
       | None => mret (with_email email' current_user)
       end
     else mret current_user);
  current_user ←
    (if truthy (current_password user_update)
        && truthy (new_password user_update) then
       ok ← verify_password (default "" (current_password user_update))
              (hashed_password current_user);
       if negb ok then
         raise (HTTPException 400 "Incorrect current password")
       else
         hashed_password' ←
           get_password_hash (default "" (new_password user_update));
         mret (with_hashed_password hashed_password' current_user)
     else mret current_user);
  _ ← commit current_user;
  mret current_user.

(** [PUT /users/me] with its dependency. *)
Definition update_me (token : string) (user_update : UserUpdate)
  : M Db DBUser :=
  current_user ← get_current_active_user token;
  update_user user_update current_user.

End WithServices.

(** No two rows share a user name or an e-mail address, as the table
    demands. *)
Definition unique (rows : list DBUser) : Prop :=
  NoDup (map username rows) /\ NoDup (map email rows).

(** The row of a user, if there is one. *)
Definition row (name : string) (s : Db) : option DBUser :=
  List.find (fun u => String.eqb (username u) name) (users s).

(** A password within the rules of [register_user]. *)
Definition acceptable (password : string) : bool :=
  (8 <=? String.length password)%nat
  && any isupper password && any isdigit password.

(** The state after a run of sign-in attempts of one user. *)
Fixpoint attempts (sv : Services) (name : string) (passwords : list string)
    (s : Db) : Db :=
  match passwords with
  | [] => s
  | p :: r => attempts sv name r (authenticate_user sv name p s).2
  end.

End Auth.

(** Concrete collaborators for the account code: one clock reading per
    second, a hash that is recognisable, tokens that name their user, and
    an address accepted as it is when it holds an [@]. *)
Module AuthSample.

Fixpoint before_dot (s : string) : string :=
  match s with
  | EmptyString => EmptyString
  | String c r =>
      if Ascii.eqb c "."%char then EmptyString else String c (before_dot r)
  end.

Definition services : Auth.Services :=
  {| Auth.now := fun i => 1700000000000000 + Z.of_nat i * 1000000;
     Auth.utcnow := fun i => 1700000000000000 + Z.of_nat i * 1000000;
     Auth.datetime_str := str_of_Z;
     Auth.pwd_hash := fun i p => inr ("bcrypt:" +:+ p);
     Auth.pwd_verify := fun p h => inr (String.eqb h ("bcrypt:" +:+ p));
     Auth.token_urlsafe := fun i => "reset-" +:+ str_of_nat i;
     Auth.jwt_encode := fun c =>
       Auth.sub c +:+ (if Auth.refresh c then ".refresh." else ".access.")
       +:+ str_of_Z (Auth.exp c);
     Auth.jwt_decode := fun i t => Some (Some (before_dot t));
     Auth.email_str := fun e => if contains "@" e then Some e else None |}.

Definition empty : Auth.Db := {| Auth.users := []; Auth.calls := 0 |}.

(** Two accounts. *)
Definition registered : Auth.Db :=
  (Auth.register_user services "bob" "bob@example.org" "Hunter2hunter"
     (Auth.register_user services "alice" "alice@example.org" "Secret123"
        empty).2).2.

Definition alice : Auth.DBUser :=
  {| Auth.username := "alice"; Auth.email := "alice@example.org";
     Auth.hashed_password := "bcrypt:Secret123"; Auth.disabled := false;
     Auth.failed_login_attempts := 0; Auth.last_failed_login := None;
     Auth.refresh_token := None; Auth.reset_token := None;
     Auth.reset_token_expires := None |}.

End AuthSample.

(** The rows after the row of [user] has been rewritten. *)
Definition rewritten (user : Auth.DBUser) (rows : list Auth.DBUser)
  : list Auth.DBUser :=
  map (fun u =>
         if String.eqb (Auth.username u) (Auth.username user) then user
         else u) rows.

(** ** src/src/document_loaders.py and the loading of
    src/src/document_manager.py *)

(** [c.lower()] for a character, a code point below 256. *)
Definition lower_char (c : ascii) : ascii :=
  let n := nat_of_ascii c in
  if ((65 <=? n) && (n <=? 90) || (192 <=? n) && (n <=? 214)
      || (216 <=? n) && (n <=? 222))%nat
  then ascii_of_nat (n + 32) else c.

(** [s.lower()] *)
Fixpoint lower (s : string) : string :=
  match s with
  | EmptyString => EmptyString
  | String c r => String (lower_char c) (lower r)
  end.

(** [s.rfind(c) + 1]: the position after the last [c], [0] if there is
    none. *)
Fixpoint rfind1 (c : ascii) (s : string) : nat :=
  match s with
  | EmptyString => 0
  | String a r =>
      match rfind1 c r with
      | O => if Ascii.eqb a c then 1 else 0
      | S k => S (S k)
      end
  end.

Fixpoint all_dots (s : string) : bool :=
  match s with
  | EmptyString => true
  | String a r => Ascii.eqb a "."%char && all_dots r
  end.

(** [os.path.splitext]: the extension starts at the last dot of the last
    component, unless only dots precede it there. *)
Definition splitext (p : string) : string * string :=
  let sepIndex1 := rfind1 slash p in
  let dotIndex1 := rfind1 "."%char p in
  if (sepIndex1 <? dotIndex1)%nat then
    let dotIndex := (dotIndex1 - 1)%nat in
    if all_dots (substring sepIndex1 (dotIndex - sepIndex1) p) then
      (p, EmptyString)
    else
      (substring 0 dotIndex p,
       substring dotIndex (String.length p - dotIndex) p)
  else (p, EmptyString).

Module DocumentLoader.

(** The dictionary [loaders]. *)
Definition loaders (file_type : string) : option loader :=
  if String.eqb file_type ".pdf" then Some PyPDFLoader
  else if String.eqb file_type ".txt" then Some TextLoader
  else if String.eqb file_type ".docx" then Some UnstructuredWordDocumentLoader
  else if String.eqb file_type ".csv" then Some CSVLoader
  else None.

Definition load_document (sv : Services) (file_path file_type : string)
  : M World (list Document) :=
  match loaders file_type with
  | None => raise (ValueError ("Unsupported file type: " +:+ file_type))
  | Some l => Langchain.load sv l file_path
  end.

End DocumentLoader.

Module Document_manager.
Section WithServices.
Context (sv : Services).

(** One iteration of the loop of [DocumentManager.load_documents]. *)
Definition load_file (self : DocumentManager.DocumentManager)
    (filename : string) : M World (list Document) :=
  let file_path := path_join (DocumentManager.documents_dir self) filename in
  let file_type := lower (splitext filename).2 in
  try_except (DocumentLoader.load_document sv file_path file_type)
    (fun e => mret []).

Fixpoint load_loop (self : DocumentManager.DocumentManager)
    (filenames : list string) (documents : list Document)
  : M World (list Document) :=
  match filenames with
  | [] => mret documents
  | filename :: rest =>
      docs ← load_file self filename;
      load_loop self rest (documents ++ docs)
  end.

(** [DocumentManager.load_documents] *)
Definition load_documents (self : DocumentManager.DocumentManager)
  : M World (list Document) :=
  filenames ← fs_query (Os.listdir (DocumentManager.documents_dir self));
  load_loop self filenames [].

End WithServices.

(** What a file of the directory contributes: what the loader for its
    type returns for it, nothing when the type is not supported, the file
    cannot be read or the loader fails. *)
Definition contribution (sv : Services) (self : DocumentManager.DocumentManager)
    (f : list (string * node)) (filename : string) : list Document :=
  let file_path := path_join (DocumentManager.documents_dir self) filename in
  match DocumentLoader.loaders (lower (splitext filename).2) with
  | None => []
  | Some l =>
      match Os.read file_path f with
      | inl _ => []
      | inr content =>
          match loader_load sv l file_path content with
          | inl _ => []
          | inr docs => docs
          end
      end
  end.

End Document_manager.

(** ** The listing of src/src/api.py *)

Module Listing.

(** The response model [Document] of src/src/api.py. *)
Record Document := {
  id : string;
  filename : string;
  uploaded_at : Z;
  user_id : string
}.

(** [uuid.uuid4()], by the number of identifiers drawn so far, and
    [os.path.getctime] as a point in time. *)
Record Services := {
  uuid4 : nat -> string;
  getctime : string -> exn + Z
}.

(** The world and the number of identifiers drawn so far. *)
Record State := {
  world : World;
  uuids : nat
}.

Definition in_world {A} (m : M World A) : M State A :=
  zoom world (fun w s => {| world := w; uuids := uuids s |}) m.

Definition draw : M State nat :=
  fun s => (inr (uuids s), {| world := world s; uuids := S (uuids s) |}).

(** [sorted(documents, key=lambda x: x.uploaded_at, reverse=True)]: the
    sort is stable, documents of the same time keep their order. *)
Fixpoint insert (doc : Document) (l : list Document) : list Document :=
  match l with
  | [] => [doc]
  | y :: r =>
      if uploaded_at y <=? uploaded_at doc then doc :: l
      else y :: insert doc r
  end.

Fixpoint sorted_reverse (documents : list Document) : list Document :=
  match documents with
  | [] => []
  | doc :: r => insert doc (sorted_reverse r)
  end.

Section WithServices.
Context (sv : Services).

(** The loop of [list_documents]. *)
Fixpoint list_loop (user_id' : string) (filenames : list string)
    (documents : list Document) : M State (list Document) :=
  match filenames with
  | [] => mret documents
  | filename' :: rest =>
      let file_path := path_join "documents" filename' in
      regular ← in_world (fs_query (fun f => inr (Os.isfile file_path f)));
      if (regular : bool) then
        i ← draw;
        ctime ← lift (getctime sv file_path);
        list_loop user_id' rest
          (documents ++ [{| id := uuid4 sv i; filename := filename';
                            uploaded_at := ctime; user_id := user_id' |}])
      else list_loop user_id' rest documents
  end.

(** The endpoint [GET /documents]. *)
Definition list_documents (current_user : Auth.DBUser)
  : M State (list Document) :=
  try_except
    (present ← in_world (fs_query (fun f =>
                  inr (Os.path_exists "documents" f)));
     if negb present then mret []
     else
       filenames ← in_world (fs_query (Os.listdir "documents"));
       documents ← list_loop (Auth.username current_user) filenames [];
       mret (sorted_reverse documents))
    (fun e => raise (HTTPException 500 (str e))).

End WithServices.

(** The regular files among the entries of the documents directory, in
    the order of the listing. *)
Definition regular_files (f : list (string * node)) : list string :=
  match Os.listdir "documents" f with
  | inr names =>
      List.filter (fun n => Os.isfile (path_join "documents" n) f) names
  | inl _ => []
  end.

End Listing.
(** ** Properties *)

Arguments Langchain.split_documents : simpl never.
Arguments Chatbot.init : simpl never.
Arguments Chatbot.setup_chain : simpl never.
Arguments Chatbot.load_documents : simpl never.
Arguments Chatbot.create_vector_store : simpl never.
Arguments Chatbot.chat : simpl never.
Arguments Api.initialize_chatbot : simpl never.

Arguments os_remove : simpl never.

Ltac unfold_m :=
  unfold mbind, M_bind, mret, M_ret, bind, ret, raise, try_except, lift,
    zoom, modify, get, fs_query, fs_update, tick in *.

(** [os.remove] either raises and leaves the world as it is, or removes
    the file as the filesystem has it. *)
Lemma os_remove_cases sv p w :
  (exists e, os_remove sv p w = (inl e, w))
  \/ (exists f',
        remove_error sv (length (trace w)) p = None
        /\ Os.remove p (fs w) = inr f'
        /\ os_remove sv p w = (inr tt, set_fs f' w)).
Proof.
  unfold os_remove, fs_update.
  destruct (remove_error sv (length (trace w)) p) as [e|]; [by eauto|].
  destruct (Os.remove p (fs w)) as [e|f']; by eauto.
Qed.

Lemma load_same_store sv l p w :
  same_store w (Langchain.load sv l p w).2.
Proof.
  unfold Langchain.load. unfold_m. simpl.
  destruct (Os.read p (fs w)); simpl; [done|].
  done.
Qed.

Lemma load_fs_only sv l p w w' :
  fs w = fs w' -> (Langchain.load sv l p w).1 = (Langchain.load sv l p w').1.
Proof.
  intros H. unfold Langchain.load. unfold_m. simpl. rewrite <- H.
  destruct (Os.read p (fs w)); reflexivity.
Qed.

Lemma load_pdf_same_store sv p w :
  same_store w (Chatbot.load_pdf sv p w).2.
Proof.
  unfold Chatbot.load_pdf. unfold_m.
  destruct (Os.read p (fs w)) as [e|c]; [done|].
  destruct (negb (String.eqb (substring 0 4 c) "%PDF")); [done|].
  pose proof (load_same_store sv PDFMinerLoader p w) as H.
  destruct (Langchain.load sv PDFMinerLoader p w) as [[e|docs] w1]; exact H.
Qed.

Lemma load_pdf_fs_only sv p w w' :
  fs w = fs w' -> (Chatbot.load_pdf sv p w).1 = (Chatbot.load_pdf sv p w').1.
Proof.
  intros H. unfold Chatbot.load_pdf. unfold_m. rewrite <- H.
  destruct (Os.read p (fs w)) as [e|c]; [done|].
  destruct (negb (String.eqb (substring 0 4 c) "%PDF")); [done|].
  pose proof (load_fs_only sv PDFMinerLoader p w w' H) as E.
  destruct (Langchain.load sv PDFMinerLoader p w) as [[e|docs] w1],
           (Langchain.load sv PDFMinerLoader p w') as [[e'|docs'] w1'];
    simpl in *; congruence.
Qed.

Lemma same_store_trans w1 w2 w3 :
  same_store w1 w2 -> same_store w2 w3 -> same_store w1 w3.
Proof. unfold same_store. intuition congruence. Qed.

Lemma load_file_same_store sv self name w :
  same_store w (Chatbot.load_file sv self name w).2.
Proof.
  unfold Chatbot.load_file, Chatbot.getsize. unfold_m.
  destruct (Os.lookup _ (fs w)) as [[c|]|]; try done.
  - destruct (endswith name ".pdf").
    + pose proof (load_pdf_same_store sv (path_join (Chatbot.documents_dir self) name) w) as H.
      destruct (Chatbot.load_pdf _ _ _) as [[e|d] w1]; exact H.
    + pose proof (load_same_store sv TextLoader (path_join (Chatbot.documents_dir self) name) w) as H.
      destruct (Langchain.load _ _ _ _) as [[e|d] w1]; exact H.
  - destruct (endswith name ".pdf").
    + pose proof (load_pdf_same_store sv (path_join (Chatbot.documents_dir self) name) w) as H.
      destruct (Chatbot.load_pdf _ _ _) as [[e|d] w1]; exact H.
    + pose proof (load_same_store sv TextLoader (path_join (Chatbot.documents_dir self) name) w) as H.
      destruct (Langchain.load _ _ _ _) as [[e|d] w1]; exact H.
Qed.

Lemma try_except_fst {S A} (m m' : M S A) (h : exn -> M S A) (v : A) s s' :
  (forall e t, h e t = (inr v, t)) ->
  (m s).1 = (m' s').1 ->
  (try_except m h s).1 = (try_except m' h s').1.
Proof.
  intros Hh E. unfold try_except.
  destruct (m s) as [[e|a] t], (m' s') as [[e'|a'] t']; simpl in *;
    rewrite ?Hh; simpl; congruence.
Qed.

Lemma load_file_fs_only sv self name w w' :
  fs w = fs w' ->
  (Chatbot.load_file sv self name w).1 = (Chatbot.load_file sv self name w').1.
Proof.
  intros H. unfold Chatbot.load_file, Chatbot.getsize.
  unfold mbind, M_bind, bind, fs_query. rewrite <- H.
  set (p := path_join (Chatbot.documents_dir self) name).
  destruct (Os.lookup p (fs w)) as [[c|]|]; try done;
    apply try_except_fst with (v := []); try done;
    destruct (endswith name ".pdf");
    auto using load_pdf_fs_only, load_fs_only.
Qed.

Lemma load_loop_same_store sv self names : forall docs w,
  same_store w (Chatbot.load_loop sv self names docs w).2.
Proof.
  induction names as [|n names IH]; intros docs w; simpl; [done|].
  unfold_m.
  pose proof (load_file_same_store sv self n w) as H.
  destruct (Chatbot.load_file sv self n w) as [[e|d] w1]; simpl in *; [done|].
  eapply same_store_trans; [exact H|apply IH].
Qed.

Lemma load_loop_fs_only sv self names : forall docs w w',
  fs w = fs w' ->
  (Chatbot.load_loop sv self names docs w).1
  = (Chatbot.load_loop sv self names docs w').1.
Proof.
  induction names as [|n names IH]; intros docs w w' H; simpl; [done|].
  unfold_m.
  pose proof (load_file_fs_only sv self n w w' H) as E.
  pose proof (load_file_same_store sv self n w) as [S1 _].
  pose proof (load_file_same_store sv self n w') as [S2 _].
  destruct (Chatbot.load_file sv self n w) as [[e|d] w1],
           (Chatbot.load_file sv self n w') as [[e'|d'] w1'];
    simpl in *; try congruence.
  inversion E; subst. apply IH. congruence.
Qed.

Lemma load_documents_same_store sv self w :
  same_store w (Chatbot.load_documents sv self w).2.
Proof.
  unfold Chatbot.load_documents. unfold_m.
  destruct (Os.listdir _ (fs w)) as [e|names]; [done|].
  pose proof (load_loop_same_store sv self names [] w) as H.
  destruct (Chatbot.load_loop sv self names [] w) as [[e|[|d docs]] w1];
    exact H.
Qed.


Lemma load_documents_nonempty sv self w docs w' :
  Chatbot.load_documents sv self w = (inr docs, w') -> docs <> [].
Proof.
  unfold Chatbot.load_documents. unfold_m.
  destruct (Os.listdir _ (fs w)) as [e|names]; [done|].
  destruct (Chatbot.load_loop sv self names [] w) as [[e|[|d ds]] w1];
    intros H; inversion H; done.
Qed.

Lemma process_documents_nonempty sv self docs texts :
  Chatbot.process_documents sv self docs = inr texts -> texts <> [].
Proof.
  unfold Chatbot.process_documents.
  destruct (flat_map _ docs); intros H; inversion H; done.
Qed.

(** What [create_vector_store] leaves alone, and what it returns. *)
Lemma create_vector_store_frame sv self texts w :
  let w' := (Chatbot.create_vector_store sv self texts w).2 in
  fs w' = fs w /\ OPENAI_API_KEY w' = OPENAI_API_KEY w
  /\ memories w' = memories w.
Proof.
  unfold Chatbot.create_vector_store, Langchain.Chroma_from_documents,
    Langchain.Chroma_persist. unfold_m.
  destruct texts as [|t texts]; [done|]. simpl.
  destruct (embed_documents sv _ _); simpl; [done|].
  destruct (persist_store sv _ _); simpl; done.
Qed.

Lemma create_vector_store_inr sv self texts w vs w' :
  Chatbot.create_vector_store sv self texts w = (inr vs, w') ->
  texts <> []
  /\ vs = {| vs_documents := texts;
             vs_collection_name :=
               Some ("collection_" +:+
                     str_of_Z (Z.quot (time_time sv (length (trace w)))
                                 1000000));
             vs_persist_directory := Chatbot.persist_directory self |}.
Proof.
  unfold Chatbot.create_vector_store, Langchain.Chroma_from_documents,
    Langchain.Chroma_persist. unfold_m.
  destruct texts as [|t texts]; [done|]. simpl.
  destruct (embed_documents sv _ _); simpl; [done|].
  destruct (persist_store sv _ _); simpl; [done|].
  intros H; inversion H; done.
Qed.

(** The chain that [setup_chain] builds over a store and a memory. *)
Lemma setup_chain_inr sv self w self' w' :
  Chatbot.setup_chain sv (self, w) = (inr tt, (self', w')) ->
  exists documents texts vs w1 w2,
    Chatbot.load_documents sv self w = (inr documents, w1)
    /\ Chatbot.process_documents sv self documents = inr texts
    /\ Chatbot.create_vector_store sv self texts w1 = (inr vs, w2)
    /\ w' = set_memories (memories w2 ++ [[]]) w2
    /\ self' =
       Chatbot.set_chain
         {| chain_model := "gpt-3.5-turbo"; chain_retriever := vs;
            chain_k := 3; chain_memory := length (memories w2) |}
         (Chatbot.set_memory (length (memories w2))
            (Chatbot.set_vectorstore vs self)).
Proof.
  unfold Chatbot.setup_chain, Chatbot.in_world, Chatbot.on_self,
    Chatbot.get_self, Chatbot.getenv_key, Langchain.ConversationBufferMemory.
  unfold_m. simpl.
  destruct (Chatbot.load_documents sv self w) as [[e|documents] w1] eqn:Hl;
    [done|].
  pose proof (load_documents_nonempty _ _ _ _ _ Hl) as Hne.
  destruct documents as [|d ds]; [done|]. simpl.
  destruct (Chatbot.process_documents sv self (d :: ds)) as [e|texts] eqn:Hp;
    [done|].
  pose proof (process_documents_nonempty _ _ _ _ Hp) as Hne'.
  destruct texts as [|t ts]; [done|]. simpl.
  destruct (Chatbot.create_vector_store sv self (t :: ts) w1)
    as [[e|vs] w2] eqn:Hc; [done|]. simpl.
  destruct (Chatbot.nonempty (OPENAI_API_KEY w2)); simpl; [|done].
  intros H; inversion H; subst.
  exists (d :: ds), (t :: ts), vs, w1, w2. done.
Qed.

(** A [setup_chain] that raises has assigned neither [memory] nor
    [chain], and has touched neither the files nor the memories. *)
Lemma setup_chain_inl sv self w e self' w' :
  Chatbot.setup_chain sv (self, w) = (inl e, (self', w')) ->
  Chatbot.chain self' = Chatbot.chain self
  /\ Chatbot.memory self' = Chatbot.memory self
  /\ Chatbot.text_splitter self' = Chatbot.text_splitter self
  /\ fs w' = fs w /\ memories w' = memories w.
Proof.
  unfold Chatbot.setup_chain, Chatbot.in_world, Chatbot.on_self,
    Chatbot.get_self, Chatbot.getenv_key, Langchain.ConversationBufferMemory.
  unfold_m. simpl.
  pose proof (load_documents_same_store sv self w) as (F1 & _ & M1 & _).
  destruct (Chatbot.load_documents sv self w) as [[e1|documents] w1] eqn:Hl;
    simpl in *.
  { intros H; inversion H; subst; done. }
  destruct documents as [|d ds]; [done|]. simpl.
  destruct (Chatbot.process_documents sv self (d :: ds)) as [e1|texts] eqn:Hp;
    simpl.
  { intros H; inversion H; subst; done. }
  destruct texts as [|t ts]; [done|]. simpl.
  pose proof (create_vector_store_frame sv self (t :: ts) w1) as (F2 & _ & M2).
  destruct (Chatbot.create_vector_store sv self (t :: ts) w1)
    as [[e1|vs] w2] eqn:Hc; simpl in *.
  { intros H; inversion H; subst. repeat split; congruence. }
  destruct (Chatbot.nonempty (OPENAI_API_KEY w2)); simpl; [done|].
  intros H; inversion H; subst. simpl. repeat split; congruence.
Qed.

Lemma bad_pdf_skipped sv self name w :
  endswith name ".pdf" = true ->
  Os.lookup (path_join (Chatbot.documents_dir self) name) (fs w) <> None ->
  pdf_header_ok (path_join (Chatbot.documents_dir self) name) (fs w) = false
  \/ extraction_fails sv (path_join (Chatbot.documents_dir self) name) (fs w)
     = true ->
  (Chatbot.load_file sv self name w).1 = inr [].
Proof.
  intros Hpdf Hex Hbad.
  unfold Chatbot.load_file, Chatbot.getsize, Chatbot.load_pdf, Langchain.load,
    pdf_header_ok, extraction_fails in *.
  unfold_m. rewrite Hpdf.
  set (p := path_join (Chatbot.documents_dir self) name) in *.
  assert (exists n : nat, match Os.lookup p (fs w) with
            | Some (RegularFile c) => inr (String.length c)
            | Some Directory => inr 0%nat
            | None => inl (OSError "No such file or directory")
            end = (inr n : exn + nat)) as [n ->].
  { destruct (Os.lookup p (fs w)) as [[c|]|]; eauto; done. }
  destruct (Os.read p (fs w)) as [e|c] eqn:Hr; [done|].
  destruct (String.eqb (substring 0 4 c) "%PDF"); simpl.
  - destruct Hbad as [?|Hbad]; [done|].
    rewrite Hr. simpl.
    destruct (loader_load sv PDFMinerLoader p c); [done|]. done.
  - done.
Qed.

Lemma bad_header_no_extraction sv self name w :
  endswith name ".pdf" = true ->
  pdf_header_ok (path_join (Chatbot.documents_dir self) name) (fs w) = false ->
  (Chatbot.load_file sv self name w).2 = w.
Proof.
  intros Hpdf Hbad.
  unfold Chatbot.load_file, Chatbot.getsize, Chatbot.load_pdf, Langchain.load,
    pdf_header_ok in *.
  unfold_m. rewrite Hpdf.
  set (p := path_join (Chatbot.documents_dir self) name) in *.
  destruct (Os.lookup p (fs w)) as [[c0|]|]; try done;
    destruct (Os.read p (fs w)) as [e|c] eqn:Hr; try done;
    rewrite Hbad; done.
Qed.

Lemma bad_pdf_batch sv self name before : forall after documents w,
  endswith name ".pdf" = true ->
  Os.lookup (path_join (Chatbot.documents_dir self) name) (fs w) <> None ->
  pdf_header_ok (path_join (Chatbot.documents_dir self) name) (fs w) = false
  \/ extraction_fails sv (path_join (Chatbot.documents_dir self) name) (fs w)
     = true ->
  (Chatbot.load_loop sv self (before ++ name :: after) documents w).1
  = (Chatbot.load_loop sv self (before ++ after) documents w).1.
Proof.
  induction before as [|b before IH]; intros after documents w Hpdf Hex Hbad.
  - simpl. unfold_m.
    pose proof (bad_pdf_skipped sv self name w Hpdf Hex Hbad) as E.
    pose proof (load_file_same_store sv self name w) as [F _].
    destruct (Chatbot.load_file sv self name w) as [[e|d] w1];
      simpl in *; [done|].
    inversion E; subst. rewrite app_nil_r.
    apply load_loop_fs_only. done.
  - simpl. unfold_m.
    pose proof (load_file_same_store sv self b w) as [F _].
    destruct (Chatbot.load_file sv self b w) as [[e|d] w1];
      simpl in *; [done|].
    apply IH; rewrite <- ?F; done.
Qed.

(** C7: a file named [.pdf] that lacks the [%PDF] header, or on which
    [PDFMinerLoader] raises, is skipped: its iteration of
    [load_documents] returns without raising and contributes no document;
    when the header is wrong the iteration ends before any loader is
    invoked (the world, whose trace records every loader call, is left as it
    was); and the batch yields what it yields without that file, wherever
    the file stands in the listing. *)
Theorem bad_pdf_never_aborts_batch :
  forall (sv : Services) (self : Chatbot.DocumentChatbot) (name : string)
         (w : World),
    endswith name ".pdf" = true ->
    Os.lookup (path_join (Chatbot.documents_dir self) name) (fs w) <> None ->
    pdf_header_ok (path_join (Chatbot.documents_dir self) name) (fs w) = false
    \/ extraction_fails sv (path_join (Chatbot.documents_dir self) name) (fs w)
       = true ->
    (Chatbot.load_file sv self name w).1 = inr []
    /\ (pdf_header_ok (path_join (Chatbot.documents_dir self) name) (fs w)
        = false -> (Chatbot.load_file sv self name w).2 = w)
    /\ (forall before after documents,
          (Chatbot.load_loop sv self (before ++ name :: after) documents w).1
          = (Chatbot.load_loop sv self (before ++ after) documents w).1).
Proof.
  intros sv self name w Hpdf Hex Hbad. split; [|split].
  - by apply bad_pdf_skipped.
  - by apply bad_header_no_extraction.
  - intros. by apply bad_pdf_batch.
Qed.

Lemma bad_pdf_never_aborts_batch_witness :
  let w := Sample.mixed_world in
  ((Chatbot.load_file Sample.services Sample.unbound "b.pdf" w).1 = inr []
   /\ (Chatbot.load_file Sample.services Sample.unbound "b.pdf" w).2 = w
   /\ (Chatbot.load_loop Sample.services Sample.unbound
         ["a.txt"; "b.pdf"; "c.pdf"] [] w).1
      = (Chatbot.load_loop Sample.services Sample.unbound
           ["a.txt"; "c.pdf"] [] w).1)
  /\ ((Chatbot.load_file Sample.services Sample.unbound "c.pdf" w).1 = inr []
      /\ (Chatbot.load_loop Sample.services Sample.unbound
            ["a.txt"; "c.pdf"] [] w).1
         = (Chatbot.load_loop Sample.services Sample.unbound ["a.txt"] [] w).1).
Proof.
  intros w.
  assert (Hb : pdf_header_ok
                 (path_join (Chatbot.documents_dir Sample.unbound) "b.pdf")
                 (fs w) = false) by reflexivity.
  assert (Hc : extraction_fails Sample.services
                 (path_join (Chatbot.documents_dir Sample.unbound) "c.pdf")
                 (fs w) = true) by reflexivity.
  split.
  - destruct (bad_pdf_never_aborts_batch Sample.services Sample.unbound
                "b.pdf" w) as (S1 & S2 & S3);
      [reflexivity | discriminate | by left |].
    split; [exact S1|]. split; [exact (S2 Hb)|].
    exact (S3 ["a.txt"] ["c.pdf"] []).
  - destruct (bad_pdf_never_aborts_batch Sample.services Sample.unbound
                "c.pdf" w) as (S1 & _ & S3);
      [reflexivity | discriminate | by right |].
    split; [exact S1|]. exact (S3 ["a.txt"] [] []).
Defined.

Lemma makedirs_inr d f f' :
  Os.makedirs d f = inr f' ->
  (f' = f \/ f' = f ++ [(normdir d, Directory)])
  /\ Os.lookup (normdir d) f' = Some Directory.
Proof.
  unfold Os.makedirs.
  destruct (Os.lookup (normdir d) f) as [[c|]|] eqn:E; intros H;
    inversion H; subst; [by auto|].
  split; [by auto|].
  clear H. induction f as [|[q n] f IH]; simpl in *.
  - by rewrite String.eqb_refl.
  - destruct (String.eqb q (normdir d)); [done|]. by apply IH.
Qed.

(** What the constructor returns, and the world it leaves. *)
Lemma init_inr sv w cb w' :
  Chatbot.init sv w = (inr cb, w') ->
  exists key f1,
    OPENAI_API_KEY w = Some key
    /\ Os.makedirs "chroma_db" (fs w) = inr f1
    /\ Chatbot.setup_chain sv
         ({| Chatbot.documents_dir := "documents/";
             Chatbot.persist_directory := "chroma_db";
             Chatbot.embeddings := key;
             Chatbot.text_splitter :=
               {| chunk_size := 1000; chunk_overlap := 200;
                  separators := [nl +:+ nl; nl; " "; ""] |};
             Chatbot.vectorstore := None; Chatbot.memory := None;
             Chatbot.chain := None |}, set_fs f1 w)
       = (inr tt, (cb, w')).
Proof.
  unfold Chatbot.init, Chatbot.getenv_key, Chatbot.on_new. unfold_m.
  destruct (Chatbot.nonempty (OPENAI_API_KEY w)) as [key|] eqn:Hk; [|done].
  assert (OPENAI_API_KEY w = Some key).
  { unfold Chatbot.nonempty in Hk.
    destruct (OPENAI_API_KEY w) as [k|]; [|done].
    destruct (String.eqb k ""); congruence. }
  destruct (Os.makedirs "chroma_db" (fs w)) as [e|f1]; [done|].
  destruct (Chatbot.setup_chain sv _) as [[e|[]] [self' w1]] eqn:Hs; [done|].
  intros H'; inversion H'; subst. eauto.
Qed.

(** A constructor that raises leaves every memory as it was. *)
Lemma init_inl sv w e w' :
  Chatbot.init sv w = (inl e, w') -> memories w' = memories w.
Proof.
  unfold Chatbot.init, Chatbot.getenv_key, Chatbot.on_new. unfold_m.
  destruct (Chatbot.nonempty (OPENAI_API_KEY w)) as [key|];
    [|by intros H; inversion H].
  destruct (Os.makedirs "chroma_db" (fs w)) as [e1|f1];
    [by intros H; inversion H|].
  destruct (Chatbot.setup_chain sv _) as [[e1|[]] [self' w1]] eqn:Hs; [|done].
  intros H; inversion H; subst.
  apply setup_chain_inl in Hs. by destruct Hs as (_ & _ & _ & _ & ->).
Qed.

Lemma init_chain sv w cb w' :
  Chatbot.init sv w = (inr cb, w') ->
  exists c,
    Chatbot.chain cb = Some c
    /\ Chatbot.vectorstore cb = Some (chain_retriever c)
    /\ Chatbot.memory cb = Some (chain_memory c)
    /\ memories w' !! chain_memory c = Some []
    /\ Chatbot.text_splitter cb
       = {| chunk_size := 1000; chunk_overlap := 200;
            separators := [nl +:+ nl; nl; " "; ""] |}.
Proof.
  intros H. apply init_inr in H as (key & f1 & _ & _ & H).
  apply setup_chain_inr in H as (docs & texts & vs & w1 & w2 & _ & _ & _ & -> & ->).
  eexists; simpl; repeat split.
  rewrite lookup_app_r; [|done]. by rewrite Nat.sub_diag.
Qed.

Lemma upload_file_frame filename content s :
  let s' := (Api.upload_file filename content s).2 in
  Api.chatbot s' = Api.chatbot s
  /\ memories (Api.world s') = memories (Api.world s).
Proof.
  unfold Api.upload_file, Api.in_world. unfold_m. cbv zeta.
  destruct (Os.makedirs "documents" (fs (Api.world s))) as [e|f1]; simpl.
  { by destruct (is_HTTPException e). }
  destruct (_ <? _); simpl; [done|].
  destruct (Os.write _ _ f1) as [e|f2]; simpl; [|done].
  by destruct (is_HTTPException e).
Qed.

Lemma init_chatbot_construction_fails sv file_path s e w1 :
  Chatbot.init sv (Api.world s) = (inl e, w1) ->
  (Api.init_chatbot sv file_path s).1 = inl e
  /\ Api.chatbot (Api.init_chatbot sv file_path s).2 = Api.chatbot s
  /\ memories (Api.world (Api.init_chatbot sv file_path s).2)
     = memories (Api.world s).
Proof.
  intros H. pose proof (init_inl _ _ _ _ H) as Hm.
  unfold Api.init_chatbot, Api.in_world, Api.set_chatbot. unfold_m.
  rewrite H. simpl.
  destruct (os_remove_cases sv file_path w1) as [[e' E]|(f' & _ & _ & E)];
    rewrite E; simpl; done.
Qed.

Lemma init_chatbot_construction_succeeds sv file_path s new w1 :
  Chatbot.init sv (Api.world s) = (inr new, w1) ->
  exists cb c,
    Api.chatbot (Api.init_chatbot sv file_path s).2 = Some cb
    /\ Chatbot.chain cb = Some c.
Proof.
  intros H. pose proof (init_chain _ _ _ _ H) as (c & Hc & _).
  unfold Api.init_chatbot, Api.in_world, Api.set_chatbot, Api.on_chatbot.
  unfold_m. rewrite H. simpl.
  destruct (Chatbot.setup_chain sv (new, w1)) as [[e|[]] [cb w2]] eqn:Hs.
  - apply setup_chain_inl in Hs as (Hch & _).
    simpl.
    destruct (os_remove_cases sv file_path w2) as [[e' E]|(f' & _ & _ & E)];
      rewrite E; simpl; exists cb, c; split; congruence.
  - apply setup_chain_inr in Hs as (?&?&?&?&?&_&_&_&_&->).
    simpl. eauto.
Qed.

Lemma remove_discards_first sv document_id s names w1 e w2 :
  Os.listdir "documents" (fs (Api.world s)) = inr names ->
  Api.delete_loop sv names (Api.world s) = (inr true, w1) ->
  Chatbot.init sv w1 = (inl e, w2) ->
  Api.chatbot (Api.delete_document sv document_id s).2 = None.
Proof.
  intros Hl Hd Hi.
  unfold Api.delete_document, Api.initialize_chatbot, Api.in_world,
    Api.set_chatbot, Api.get_chatbot.
  unfold_m. simpl. rewrite Hl. simpl. rewrite Hd. simpl.
  destruct (Os.listdir "documents" (fs w1)) as [e1|[|r rs]]; simpl; try done.
  rewrite Hi. simpl.
  destruct (contains _ _); simpl; done.
Qed.

(** C1 (as the code has it): an add replaces the [chatbot] global only
    after [DocumentChatbot()] has returned a fully constructed object.  If
    that construction raises, the add fails with the same exception and the
    previous binding and every conversation memory are as before; if it
    returns, the global is bound to an object that has a chain, whether or
    not the second [setup_chain()] then raises.  A remove assigns [None] to
    the global before it rebuilds, so when the construction raises after a
    removal no binding is left. *)
Theorem binding_replaced_after_construction :
  forall (sv : Services) (s : Api.State),
    (forall filename content msg s1 e w2,
        Api.upload_file filename content s = (inr msg, s1) ->
        Chatbot.init sv (Api.world s1) = (inl e, w2) ->
        (Api.add sv filename content s).1 = inl e
        /\ Api.chatbot (Api.add sv filename content s).2 = Api.chatbot s
        /\ memories (Api.world (Api.add sv filename content s).2)
           = memories (Api.world s))
    /\ (forall filename content msg s1 new w2,
        Api.upload_file filename content s = (inr msg, s1) ->
        Chatbot.init sv (Api.world s1) = (inr new, w2) ->
        exists cb c,
          Api.chatbot (Api.add sv filename content s).2 = Some cb
          /\ Chatbot.chain cb = Some c)
    /\ (forall document_id names w1 e w2,
        Os.listdir "documents" (fs (Api.world s)) = inr names ->
        Api.delete_loop sv names (Api.world s) = (inr true, w1) ->
        Chatbot.init sv w1 = (inl e, w2) ->
        Api.chatbot (Api.delete_document sv document_id s).2 = None).
Proof.
  intros sv s. split; [|split].
  - intros filename content msg s1 e w2 Hu Hi.
    pose proof (upload_file_frame filename content s) as [Hc Hm].
    rewrite Hu in Hc, Hm. simpl in Hc, Hm.
    pose proof (init_chatbot_construction_fails sv
                  (path_join "documents" filename) s1 e w2 Hi) as (R & C & Me).
    unfold Api.add. unfold_m. rewrite Hu.
    rewrite R, C, Me. by rewrite Hc, Hm.
  - intros filename content msg s1 new w2 Hu Hi.
    unfold Api.add. unfold_m. rewrite Hu.
    by eapply init_chatbot_construction_succeeds.
  - intros. by eapply remove_discards_first.
Qed.

Lemma binding_replaced_after_construction_witness :
  Api.chatbot (Api.add Sample.services "c.txt" "Third." Sample.two_documents).2
  = Api.chatbot Sample.two_documents
  /\ (exists cb c,
        Api.chatbot (Api.add Sample.services "b.txt" "Grass is green."
                       Sample.one_document).2 = Some cb
        /\ Chatbot.chain cb = Some c)
  /\ Api.chatbot (Api.delete_document Sample.services "any"
                    Sample.with_bad_pdf).2 = None.
Proof.
  split; [|split].
  - destruct (binding_replaced_after_construction Sample.services
                Sample.two_documents) as (A & _ & _).
    set (u := Api.upload_file "c.txt" "Third." Sample.two_documents).
    assert (Hu : u = (inr (value_of "" u.1), u.2)) by (vm_compute; reflexivity).
    set (i := Chatbot.init Sample.services (Api.world u.2)).
    assert (Hi : i = (inl (error_of i.1), i.2)) by (vm_compute; reflexivity).
    exact (proj1 (proj2 (A "c.txt" "Third." _ _ _ _ Hu Hi))).
  - destruct (binding_replaced_after_construction Sample.services
                Sample.one_document) as (_ & B & _).
    set (u := Api.upload_file "b.txt" "Grass is green." Sample.one_document).
    assert (Hu : u = (inr (value_of "" u.1), u.2)) by (vm_compute; reflexivity).
    set (i := Chatbot.init Sample.services (Api.world u.2)).
    assert (Hi : exists cb, i = (inr cb, i.2))
      by (eexists; vm_compute; reflexivity).
    destruct Hi as [cb Hi].
    exact (B "b.txt" "Grass is green." _ _ _ _ Hu Hi).
  - destruct (binding_replaced_after_construction Sample.services
                Sample.with_bad_pdf) as (_ & _ & C).
    set (l := Os.listdir "documents" (fs (Api.world Sample.with_bad_pdf))).
    assert (Hl : l = inr (value_of [] l)) by (vm_compute; reflexivity).
    set (d := Api.delete_loop Sample.services (value_of [] l)
                (Api.world Sample.with_bad_pdf)).
    assert (Hd : d = (inr true, d.2)) by (vm_compute; reflexivity).
    set (i := Chatbot.init Sample.services d.2).
    assert (Hi : i = (inl (error_of i.1), i.2)) by (vm_compute; reflexivity).
    exact (C "any" _ _ _ _ Hl Hd Hi).
Defined.

(** C1 fails as stated: with [a.txt] and an unreadable [b.pdf] in the
    store and a chain bound over the chunk of [a.txt], a remove deletes
    [a.txt], discards the binding and then fails to rebuild; the request
    ends in an error and no binding is left. *)
Lemma remove_failure_leaves_no_binding :
  (exists cb c,
      Api.chatbot Sample.with_bad_pdf = Some cb
      /\ Chatbot.chain cb = Some c
      /\ map page_content (vs_documents (chain_retriever c))
         = ["The sky is blue."])
  /\ is_ok (Api.delete_document Sample.services "any" Sample.with_bad_pdf).1
     = false
  /\ Api.chatbot (Api.delete_document Sample.services "any"
                    Sample.with_bad_pdf).2 = None.
Proof.
  split; [|split; vm_compute; reflexivity].
  eexists _, _. vm_compute. repeat split; reflexivity.
Qed.

(** C2 (as the code has it): [DocumentChatbot.chat] on an object without
    a chain raises the [ValueError] whose message the web layer recognises;
    [POST /chat] answers 400 with that message when the documents directory
    is missing or empty, and when the chatbot has no chain.  In each case
    the state is left as it was. *)
Theorem not_ready_is_signalled :
  forall (sv : Services),
    (forall cb query w,
        Chatbot.chain cb = None ->
        Chatbot.chat sv cb query w
        = (inl (ValueError
             "Chat chain not initialized. Please upload some documents first."),
           w)
        /\ contains Api.not_ready_detail
             "Chat chain not initialized. Please upload some documents first."
           = true)
    /\ (forall message s,
        Os.path_exists "documents" (fs (Api.world s)) = false
        \/ Os.listdir "documents" (fs (Api.world s)) = inr [] ->
        Api.chat sv message s
        = (inl (HTTPException 400 "Please upload some documents first"), s))
    /\ (forall message s cb names,
        Api.chatbot s = Some cb ->
        Chatbot.chain cb = None ->
        Os.listdir "documents" (fs (Api.world s)) = inr names ->
        Api.chat sv message s
        = (inl (HTTPException 400 "Please upload some documents first"), s)).
Proof.
  intros sv. split; [|split].
  - intros cb query w H. unfold Chatbot.chat. rewrite H. done.
  - intros message [w c] H. unfold Api.chat, Api.in_world. unfold_m. simpl in *.
    destruct (Os.path_exists "documents" (fs w)); simpl; [|done].
    destruct H as [H|H]; [done|]. rewrite H. done.
  - intros message [w c] cb names Hc Hn Hl. simpl in *. subst c.
    unfold Api.chat, Api.in_world, Api.get_chatbot. unfold_m. simpl.
    destruct (Os.path_exists "documents" (fs w)); simpl; [|done].
    rewrite Hl. simpl. destruct names; simpl; [done|]. rewrite Hn. done.
Qed.

Lemma not_ready_is_signalled_witness :
  Chatbot.chat Sample.services Sample.unbound "What color is the sky?"
    Sample.empty_world
  = (inl (ValueError
       "Chat chain not initialized. Please upload some documents first."),
     Sample.empty_world)
  /\ Api.chat Sample.services "What color is the sky?" Sample.start
     = (inl (HTTPException 400 "Please upload some documents first"),
        Sample.start)
  /\ Api.chat Sample.services "What color is the sky?"
       {| Api.world := Api.world Sample.one_document;
          Api.chatbot := Some Sample.unbound |}
     = (inl (HTTPException 400 "Please upload some documents first"),
        {| Api.world := Api.world Sample.one_document;
           Api.chatbot := Some Sample.unbound |}).
Proof.
  destruct (not_ready_is_signalled Sample.services) as (A & B & C).
  split; [|split].
  - apply A. reflexivity.
  - apply B. right. vm_compute. reflexivity.
  - apply (C _ _ Sample.unbound ["a.txt"]);
      [reflexivity | reflexivity | vm_compute; reflexivity].
Defined.

(** C2 fails as stated: a file named [b.pdf] that is no PDF has been
    uploaded and its background task has not run; no index was ever built
    and no chatbot exists.  A query then tries to initialise the chatbot, the
    load finds no document, and the request ends in the internal error 500
    instead of the not-ready condition. *)
Lemma query_before_ingestion_reports_internal_error :
  Api.chatbot Sample.uploaded_not_processed = None
  /\ persisted (Api.world Sample.uploaded_not_processed) = []
  /\ (Api.chat Sample.services "What color is the sky?"
        Sample.uploaded_not_processed).1
     = inl (HTTPException 500
         "Failed to initialize chatbot: No documents could be loaded successfully").
Proof.
  vm_compute. repeat split; reflexivity.
Qed.

Lemma chain_call_inl sv c query hist w e w' :
  Langchain.Chain_call sv c query hist w = (inl e, w') ->
  memories w' = memories w.
Proof.
  unfold Langchain.Chain_call, Langchain.messages, Langchain.save_context.
  unfold_m.
  destruct (memories w !! chain_memory c) as [h|] eqn:Hm; simpl;
    [|by intros H; inversion H].
  destruct (retrieve sv _ _ _ _) as [e1|docs]; simpl;
    [by intros H; inversion H|].
  destruct (llm_invoke sv _ _ _ _) as [e1|a]; simpl;
    [by intros H; inversion H|].
  rewrite Hm. done.
Qed.

Lemma chain_call_inr sv c query hist w a w' :
  Langchain.Chain_call sv c query hist w = (inr a, w') ->
  exists h,
    memories w !! chain_memory c = Some h
    /\ memories w'
       = <[chain_memory c := h ++ [{| question := query; answer := a |}]]>
           (memories w).
Proof.
  unfold Langchain.Chain_call, Langchain.messages, Langchain.save_context.
  unfold_m.
  destruct (memories w !! chain_memory c) as [h|] eqn:Hm; simpl; [|done].
  destruct (retrieve sv _ _ _ _) as [e1|docs]; simpl; [done|].
  destruct (llm_invoke sv _ _ _ _) as [e1|a']; simpl; [done|].
  rewrite Hm. intros H; inversion H; subst. eauto.
Qed.

Lemma messages_state m w r w' :
  Langchain.messages m w = (r, w') -> w' = w.
Proof.
  unfold Langchain.messages. destruct (memories w !! m); congruence.
Qed.

Lemma chat_inl sv cb query w e w' :
  Chatbot.chat sv cb query w = (inl e, w') -> memories w' = memories w.
Proof.
  unfold Chatbot.chat. unfold_m.
  destruct (Chatbot.chain cb) as [c|]; [|by intros H; inversion H].
  destruct (Chatbot.memory cb) as [m|].
  - destruct (Langchain.messages m w) as [[e1|h] w1] eqn:Hm;
      apply messages_state in Hm; subst w1.
    + by intros H; inversion H.
    + destruct (Langchain.Chain_call sv c query h w) as [[e1|a] w1] eqn:Hc;
        [|done].
      intros H; inversion H; subst. by eapply chain_call_inl.
  - destruct (Langchain.Chain_call sv c query [] w) as [[e1|a] w1] eqn:Hc;
      [|done].
    intros H; inversion H; subst. by eapply chain_call_inl.
Qed.

Lemma chat_inr sv cb c query w a w' :
  Chatbot.chain cb = Some c ->
  Chatbot.chat sv cb query w = (inr a, w') ->
  exists h,
    memories w !! chain_memory c = Some h
    /\ memories w'
       = <[chain_memory c := h ++ [{| question := query; answer := a |}]]>
           (memories w).
Proof.
  intros Hc. unfold Chatbot.chat. unfold_m. rewrite Hc.
  destruct (Chatbot.memory cb) as [m|].
  - destruct (Langchain.messages m w) as [[e1|h] w1] eqn:Hm;
      apply messages_state in Hm; subst w1; [done|].
    destruct (Langchain.Chain_call sv c query h w) as [[e1|a'] w1] eqn:Hcc;
      [done|].
    intros H; inversion H; subst. by eapply chain_call_inr.
  - destruct (Langchain.Chain_call sv c query [] w) as [[e1|a'] w1] eqn:Hcc;
      [done|].
    intros H; inversion H; subst. by eapply chain_call_inr.
Qed.

Lemma chain_call_aborts sv c query hist w h e :
  memories w !! chain_memory c = Some h ->
  retrieve sv (length (trace w)) (chain_retriever c) (chain_k c) query = inl e
  \/ (exists docs,
        retrieve sv (length (trace w)) (chain_retriever c) (chain_k c) query
        = inr docs
        /\ llm_invoke sv (S (length (trace w))) docs h query = inl e) ->
  exists w',
    Langchain.Chain_call sv c query hist w = (inl e, w')
    /\ memories w' = memories w.
Proof.
  intros Hm H.
  unfold Langchain.Chain_call, Langchain.messages, Langchain.save_context.
  unfold_m. rewrite Hm. simpl.
  destruct H as [H|(docs & H & H')]; rewrite H; simpl.
  - by eexists.
  - rewrite length_app. simpl. rewrite Nat.add_1_r, H'. by eexists.
Qed.

(** C6: a failure of the retrieval (the embedding of the query and the
    similarity search) or of the language model aborts the [answer] call:
    the call raises that very failure and records no turn.  More generally
    an [answer] call that raises, for whatever reason, leaves every
    conversation memory as it was before the call; and after two calls that
    return followed by one that raises, the history of the chain is the
    history before the first call extended by exactly the two turns, in call
    order. *)
Theorem failed_answer_leaves_memory :
  forall (sv : Services) (cb : Chatbot.DocumentChatbot),
    (forall c query w h e,
        Chatbot.chain cb = Some c ->
        Chatbot.memory cb = Some (chain_memory c) ->
        memories w !! chain_memory c = Some h ->
        retrieve sv (length (trace w)) (chain_retriever c) (chain_k c) query
        = inl e
        \/ (exists docs,
              retrieve sv (length (trace w)) (chain_retriever c) (chain_k c)
                query = inr docs
              /\ llm_invoke sv (S (length (trace w))) docs h query = inl e) ->
        exists w',
          Chatbot.chat sv cb query w = (inl e, w')
          /\ memories w' = memories w)
    /\ (forall query w e w',
        Chatbot.chat sv cb query w = (inl e, w') ->
        memories w' = memories w)
    /\ (forall c q1 q2 q3 a1 a2 e w0 w1 w2 w3 h,
        Chatbot.chain cb = Some c ->
        memories w0 !! chain_memory c = Some h ->
        Chatbot.chat sv cb q1 w0 = (inr a1, w1) ->
        Chatbot.chat sv cb q2 w1 = (inr a2, w2) ->
        Chatbot.chat sv cb q3 w2 = (inl e, w3) ->
        Langchain.messages (chain_memory c) w3
        = (inr (h ++ [{| question := q1; answer := a1 |};
                      {| question := q2; answer := a2 |}]), w3)).
Proof.
  intros sv cb. split; [|split].
  - intros c query w h e Hc Hm Hh H.
    destruct (chain_call_aborts sv c query h w h e Hh H) as (w' & Hcall & M).
    exists w'. split; [|done].
    unfold Chatbot.chat. unfold_m. rewrite Hc, Hm.
    unfold Langchain.messages at 1. rewrite Hh. by rewrite Hcall.
  - intros. by eapply chat_inl.
  - intros c q1 q2 q3 a1 a2 e w0 w1 w2 w3 h Hc Hh H1 H2 H3.
    apply chat_inl in H3.
    apply (chat_inr _ _ _ _ _ _ _ Hc) in H1 as (h1 & Hh1 & M1).
    apply (chat_inr _ _ _ _ _ _ _ Hc) in H2 as (h2 & Hh2 & M2).
    assert (h1 = h) by congruence. subst h1.
    assert (Hlt : (chain_memory c < length (memories w0))%nat)
      by (by eapply lookup_lt_Some).
    rewrite M1, list_lookup_insert_eq in Hh2 by done.
    inversion Hh2; subst h2.
    unfold Langchain.messages. rewrite H3, M2.
    rewrite list_lookup_insert_eq.
    + by rewrite <- app_assoc.
    + rewrite M1, length_insert. done.
Qed.

Lemma failed_answer_leaves_memory_witness :
  let w0 := Api.world Sample.two_documents in
  let r1 := Chatbot.chat Sample.services Sample.bound_chatbot
              "What color is the sky?" w0 in
  let r2 := Chatbot.chat Sample.services Sample.bound_chatbot
              "And the grass?" r1.2 in
  let r3 := Chatbot.chat Sample.services Sample.bound_chatbot "crash" r2.2 in
  r3.1 = inl (ServiceError "model unavailable")
  /\ memories r3.2 = memories r2.2
  /\ Langchain.messages (chain_memory Sample.bound_chain) r3.2
     = (inr [{| question := "What color is the sky?";
                answer := "The sky is blue. Grass is green." |};
             {| question := "And the grass?";
                answer := "The sky is blue. Grass is green." |}], r3.2).
Proof.
  intros w0 r1 r2 r3.
  destruct (failed_answer_leaves_memory Sample.services Sample.bound_chatbot)
    as (A0 & A & B).
  assert (H1 : r1 = (inr "The sky is blue. Grass is green.", r1.2))
    by (vm_compute; reflexivity).
  assert (H2 : r2 = (inr "The sky is blue. Grass is green.", r2.2))
    by (vm_compute; reflexivity).
  assert (H3 : r3 = (inl (error_of r3.1), r3.2))
    by (vm_compute; reflexivity).
  split; [|split].
  - assert (Hc : Chatbot.chain Sample.bound_chatbot = Some Sample.bound_chain)
      by (vm_compute; reflexivity).
    assert (Hm : Chatbot.memory Sample.bound_chatbot
                 = Some (chain_memory Sample.bound_chain))
      by (vm_compute; reflexivity).
    set (h := [{| question := "What color is the sky?";
                  answer := "The sky is blue. Grass is green." |};
               {| question := "And the grass?";
                  answer := "The sky is blue. Grass is green." |}]).
    assert (Hh : memories r2.2 !! chain_memory Sample.bound_chain = Some h)
      by (vm_compute; reflexivity).
    destruct (A0 Sample.bound_chain "crash" r2.2 h
                (ServiceError "model unavailable") Hc Hm Hh) as (w' & E & _).
    + right. eexists. split; vm_compute; reflexivity.
    + fold r3 in E. by rewrite E.
  - exact (A "crash" r2.2 _ _ H3).
  - refine (B Sample.bound_chain
              "What color is the sky?" "And the grass?" "crash"
              _ _ _ w0 r1.2 r2.2 r3.2 [] _ _ H1 H2 H3);
      vm_compute; reflexivity.
Defined.

(** Every chatbot the program constructs has the splitter configuration
    that [__init__] sets. *)
Lemma constructed_splitter sv cb :
  constructed sv cb ->
  Chatbot.text_splitter cb
  = {| chunk_size := 1000; chunk_overlap := 200;
       separators := [nl +:+ nl; nl; " "; ""] |}.
Proof.
  induction 1 as [w cb w' H|cb w r cb' w' _ IH H].
  - by apply init_chain in H as (c & _ & _ & _ & _ & ->).
  - destruct r as [e|[]].
    + apply setup_chain_inl in H as (_ & _ & -> & _). done.
    + apply setup_chain_inr in H as (?&?&?&?&?&_&_&_&_&->). done.
Qed.


(** *** The filesystem under writes *)


Lemma lookup_app_new p n (f : list (string * node)) :
  Os.lookup p f = None -> Os.lookup p (f ++ [(p, n)]) = Some n.
Proof.
  induction f as [|[q m] f IH]; simpl.
  - by rewrite String.eqb_refl.
  - destruct (String.eqb q p); [done|]. exact IH.
Qed.

Lemma lookup_app_old q n p m (f : list (string * node)) :
  Os.lookup q f = Some n -> Os.lookup q (f ++ [(p, m)]) = Some n.
Proof.
  induction f as [|[q' m'] f IH]; simpl; [done|].
  destruct (String.eqb q' q); [done|]. exact IH.
Qed.

Lemma lookup_replace_eq p n m (f : list (string * node)) :
  Os.lookup p f = Some m -> Os.lookup p (Os.replace p n f) = Some n.
Proof.
  induction f as [|[q m'] f IH]; simpl; [done|].
  destruct (String.eqb q p) eqn:E; simpl; rewrite E; [done|]. exact IH.
Qed.

Lemma lookup_replace_ne q p n (f : list (string * node)) :
  q <> p -> Os.lookup q (Os.replace p n f) = Os.lookup q f.
Proof.
  intros Hne. induction f as [|[q' m'] f IH]; simpl; [done|].
  destruct (String.eqb q' p) eqn:E; simpl.
  - apply String.eqb_eq in E. subst q'.
    destruct (String.eqb p q) eqn:E'; [|done].
    apply String.eqb_eq in E'. congruence.
  - destruct (String.eqb q' q); [done|]. exact IH.
Qed.

Lemma write_read p c f f' :
  Os.write p c f = inr f' -> Os.read p f' = inr c.
Proof.
  unfold Os.write, Os.read.
  destruct (String.eqb (basename p) ""); [done|].
  destruct (Os.lookup p f) as [[c0|]|] eqn:E; try done.
  - intros H; inversion H; subst.
    by rewrite (lookup_replace_eq _ _ _ _ E).
  - destruct (String.eqb (Os.dirname p) "").
    + intros H; inversion H; subst. by rewrite lookup_app_new.
    + destruct (Os.lookup (Os.dirname p) f) as [[|]|]; try done.
      intros H; inversion H; subst. by rewrite lookup_app_new.
Qed.

Lemma write_keeps q n p c f f' :
  Os.write p c f = inr f' -> q <> p ->
  Os.lookup q f = Some n -> Os.lookup q f' = Some n.
Proof.
  unfold Os.write. intros H Hne Hq.
  destruct (String.eqb (basename p) ""); [done|].
  destruct (Os.lookup p f) as [[c0|]|] eqn:E; try done.
  - inversion H; subst. by rewrite lookup_replace_ne.
  - destruct (String.eqb (Os.dirname p) "").
    + inversion H; subst. by apply lookup_app_old.
    + destruct (Os.lookup (Os.dirname p) f) as [[|]|]; try done.
      inversion H; subst. by apply lookup_app_old.
Qed.

Lemma makedirs_keeps q n d f f' :
  Os.makedirs d f = inr f' ->
  Os.lookup q f = Some n -> Os.lookup q f' = Some n.
Proof.
  intros H Hq. apply makedirs_inr in H as [[->| ->] _]; [done|].
  by apply lookup_app_old.
Qed.

Lemma path_join_documents name :
  has_slash name = false ->
  path_join "documents" name = "documents/" +:+ name.
Proof.
  intros H. unfold path_join, startswith.
  destruct name as [|c r]; [done|].
  cbn [String.prefix has_slash] in *.
  destruct (ascii_dec "/" c) as [<-|Hc]; [done|]. reflexivity.
Qed.

Lemma plain_name_spec name :
  plain_name name = true ->
  String.eqb name "" = false /\ has_slash name = false.
Proof.
  unfold plain_name. destruct (String.eqb name ""), (has_slash name); done.
Qed.



Lemma path_join_documents_not_dir a :
  has_slash a = false ->
  "documents" <> path_join "documents" a
  /\ "chroma_db" <> path_join "documents" a.
Proof.
  intros Ha. rewrite path_join_documents by done. split; intros H; inversion H.
Qed.

Lemma write_lookup p c f f' :
  Os.write p c f = inr f' -> Os.lookup p f' = Some (RegularFile c).
Proof.
  intros H. apply write_read in H. unfold Os.read in H.
  destruct (Os.lookup p f') as [[c'|]|]; congruence.
Qed.

(** *** What a rebuild binds *)





Lemma process_documents_inr sv self documents texts :
  Chatbot.process_documents sv self documents = inr texts ->
  texts = flat_map (Chatbot.process_document sv self) documents.
Proof.
  unfold Chatbot.process_documents.
  destruct (flat_map _ documents); intros H; inversion H; done.
Qed.

Lemma setup_chain_fs sv self w self' w' :
  Chatbot.setup_chain sv (self, w) = (inr tt, (self', w')) -> fs w' = fs w.
Proof.
  intros H.
  apply setup_chain_inr in H as (docs & texts & vs & w1 & w2 & Hl & _ & Hc & -> & _).
  pose proof (load_documents_same_store sv self w) as (F1 & _).
  pose proof (create_vector_store_frame sv self texts w1) as (F2 & _).
  rewrite Hl in F1. rewrite Hc in F2. simpl in *. congruence.
Qed.







(** *** The command-line upload *)

Lemma cli_load_loop_memories sv self names : forall docs w,
  memories (Cli.load_loop sv self names docs w).2 = memories w.
Proof.
  induction names as [|n names IH]; intros docs w; simpl; [done|].
  unfold_m.
  assert (E : memories (Cli.load_file sv self n w).2 = memories w).
  { unfold Cli.load_file, Langchain.load. unfold_m.
    destruct (Cli.choose_loader n); [|done]. simpl.
    destruct (Os.read _ (fs w)); simpl; [done|].
    by destruct (loader_load sv _ _ _). }
  destruct (Cli.load_file sv self n w) as [[e|d] w1]; simpl in *; [done|].
  by rewrite IH.
Qed.

(** [setup_vectorstore] assigns at most [vectorstore]. *)
Lemma cli_setup_vectorstore_frame sv cb w :
  let '(_, (cb', w')) := Cli.setup_vectorstore sv (cb, w) in
  Cli.chain cb' = Cli.chain cb /\ Cli.memory cb' = Cli.memory cb
  /\ memories w' = memories w.
Proof.
  unfold Cli.setup_vectorstore, Cli.in_world, Cli.get_self, Cli.on_self,
    Langchain.Chroma_from_documents.
  unfold_m. simpl.
  destruct (Os.listdir _ (fs w)) as [e|names]; [done|].
  pose proof (cli_load_loop_memories sv cb names [] w) as Hm.
  destruct (Cli.load_loop sv cb names [] w) as [[e|[|d ds]] w1];
    simpl in *; try done.
  destruct (Langchain.split_documents sv _ _) as [e|splits]; simpl; [done|].
  destruct (embed_documents sv _ _); simpl; done.
Qed.

Lemma cli_upload_document_frame sv file_path cb w :
  let '(r, (cb', w')) := Cli.upload_document sv file_path (cb, w) in
  is_ok r = true
  /\ Cli.chain cb' = Cli.chain cb /\ Cli.memory cb' = Cli.memory cb
  /\ memories w' = memories w.
Proof.
  unfold Cli.upload_document, Cli.in_world, Cli.get_self.
  unfold_m. simpl.
  destruct (Os.copy2 _ _ (fs w)) as [e|f1]; simpl; [done|].
  pose proof (cli_setup_vectorstore_frame sv cb (set_fs f1 w)) as H.
  destruct (Cli.setup_vectorstore sv (cb, set_fs f1 w))
    as [[e|[]] [cb' w']]; simpl in *; done.
Qed.




(** C3: an empty chunk set makes the index build fail with a
    [ValueError], in [DocumentChatbot.create_vector_store] and in
    [VectorStore.create_vector_store] alike, leaving the world as it was (no
    clock read, no embedding, nothing persisted); [process_documents] never
    hands an empty chunk set on, it raises instead; and a store that
    [DocumentChatbot.create_vector_store] returns holds the chunks it was
    given, which are not none. *)
Theorem create_vector_store_rejects_empty :
  forall (sv : Services) (self : Chatbot.DocumentChatbot)
         (builder : Vector_store.VectorStoreBuilder)
         (documents : list Document) (w : World),
    Chatbot.create_vector_store sv self [] w
      = (inl (ValueError "No texts to process"), w)
    /\ Vector_store.create_vector_store sv builder [] w
      = (inl (ValueError "No documents provided"), w)
    /\ Chatbot.process_documents sv self documents <> inr []
    /\ (forall texts vs w',
          Chatbot.create_vector_store sv self texts w = (inr vs, w') ->
          vs_documents vs = texts /\ vs_documents vs <> []).
Proof.
  intros sv self builder documents w.
  split; [reflexivity|]. split; [reflexivity|]. split.
  - unfold Chatbot.process_documents.
    destruct (flat_map _ documents); discriminate.
  - intros texts vs w' H.
    apply create_vector_store_inr in H as [Hne ->]. done.
Qed.

Lemma create_vector_store_rejects_empty_witness :
  let chunk := {| page_content := "The sky is blue."; source := None |} in
  let r := Chatbot.create_vector_store Sample.services Sample.unbound [chunk]
             Sample.empty_world in
  is_ok r.1 = true
  /\ vs_documents
       (value_of {| vs_documents := []; vs_collection_name := None;
                    vs_persist_directory := "" |} r.1) <> [].
Proof.
  intros chunk r. split; [reflexivity|].
  assert (H : r = (inr (value_of {| vs_documents := [];
                                    vs_collection_name := None;
                                    vs_persist_directory := "" |} r.1), r.2))
    by (vm_compute; reflexivity).
  destruct (create_vector_store_rejects_empty Sample.services Sample.unbound
              {| Vector_store.embeddings := "sk-test";
                 Vector_store.persist_directory := "db" |}
              [] Sample.empty_world) as (_ & _ & _ & K).
  exact (proj2 (K [chunk] _ _ H)).
Defined.

(** C10: [DocumentManager.upload_document] always returns a boolean:
    [True] with the file copied when [shutil.copy2] succeeds, [False] with
    the filesystem untouched when it raises; no exception reaches the
    caller.  The command-line [upload_document], built the same way, never
    raises either. *)
Theorem upload_document_total :
  forall (sv : Services) (self : DocumentManager.DocumentManager)
         (file_path : string) (w : World) (cb : Cli.DocumentChatbot),
    let destination :=
      path_join (DocumentManager.documents_dir self) (basename file_path) in
    match Os.copy2 file_path destination (fs w) with
    | inr f' =>
        DocumentManager.upload_document self file_path w
          = (inr true, set_fs f' w)
    | inl e =>
        DocumentManager.upload_document self file_path w = (inr false, w)
    end
    /\ is_ok (Cli.upload_document sv file_path (cb, w)).1 = true.
Proof.
  intros sv self file_path w cb destination. split.
  - unfold DocumentManager.upload_document. unfold_m.
    fold destination.
    destruct (Os.copy2 file_path destination (fs w)); reflexivity.
  - pose proof (cli_upload_document_frame sv file_path cb w) as H.
    destruct (Cli.upload_document sv file_path (cb, w)) as [r [cb' w']].
    by destruct H as [H _].
Qed.

(** C4: [delete_document] never looks at [document_id]: whatever the
    identifier, it removes the first regular file that [os.listdir]
    reports.  With [a.txt] listed before [b.txt], a request naming the
    identifier of [b.txt] removes [a.txt] and keeps [b.txt].  The rest is as
    claimed: removing the only document leaves the chatbot unbound without
    any rebuild, and the next query is answered 400. *)
Theorem delete_document_ignores_document_id :
  (forall (sv : Services) (id1 id2 : string) (s : Api.State),
      Api.delete_document sv id1 s = Api.delete_document sv id2 s)
  /\ Os.listdir "documents" (fs (Api.world Sample.two_documents))
       = inr ["a.txt"; "b.txt"]
  /\ (let s' :=
        (Api.delete_document Sample.services "id-of-b.txt"
           Sample.two_documents).2 in
      Os.listdir "documents" (fs (Api.world s')) = inr ["b.txt"])
  /\ (let s' :=
        (Api.delete_document Sample.services "id-of-a.txt"
           Sample.one_document).2 in
      Os.listdir "documents" (fs (Api.world s')) = inr []
      /\ Api.chatbot s' = None
      /\ trace (Api.world s') = trace (Api.world Sample.one_document)
      /\ (Api.chat Sample.services "What color is the sky?" s').1
         = inl (HTTPException 400 "Please upload some documents first")).
Proof.
  split; [reflexivity|]. vm_compute. repeat split; reflexivity.
Qed.

(** C9: the collection identifier is the clock truncated to whole
    seconds, so two rebuilds started within one second receive the same
    identifier.  The two rebuilds that one upload performs (the one inside
    [DocumentChatbot()] and the explicit [setup_chain()] after it) read the
    clock at 1700000000.3s and 1700000000.7s and both persist
    [collection_1700000000]. *)
Theorem rebuilds_within_a_second_share_identifier :
  let w := Api.world Sample.one_document in
  trace w !! 1%nat = Some EvClock
  /\ trace w !! 5%nat = Some EvClock
  /\ time_time Sample.services 1 = 1700000000300000
  /\ time_time Sample.services 5 = 1700000000700000
  /\ map vs_collection_name (persisted w)
     = [Some "collection_1700000000"; Some "collection_1700000000"].
Proof.
  vm_compute. repeat split; reflexivity.
Qed.

(** ** Further properties *)

(** *** Rebuilds and queries leave the documents alone *)

Lemma same_files_refl f : same_files f f.
Proof. by intros q c. Qed.

Lemma same_files_trans f1 f2 f3 :
  same_files f1 f2 -> same_files f2 f3 -> same_files f1 f3.
Proof. intros H1 H2 q c. rewrite (H2 q c). apply H1. Qed.

Lemma dirs_added_refl f : dirs_added f f.
Proof. exists []. by rewrite app_nil_r. Qed.

Lemma dirs_added_trans f1 f2 f3 :
  dirs_added f1 f2 -> dirs_added f2 f3 -> dirs_added f1 f3.
Proof.
  intros (d1 & -> & H1) (d2 & -> & H2). exists (d1 ++ d2).
  rewrite map_app, app_assoc. split; [done|]. by apply Forall_app.
Qed.

Lemma lookup_app_Some q n (f g : list (string * node)) :
  Os.lookup q f = Some n -> Os.lookup q (f ++ g) = Some n.
Proof.
  induction f as [|[p m] f IH]; simpl; [done|].
  destruct (String.eqb p q); [done|]. exact IH.
Qed.

Lemma lookup_app_None q (f g : list (string * node)) :
  Os.lookup q f = None -> Os.lookup q (f ++ g) = Os.lookup q g.
Proof.
  induction f as [|[p m] f IH]; simpl; [done|].
  destruct (String.eqb p q); [done|]. exact IH.
Qed.

Lemma lookup_dirs q ds c :
  Os.lookup q (map (fun d => (d, Directory)) ds) <> Some (RegularFile c).
Proof.
  induction ds as [|d ds IH]; simpl; [done|].
  destruct (String.eqb d q); [done|]. exact IH.
Qed.

Lemma dirs_added_same_files f f' : dirs_added f f' -> same_files f f'.
Proof.
  intros (ds & -> & _) q c.
  destruct (Os.lookup q f) as [n|] eqn:E.
  - by rewrite (lookup_app_Some _ _ _ _ E).
  - rewrite (lookup_app_None _ _ _ E). split; [|done].
    intros H. by apply lookup_dirs in H.
Qed.

Lemma dirs_added_listdir f f' :
  dirs_added f f' ->
  Os.lookup "documents" f = Some Directory ->
  Os.listdir "documents" f' = Os.listdir "documents" f.
Proof.
  intros (ds & -> & Hds) Hd. unfold Os.listdir.
  change (normdir "documents") with "documents".
  rewrite (lookup_app_Some _ _ _ _ Hd), Hd. f_equal.
  rewrite omap_app.
  assert (E : omap (fun e : string * node => child_name "documents" e.1)
                (map (fun d => (d, Directory)) ds) = []).
  { induction Hds as [|d ds Hd' _ IH]; simpl; [done|]. by rewrite Hd'. }
  by rewrite E, app_nil_r.
Qed.

Lemma makedirs_dirs_added d f f' :
  child_name "documents" (normdir d) = None ->
  Os.makedirs d f = inr f' -> dirs_added f f'.
Proof.
  intros Hc H. apply makedirs_inr in H as [[->| ->] _].
  - apply dirs_added_refl.
  - exists [normdir d]. split; [done|]. by constructor.
Qed.

Lemma setup_chain_fs_always sv self w :
  fs (Chatbot.setup_chain sv (self, w)).2.2 = fs w.
Proof.
  destruct (Chatbot.setup_chain sv (self, w)) as [[e|[]] [self' w']] eqn:H.
  - by apply setup_chain_inl in H as (_ & _ & _ & F & _).
  - by apply setup_chain_fs in H.
Qed.

Lemma init_dirs_added sv w :
  dirs_added (fs w) (fs (Chatbot.init sv w).2).
Proof.
  unfold Chatbot.init, Chatbot.getenv_key, Chatbot.on_new. unfold_m.
  destruct (Chatbot.nonempty (OPENAI_API_KEY w)) as [key|];
    [|apply dirs_added_refl].
  destruct (Os.makedirs "chroma_db" (fs w)) as [e|f1] eqn:Hm;
    [apply dirs_added_refl|].
  apply makedirs_dirs_added in Hm; [|done].
  match goal with |- context [Chatbot.setup_chain sv (?o, ?v)] =>
    pose proof (setup_chain_fs_always sv o v) as F;
    destruct (Chatbot.setup_chain sv (o, v)) as [[e|[]] [self' w']]
  end; simpl in *; by rewrite F.
Qed.

Lemma initialize_chatbot_dirs_added sv s :
  dirs_added (fs (Api.world s))
    (fs (Api.world (Api.initialize_chatbot sv s).2)).
Proof.
  unfold Api.initialize_chatbot, Api.in_world, Api.set_chatbot,
    Api.get_chatbot, Api.on_chatbot.
  unfold_m. simpl.
  destruct (Api.chatbot s) as [cb|]; simpl; [apply dirs_added_refl|].
  pose proof (init_dirs_added sv (Api.world s)) as H.
  destruct (Chatbot.init sv (Api.world s)) as [[e|new] w1]; simpl in *.
  { by destruct (contains _ _). }
  destruct (Os.path_exists "documents" (fs w1)); simpl.
  - destruct (Os.listdir "documents" (fs w1)) as [e|[|n names]]; simpl.
    + by destruct (contains _ _).
    + done.
    + pose proof (setup_chain_fs_always sv new w1) as F.
      destruct (Chatbot.setup_chain sv (new, w1)) as [[e|[]] [cb w2]];
        simpl in *.
      * destruct (contains _ _); simpl; by rewrite F.
      * by rewrite F.
  - destruct (Os.makedirs "documents" (fs w1)) as [e|f2] eqn:Hm; simpl.
    + by destruct (contains _ _).
    + apply makedirs_dirs_added in Hm; [|done].
      by eapply dirs_added_trans.
Qed.

Lemma initialize_chatbot_same_files sv s :
  same_files (fs (Api.world s))
    (fs (Api.world (Api.initialize_chatbot sv s).2)).
Proof. apply dirs_added_same_files, initialize_chatbot_dirs_added. Qed.

Lemma chain_call_frame sv c query hist w :
  let w' := (Langchain.Chain_call sv c query hist w).2 in
  fs w' = fs w /\ persisted w' = persisted w.
Proof.
  unfold Langchain.Chain_call, Langchain.messages, Langchain.save_context.
  unfold_m. cbv zeta.
  destruct (memories w !! chain_memory c) as [h|] eqn:Hm; simpl; [|done].
  destruct (retrieve sv _ _ _ _) as [e1|docs]; simpl; [done|].
  destruct (llm_invoke sv _ _ _ _) as [e1|a]; simpl; [done|].
  rewrite Hm. done.
Qed.

Lemma chat_frame sv cb query w :
  let w' := (Chatbot.chat sv cb query w).2 in
  fs w' = fs w /\ persisted w' = persisted w.
Proof.
  unfold Chatbot.chat. unfold_m. cbv zeta.
  destruct (Chatbot.chain cb) as [c|]; [|done].
  destruct (Chatbot.memory cb) as [m|].
  - destruct (Langchain.messages m w) as [[e1|h] w1] eqn:Hm;
      apply messages_state in Hm; subst w1; [done|].
    pose proof (chain_call_frame sv c query h w) as H.
    destruct (Langchain.Chain_call sv c query h w) as [[e1|a] w1]; exact H.
  - pose proof (chain_call_frame sv c query [] w) as H.
    destruct (Langchain.Chain_call sv c query [] w) as [[e1|a] w1]; exact H.
Qed.

Lemma api_chat_bound sv message s cb :
  Api.chatbot s = Some cb ->
  let s' := (Api.chat sv message s).2 in
  Api.chatbot s' = Some cb
  /\ fs (Api.world s') = fs (Api.world s)
  /\ persisted (Api.world s') = persisted (Api.world s).
Proof.
  intros Hcb. destruct s as [w c]. simpl in Hcb. subst c.
  unfold Api.chat, Api.in_world, Api.get_chatbot. unfold_m. cbv zeta. simpl.
  destruct (Os.path_exists "documents" (fs w)); simpl; [|done].
  destruct (Os.listdir "documents" (fs w)) as [e|[|n names]]; simpl.
  - destruct (is_HTTPException e); simpl; [done|].
    by destruct (contains _ _).
  - done.
  - destruct (Chatbot.chain cb) as [c|] eqn:Hc; simpl; [|done].
    pose proof (chat_frame sv cb message w) as H.
    destruct (Chatbot.chat sv cb message w) as [[e|a] w1]; simpl in *;
      [|done].
    destruct (is_HTTPException e); simpl; [done|].
    by destruct (contains _ _).
Qed.

Lemma api_chat_same_files sv message s :
  same_files (fs (Api.world s)) (fs (Api.world (Api.chat sv message s).2)).
Proof.
  destruct (Api.chatbot s) as [cb|] eqn:Hcb.
  { pose proof (api_chat_bound sv message s cb Hcb) as (_ & F & _).
    rewrite F. apply same_files_refl. }
  destruct s as [w c]. simpl in Hcb. subst c.
  unfold Api.chat, Api.in_world, Api.get_chatbot, Api.set_chatbot.
  unfold_m. simpl.
  destruct (Os.path_exists "documents" (fs w)); simpl;
    [|apply same_files_refl].
  destruct (Os.listdir "documents" (fs w)) as [e|[|n names]]; simpl.
  - destruct (is_HTTPException e); simpl; [apply same_files_refl|].
    destruct (contains _ _); apply same_files_refl.
  - apply same_files_refl.
  - pose proof (initialize_chatbot_same_files sv
                  {| Api.world := w; Api.chatbot := None |}) as H.
    destruct (Api.initialize_chatbot sv _) as [[e|r] s1]; simpl in *.
    + destruct (is_HTTPException e); simpl; [done|].
      by destruct (contains _ _).
    + destruct r as [cb|]; simpl; [|done].
      destruct (Chatbot.chain cb) as [c|]; simpl; [|done].
      pose proof (chat_frame sv cb message (Api.world s1)) as [F _].
      destruct (Chatbot.chat sv cb message (Api.world s1)) as [[e|a] w1];
        simpl in *.
      * destruct (is_HTTPException e); simpl; [by rewrite F|].
        destruct (contains _ _); simpl; by rewrite F.
      * by rewrite F.
Qed.

Lemma api_chat_raises_http sv message s e s' :
  Api.chat sv message s = (inl e, s') -> is_HTTPException e = true.
Proof.
  unfold Api.chat, try_except.
  match goal with |- context [match ?m s with _ => _ end] =>
    destruct (m s) as [[e1|a] s1] end; [|done].
  destruct (is_HTTPException e1) eqn:E.
  - intros H; inversion H; subst. done.
  - destruct (contains _ _); intros H; inversion H; done.
Qed.

(** X1: A query never creates, changes or deletes a stored document, and
    against an existing chatbot it neither replaces the chatbot nor touches
    the files or the persisted collections; whatever goes wrong reaches the
    client as an [HTTPException]. *)
Theorem chat_endpoint_is_read_only :
  forall (sv : Services) (message : string) (s : Api.State),
    same_files (fs (Api.world s)) (fs (Api.world (Api.chat sv message s).2))
    /\ (forall cb,
          Api.chatbot s = Some cb ->
          Api.chatbot (Api.chat sv message s).2 = Some cb
          /\ fs (Api.world (Api.chat sv message s).2) = fs (Api.world s)
          /\ persisted (Api.world (Api.chat sv message s).2)
             = persisted (Api.world s))
    /\ (forall e s',
          Api.chat sv message s = (inl e, s') -> is_HTTPException e = true).
Proof.
  intros sv message s. split; [apply api_chat_same_files|]. split.
  - intros cb H. by apply api_chat_bound.
  - intros e s' H. by eapply api_chat_raises_http.
Qed.

Lemma chat_endpoint_is_read_only_witness :
  Api.chatbot (Api.chat Sample.services "What color is the sky?"
                 Sample.two_documents).2
  = Some Sample.bound_chatbot
  /\ is_HTTPException
       (error_of (Api.chat Sample.services "crash" Sample.two_documents).1)
     = true.
Proof.
  destruct (chat_endpoint_is_read_only Sample.services
              "What color is the sky?" Sample.two_documents) as (_ & B & _).
  destruct (chat_endpoint_is_read_only Sample.services
              "crash" Sample.two_documents) as (_ & _ & C).
  split.
  - assert (H : Api.chatbot Sample.two_documents = Some Sample.bound_chatbot)
      by (vm_compute; reflexivity).
    exact (proj1 (B Sample.bound_chatbot H)).
  - set (r := Api.chat Sample.services "crash" Sample.two_documents).
    assert (H : r = (inl (error_of r.1), r.2)) by (vm_compute; reflexivity).
    exact (C _ _ H).
Defined.

(** *** Deleting *)

Lemma strip_prefix_spec a : forall p n,
  strip_prefix a p = Some n -> p = a +:+ n.
Proof.
  induction a as [|c a IH]; intros p n; simpl.
  - by intros [= ->].
  - destruct p as [|c' p]; [done|].
    destruct (Ascii.eqb c c') eqn:E; [|done].
    apply Ascii.eqb_eq in E. subst c'. intros H. by rewrite (IH _ _ H).
Qed.

Lemma child_name_documents_spec p n :
  child_name "documents" p = Some n ->
  p = path_join "documents" n /\ plain_name n = true.
Proof.
  unfold child_name.
  destruct (strip_prefix ("documents" +:+ "/") p) as [m|] eqn:E; [|done].
  apply strip_prefix_spec in E. unfold plain_name.
  destruct (String.eqb m "") eqn:E1; [done|].
  destruct (has_slash m) eqn:E2; [done|]. simpl.
  intros [= ->]. rewrite E1, E2. split; [|done].
  by rewrite path_join_documents.
Qed.

Lemma listdir_documents_plain f names name :
  Os.listdir "documents" f = inr names -> name ∈ names ->
  plain_name name = true.
Proof.
  unfold Os.listdir. change (normdir "documents") with "documents".
  destruct (Os.lookup "documents" f) as [[|]|]; try done.
  intros [= <-] Hin. apply list_elem_of_omap in Hin as ([p n] & _ & Hc).
  by apply child_name_documents_spec in Hc as [_ ?].
Qed.

Lemma lookup_filter_eq p (f : list (string * node)) :
  Os.lookup p (filter (fun e => negb (String.eqb e.1 p)) f) = None.
Proof.
  induction f as [|[q n] f IH]; [done|].
  destruct (String.eqb q p) eqn:E.
  - rewrite filter_cons_False; [exact IH|]. simpl. rewrite E. simpl. tauto.
  - rewrite filter_cons_True by (simpl; rewrite E; simpl; tauto).
    simpl. by rewrite E.
Qed.

Lemma lookup_filter_ne q p (f : list (string * node)) :
  q <> p ->
  Os.lookup q (filter (fun e => negb (String.eqb e.1 p)) f) = Os.lookup q f.
Proof.
  intros Hne. induction f as [|[r n] f IH]; [done|].
  destruct (String.eqb r p) eqn:E.
  - rewrite filter_cons_False by (simpl; rewrite E; simpl; tauto).
    apply String.eqb_eq in E. subst r. simpl.
    destruct (String.eqb p q) eqn:E'; [|exact IH].
    apply String.eqb_eq in E'. congruence.
  - rewrite filter_cons_True by (simpl; rewrite E; simpl; tauto).
    simpl. destruct (String.eqb r q); [done|exact IH].
Qed.

Lemma omap_filter_removed name (f : list (string * node)) :
  plain_name name = true ->
  omap (fun e : string * node => child_name "documents" e.1)
    (filter (fun e => negb (String.eqb e.1 (path_join "documents" name))) f)
  = filter (fun n => negb (String.eqb n name))
      (omap (fun e : string * node => child_name "documents" e.1) f).
Proof.
  intros Hp. pose proof (plain_name_spec _ Hp) as [He Hs].
  assert (Hc : child_name "documents" (path_join "documents" name)
               = Some name).
  { rewrite path_join_documents by done.
    change (child_name "documents" ("documents/" +:+ name))
      with (if String.eqb name "" || has_slash name then None else Some name).
    by rewrite He, Hs. }
  induction f as [|[q n] f IH]; [done|].
  destruct (String.eqb q (path_join "documents" name)) eqn:E.
  - rewrite filter_cons_False by (simpl; rewrite E; simpl; tauto).
    apply String.eqb_eq in E. subst q.
    cbn [omap list_omap fst]. rewrite Hc.
    rewrite filter_cons_False; [exact IH|].
    simpl. rewrite String.eqb_refl. simpl. tauto.
  - rewrite filter_cons_True by (simpl; rewrite E; simpl; tauto).
    cbn [omap list_omap fst].
    destruct (child_name "documents" q) as [m|] eqn:Hq; [|exact IH].
    apply child_name_documents_spec in Hq as [-> _].
    destruct (String.eqb m name) eqn:E'.
    + apply String.eqb_eq in E'. subst m. by rewrite String.eqb_refl in E.
    + rewrite filter_cons_True by (simpl; rewrite E'; simpl; tauto).
      by rewrite IH.
Qed.

Lemma listdir_after_remove name f names :
  plain_name name = true ->
  Os.listdir "documents" f = inr names ->
  Os.listdir "documents"
    (filter (fun e => negb (String.eqb e.1 (path_join "documents" name))) f)
  = inr (filter (fun n => negb (String.eqb n name)) names).
Proof.
  intros Hp. pose proof (plain_name_spec _ Hp) as [_ Hs].
  unfold Os.listdir. change (normdir "documents") with "documents".
  rewrite lookup_filter_ne
    by (by apply path_join_documents_not_dir).
  destruct (Os.lookup "documents" f) as [[|]|]; try done.
  intros [= <-]. by rewrite omap_filter_removed.
Qed.

(** The loop of [delete_document] removes the first regular file of the
    listing whose removal does not fail and passes over the others; it
    reports whether it removed one. *)
Lemma delete_loop_spec sv names : forall w,
  Api.delete_loop sv names w
  = match first_removable sv w names with
    | Some name =>
        (inr true,
         set_fs (filter (fun e => negb (String.eqb e.1
                                          (path_join "documents" name)))
                   (fs w)) w)
    | None => (inr false, w)
    end.
Proof.
  induction names as [|n names IH]; intros w; [done|].
  unfold first_removable in *. simpl. unfold_m.
  destruct (Os.isfile (path_join "documents" n) (fs w)) eqn:E; [|apply IH].
  unfold os_remove, fs_update.
  destruct (remove_error sv (length (trace w)) (path_join "documents" n));
    simpl; [apply IH|].
  unfold Os.isfile in E. unfold Os.remove.
  destruct (Os.lookup (path_join "documents" n) (fs w)) as [[c|]|]; done.
Qed.

Lemma find_elem {A} (P : A -> bool) l x :
  List.find P l = Some x -> x ∈ l /\ P x = true.
Proof.
  intros H. apply find_some in H as [H1 H2]. split; [|done].
  by apply list_elem_of_In.
Qed.

(** X2: [DELETE /documents/{document_id}] removes exactly one document:
    the first regular file of the listing whose [os.remove] does not fail.
    A file whose removal fails is passed over and stays.  Afterwards the
    listing is the old one without the removed name and every other regular
    file is as it was.  When no regular file of the directory can be removed
    nothing changes and the "not found" condition reaches the client as
    status 500, never as 404. *)
Theorem delete_document_removes_first_removable_file :
  forall (sv : Services) (document_id : string) (s : Api.State)
         (names : list string),
    Os.listdir "documents" (fs (Api.world s)) = inr names ->
    match first_removable sv (Api.world s) names with
    | None =>
        Api.delete_document sv document_id s
        = (inl (HTTPException 500
                  (str (HTTPException 404 "Document not found"))), s)
    | Some name =>
        let s' := (Api.delete_document sv document_id s).2 in
        Os.listdir "documents" (fs (Api.world s'))
        = inr (filter (fun n => negb (String.eqb n name)) names)
        /\ Os.isfile (path_join "documents" name) (fs (Api.world s')) = false
        /\ (forall q c,
              q <> path_join "documents" name ->
              Os.lookup q (fs (Api.world s')) = Some (RegularFile c)
              <-> Os.lookup q (fs (Api.world s)) = Some (RegularFile c))
    end.
Proof.
  intros sv document_id [w cb] names Hl. simpl in *.
  unfold Api.delete_document, Api.in_world, Api.set_chatbot.
  unfold_m. simpl. rewrite Hl. simpl. rewrite delete_loop_spec.
  destruct (first_removable sv w names) as [name|] eqn:Hf; simpl; [|done].
  apply find_elem in Hf as [Hin _].
  pose proof (listdir_documents_plain _ _ _ Hl Hin) as Hp.
  pose proof (listdir_after_remove name _ _ Hp Hl) as Hl'.
  pose proof (plain_name_spec _ Hp) as [_ Hs].
  set (f1 := filter _ (fs w)) in *.
  assert (Hd : Os.lookup "documents" f1 = Some Directory).
  { unfold Os.listdir in Hl'.
    change (normdir "documents") with "documents" in Hl'.
    destruct (Os.lookup "documents" f1) as [[|]|]; done. }
  assert (K : forall s1 : Api.State,
             dirs_added f1 (fs (Api.world s1)) ->
             Os.listdir "documents" (fs (Api.world s1))
             = inr (filter (fun n => negb (String.eqb n name)) names)
             /\ Os.isfile (path_join "documents" name) (fs (Api.world s1))
                = false
             /\ (forall q c,
                   q <> path_join "documents" name ->
                   Os.lookup q (fs (Api.world s1)) = Some (RegularFile c)
                   <-> Os.lookup q (fs w) = Some (RegularFile c))).
  { intros s1 Hda. split; [|split].
    - by rewrite (dirs_added_listdir _ _ Hda Hd).
    - unfold Os.isfile.
      destruct (Os.lookup _ (fs (Api.world s1))) as [[c|]|] eqn:E; try done.
      apply (dirs_added_same_files _ _ Hda) in E.
      subst f1. by rewrite lookup_filter_eq in E.
    - intros q c Hq. rewrite (dirs_added_same_files _ _ Hda q c).
      subst f1. by rewrite lookup_filter_ne. }
  rewrite Hl'. simpl.
  destruct (filter _ names) as [|r rs]; simpl.
  { apply (K {| Api.world := set_fs f1 w; Api.chatbot := None |}).
    apply dirs_added_refl. }
  pose proof (initialize_chatbot_dirs_added sv
                {| Api.world := set_fs f1 w; Api.chatbot := None |}) as Hda.
  destruct (Api.initialize_chatbot sv _) as [[e|r'] s1]; simpl in *;
    by apply K.
Qed.

Lemma delete_document_removes_first_removable_file_witness :
  let s' := (Api.delete_document Sample.locked "any"
               Sample.two_documents).2 in
  Os.listdir "documents" (fs (Api.world s')) = inr ["a.txt"]
  /\ Os.isfile "documents/b.txt" (fs (Api.world s')) = false
  /\ Os.isfile "documents/a.txt" (fs (Api.world s')) = true.
Proof.
  assert (Hl : Os.listdir "documents" (fs (Api.world Sample.two_documents))
               = inr ["a.txt"; "b.txt"]) by (vm_compute; reflexivity).
  assert (Hf : first_removable Sample.locked
                 (Api.world Sample.two_documents) ["a.txt"; "b.txt"]
               = Some "b.txt")
    by (vm_compute; reflexivity).
  pose proof (delete_document_removes_first_removable_file Sample.locked
                "any" Sample.two_documents _ Hl) as H.
  rewrite Hf in H. destruct H as (H1 & H2 & H3).
  split; [exact H1|]. split; [exact H2|].
  unfold Os.isfile.
  assert (E : Os.lookup "documents/a.txt"
                (fs (Api.world Sample.two_documents))
              = Some (RegularFile "The sky is blue."))
    by (vm_compute; reflexivity).
  apply (H3 "documents/a.txt" "The sky is blue.") in E; [|discriminate].
  by rewrite E.
Defined.

(** *** Uploading *)

Lemma proper_name_spec name :
  proper_name name = true ->
  has_slash name = false /\ plain_name name = true
  /\ name <> "." /\ name <> "..".
Proof.
  unfold proper_name. intros H.
  apply andb_true_iff in H as [H H5]. apply andb_true_iff in H as [H H4].
  apply andb_true_iff in H as [H _]. apply andb_true_iff in H as [H _].
  pose proof (plain_name_spec _ H) as [_ Hs].
  apply negb_true_iff, String.eqb_neq in H4, H5. done.
Qed.

Lemma write_only p c f f' q n :
  Os.write p c f = inr f' ->
  Os.lookup q f' = Some n ->
  (q = p /\ n = RegularFile c) \/ Os.lookup q f = Some n.
Proof.
  intros Hw Hq. destruct (String.eqb q p) eqn:E.
  - apply String.eqb_eq in E. subst q. left. split; [done|].
    apply write_lookup in Hw. congruence.
  - right. apply String.eqb_neq in E.
    unfold Os.write in Hw.
    destruct (String.eqb (basename p) ""); [done|].
    destruct (Os.lookup p f) as [[c0|]|] eqn:Ep; try done.
    + inversion Hw; subst. by rewrite lookup_replace_ne in Hq.
    + assert (f' = f ++ [(p, RegularFile c)]) as ->.
      { destruct (String.eqb (Os.dirname p) ""); [congruence|].
        destruct (Os.lookup (Os.dirname p) f) as [[|]|]; congruence. }
      destruct (Os.lookup q f) as [m|] eqn:Eq.
      * by rewrite (lookup_app_Some _ _ _ _ Eq) in Hq.
      * rewrite (lookup_app_None _ _ _ Eq) in Hq. simpl in Hq.
        destruct (String.eqb p q) eqn:E'; [|done].
        apply String.eqb_eq in E'. congruence.
Qed.

(** X3: A successful [POST /upload] of a file with a proper name stores
    exactly the uploaded bytes as that entry of the documents directory: the
    file reads back as uploaded, every other path is as it was (but for the
    documents directory, created when missing), the upload was no larger
    than 50MB, and neither the chatbot, nor a memory, nor any external
    service has been touched. *)
Theorem upload_file_stores_content :
  forall (filename content : string) (s s1 : Api.State) (msg : string),
    proper_name filename = true ->
    Api.upload_file filename content s = (inr msg, s1) ->
    path_join "documents" filename = "documents/" +:+ filename
    /\ Os.read (path_join "documents" filename) (fs (Api.world s1))
       = inr content
    /\ (forall q n,
          q <> path_join "documents" filename ->
          Os.lookup q (fs (Api.world s)) = Some n ->
          Os.lookup q (fs (Api.world s1)) = Some n)
    /\ (forall q n,
          Os.lookup q (fs (Api.world s1)) = Some n ->
          q = path_join "documents" filename
          \/ (q = "documents" /\ n = Directory)
          \/ Os.lookup q (fs (Api.world s)) = Some n)
    /\ Z.of_nat (String.length content) <= 50 * 1024 * 1024
    /\ Api.chatbot s1 = Api.chatbot s
    /\ memories (Api.world s1) = memories (Api.world s)
    /\ trace (Api.world s1) = trace (Api.world s).
Proof.
  intros filename content s s1 msg Hp H.
  split; [apply path_join_documents; by destruct (proper_name_spec _ Hp)|].
  clear Hp. revert H.
  unfold Api.upload_file, Api.in_world. unfold_m.
  destruct (Os.makedirs "documents" (fs (Api.world s))) as [e|f1] eqn:Hm;
    simpl.
  { by destruct (is_HTTPException e). }
  destruct (_ <? _) eqn:Hsz; simpl; [done|].
  destruct (Os.write _ _ f1) as [e|f2] eqn:Hw; simpl.
  { by destruct (is_HTTPException e). }
  intros H; inversion H; subst; clear H. simpl.
  apply Z.ltb_ge in Hsz.
  split; [by apply write_read in Hw|].
  split.
  { intros q n Hq Hl. eapply write_keeps; [exact Hw|done|].
    by eapply makedirs_keeps. }
  split.
  { intros q n Hl.
    destruct (write_only _ _ _ _ _ _ Hw Hl) as [[-> _]|Hl1]; [by left|].
    right. apply makedirs_inr in Hm as [[->| ->] _]; [by right|].
    destruct (Os.lookup q (fs (Api.world s))) as [m|] eqn:Eq.
    - rewrite (lookup_app_Some _ _ _ _ Eq) in Hl1. by right.
    - rewrite (lookup_app_None _ _ _ Eq) in Hl1.
      change (normdir "documents") with "documents" in Hl1.
      cbn [Os.lookup] in Hl1.
      destruct (String.eqb "documents" q) eqn:E; [|done].
      apply String.eqb_eq in E. left. split; congruence. }
  done.
Qed.

Lemma upload_file_stores_content_witness :
  Os.read "documents/a.txt"
    (fs (Api.world (Api.upload_file "a.txt" "The sky is blue."
                      Sample.start).2))
  = inr "The sky is blue.".
Proof.
  set (r := Api.upload_file "a.txt" "The sky is blue." Sample.start).
  assert (H : r = (inr (value_of "" r.1), r.2)) by (vm_compute; reflexivity).
  exact (proj1 (proj2 (upload_file_stores_content "a.txt" "The sky is blue."
                         Sample.start r.2 _ eq_refl H))).
Defined.

(** An upload larger than 50MB is answered 413; no file is written and
    the chatbot stays as it was. *)
Lemma upload_file_too_large filename content s :
  50 * 1024 * 1024 < Z.of_nat (String.length content) ->
  (exists e, (Api.upload_file filename content s).1 = inl e
             /\ is_HTTPException e = true)
  /\ same_files (fs (Api.world s))
       (fs (Api.world (Api.upload_file filename content s).2))
  /\ Api.chatbot (Api.upload_file filename content s).2 = Api.chatbot s.
Proof.
  intros Hsz. apply Z.ltb_lt in Hsz.
  unfold Api.upload_file, Api.in_world. unfold_m.
  destruct (Os.makedirs "documents" (fs (Api.world s))) as [e|f1] eqn:Hm;
    simpl.
  { destruct (is_HTTPException e) eqn:E; simpl;
      (split; [eexists; split; [reflexivity|done]
              |split; [apply same_files_refl|done]]). }
  rewrite Hsz. simpl. split; [eexists; split; reflexivity|].
  split; [|done].
  apply dirs_added_same_files.
  by apply (makedirs_dirs_added "documents" _ _ eq_refl Hm).
Qed.

(** *** The background task *)

Lemma cleanup_result p (f : list (string * node)) :
  let f' := match Os.remove p f with inr f' => f' | inl _ => f end in
  Os.isfile p f' = false
  /\ (forall q, q <> p -> Os.lookup q f' = Os.lookup q f).
Proof.
  unfold Os.remove, Os.isfile. cbv zeta.
  destruct (Os.lookup p f) as [[c|]|] eqn:E; rewrite ?E; try done.
  split; [by rewrite lookup_filter_eq|].
  intros q Hq. by rewrite lookup_filter_ne.
Qed.

(** X4: When the background task of an upload fails, whether in
    [DocumentChatbot()] or in the [setup_chain()] after it, the task tries
    to remove the uploaded file and passes over a failure of that removal.
    For the path of an upload with a proper name: unless [os.remove] failed,
    the file is no longer in the store afterwards (also when a document of
    that name had been stored before the upload); when it failed, the file
    stays as it is; every other regular file is kept as it was. *)
Theorem failed_processing_removes_upload :
  forall (sv : Services) (filename : string) (s s' : Api.State) (e : exn),
    proper_name filename = true ->
    let file_path := path_join "documents" filename in
    Api.init_chatbot sv file_path s = (inl e, s') ->
    let refused :=
      remove_error sv (length (trace (Api.world s'))) file_path in
    file_path = "documents/" +:+ filename
    /\ (refused = None -> Os.isfile file_path (fs (Api.world s')) = false)
    /\ (forall q c,
          q <> file_path \/ refused <> None ->
          Os.lookup q (fs (Api.world s')) = Some (RegularFile c)
          <-> Os.lookup q (fs (Api.world s)) = Some (RegularFile c)).
Proof.
  intros sv filename s s' e Hp file_path H refused.
  split; [apply path_join_documents; by destruct (proper_name_spec _ Hp)|].
  clear Hp. revert H refused. generalize file_path.
  clear file_path filename. intros file_path. cbv zeta.
  unfold Api.init_chatbot, Api.in_world, Api.set_chatbot, Api.on_chatbot.
  unfold_m.
  pose proof (init_dirs_added sv (Api.world s)) as Hda.
  apply dirs_added_same_files in Hda.
  assert (K : forall w1,
    same_files (fs (Api.world s)) (fs w1) ->
    let w2 := (os_remove sv file_path w1).2 in
    trace w2 = trace w1
    /\ (remove_error sv (length (trace w1)) file_path = None ->
        Os.isfile file_path (fs w2) = false)
    /\ (forall q c,
          q <> file_path
          \/ remove_error sv (length (trace w1)) file_path <> None ->
          Os.lookup q (fs w2) = Some (RegularFile c)
          <-> Os.lookup q (fs (Api.world s)) = Some (RegularFile c))).
  { intros w1 Hs1. cbv zeta. unfold os_remove, fs_update.
    destruct (remove_error sv (length (trace w1)) file_path) as [e1|];
      simpl.
    { split; [done|]. split; [done|]. intros q c _. apply Hs1. }
    pose proof (cleanup_result file_path (fs w1)) as [Hc Hk].
    destruct (Os.remove file_path (fs w1)) as [e2|f2]; simpl in *.
    - split; [done|]. split; [done|]. intros q c _. apply Hs1.
    - split; [done|]. split; [done|]. intros q c [Hq|Hq]; [|done].
      rewrite (Hk q Hq). apply Hs1. }
  destruct (Chatbot.init sv (Api.world s)) as [[e1|new] w1]; simpl in *.
  - destruct (K w1 Hda) as (T & A & B).
    destruct (os_remove sv file_path w1) as [[e2|[]] w2]; simpl in *;
      intros H; inversion H; subst; clear H; simpl; rewrite T;
      split; done.
  - pose proof (setup_chain_fs_always sv new w1) as F.
    destruct (Chatbot.setup_chain sv (new, w1)) as [[e2|[]] [cb w2]];
      simpl in *; [|done].
    assert (Hs2 : same_files (fs (Api.world s)) (fs w2)) by (by rewrite F).
    destruct (K w2 Hs2) as (T & A & B).
    destruct (os_remove sv file_path w2) as [[e3|[]] w3]; simpl in *;
      intros H; inversion H; subst; clear H; simpl; rewrite T;
      split; done.
Qed.

Lemma failed_processing_removes_upload_witness :
  let s1 := (Api.upload_file "c.txt" "Third." Sample.two_documents).2 in
  Os.isfile "documents/c.txt" (fs (Api.world s1)) = true
  /\ Os.isfile "documents/c.txt"
       (fs (Api.world (Api.init_chatbot Sample.services "documents/c.txt"
                         s1).2)) = false
  /\ Os.isfile "documents/a.txt"
       (fs (Api.world (Api.init_chatbot Sample.locked "documents/a.txt"
                         s1).2)) = true.
Proof.
  intros s1. split; [vm_compute; reflexivity|]. split.
  - set (r := Api.init_chatbot Sample.services "documents/c.txt" s1).
    assert (H : r = (inl (error_of r.1), r.2)) by (vm_compute; reflexivity).
    destruct (failed_processing_removes_upload Sample.services "c.txt" s1
                r.2 _ eq_refl H) as (_ & A & _).
    apply A. reflexivity.
  - set (r := Api.init_chatbot Sample.locked "documents/a.txt" s1).
    assert (H : r = (inl (error_of r.1), r.2)) by (vm_compute; reflexivity).
    destruct (failed_processing_removes_upload Sample.locked "a.txt" s1
                r.2 _ eq_refl H) as (_ & _ & B).
    unfold Os.isfile.
    assert (E : Os.lookup "documents/a.txt" (fs (Api.world s1))
                = Some (RegularFile "The sky is blue."))
      by (vm_compute; reflexivity).
    apply (B "documents/a.txt" "The sky is blue.") in E;
      [|right; vm_compute; discriminate].
    change (path_join "documents" "a.txt") with "documents/a.txt" in E.
    by rewrite E.
Defined.

(** *** Reading the upload *)

Lemma append_cons c a b : String c a +:+ b = String c (a +:+ b).
Proof. reflexivity. Qed.

Lemma substring_all s : substring 0 (String.length s) s = s.
Proof. induction s as [|c s IH]; simpl; [done|]. by rewrite IH. Qed.

Lemma substring_split n : forall s,
  substring 0 n s +:+ substring n (String.length s - n) s = s.
Proof.
  induction n as [|n IH]; intros s.
  - rewrite Nat.sub_0_r, substring_all. by destruct s.
  - destruct s as [|c s]; [done|]. simpl. by rewrite append_cons, IH.
Qed.

Lemma substring_prefix_length n : forall s,
  String.length (substring 0 n s) = Nat.min n (String.length s).
Proof.
  induction n as [|n IH]; intros s; [by destruct s|].
  destruct s as [|c s]; [done|]. simpl. by rewrite IH.
Qed.

Lemma substring_suffix_length n : forall s,
  String.length (substring n (String.length s - n) s) = (String.length s - n)%nat.
Proof.
  induction n as [|n IH]; intros s.
  - by rewrite Nat.sub_0_r, substring_all.
  - destruct s as [|c s]; [done|]. simpl. by rewrite IH.
Qed.

Lemma append_empty_r s : s +:+ "" = s.
Proof.
  induction s as [|c s IH]; [done|]. by rewrite append_cons, IH.
Qed.

Lemma append_assoc_string a b c : (a +:+ b) +:+ c = a +:+ (b +:+ c).
Proof.
  induction a as [|x a IH]; [done|]. by rewrite !append_cons, IH.
Qed.

Lemma length_append_string a b :
  String.length (a +:+ b) = (String.length a + String.length b)%nat.
Proof.
  induction a as [|x a IH]; [done|]. rewrite append_cons. simpl.
  by rewrite IH.
Qed.

Lemma read_chunks_spec n : (0 < n)%nat -> forall fuel rest file_size content,
  (String.length rest < fuel)%nat ->
  file_size <= Endpoints.max_upload ->
  Endpoints.read_chunks fuel n rest file_size content
  = if Endpoints.max_upload <? file_size + Z.of_nat (String.length rest)
    then inl (HTTPException 413 "File too large. Maximum size is 50MB.")
    else inr (content +:+ rest).
Proof.
  intros Hn. induction fuel as [|fuel IH]; intros rest size content Hf Hs;
    [lia|].
  cbn [Endpoints.read_chunks].
  destruct rest as [|c rest].
  { destruct n; simpl; rewrite Z.add_0_r, append_empty_r;
      by destruct (Z.ltb_spec Endpoints.max_upload size); [lia|]. }
  set (s := String c rest) in *.
  pose proof (substring_split n s) as Hsplit.
  pose proof (substring_prefix_length n s) as Hpl.
  pose proof (substring_suffix_length n s) as Hsl.
  assert (Hne : String.eqb (substring 0 n s) "" = false).
  { destruct n; [lia|]. done. }
  rewrite Hne.
  assert (Hlen : String.length s
                 = (String.length (substring 0 n s)
                    + String.length (substring n (String.length s - n) s))%nat).
  { by rewrite <- length_append_string, Hsplit. }
  assert (Hpos : (0 < String.length (substring 0 n s))%nat).
  { rewrite Hpl. subst s. simpl. lia. }
  destruct (Z.ltb_spec Endpoints.max_upload
              (size + Z.of_nat (String.length (substring 0 n s)))) as [H1|H1].
  - destruct (Z.ltb_spec Endpoints.max_upload
                (size + Z.of_nat (String.length s))); [done|lia].
  - rewrite IH; [|subst s; simpl in *; lia|lia].
    rewrite append_assoc_string, Hsplit.
    replace (size + Z.of_nat (String.length (substring 0 n s))
             + Z.of_nat (String.length
                           (substring n (String.length s - n) s)))
      with (size + Z.of_nat (String.length s)) by lia.
    done.
Qed.

(** X5: The loop by which [upload_file] reads the upload in chunks returns
    the whole content when it is at most 50MB and raises 413 otherwise,
    whatever the positive chunk size: the limit is exact and does not depend
    on how the bytes arrive. *)
Theorem upload_size_limit_is_exact :
  forall (n fuel : nat) (content : string),
    (0 < n)%nat ->
    (String.length content < fuel)%nat ->
    Endpoints.read_chunks fuel n content 0 ""
    = if 50 * 1024 * 1024 <? Z.of_nat (String.length content)
      then inl (HTTPException 413 "File too large. Maximum size is 50MB.")
      else inr content.
Proof.
  intros n fuel content Hn Hf.
  rewrite (read_chunks_spec n Hn fuel content 0 "" Hf); [done|].
  unfold Endpoints.max_upload. lia.
Qed.

Lemma upload_size_limit_is_exact_witness :
  Endpoints.read_chunks 17 5 "The sky is blue." 0 ""
  = if 50 * 1024 * 1024 <? Z.of_nat (String.length "The sky is blue.")
    then inl (HTTPException 413 "File too large. Maximum size is 50MB.")
    else inr "The sky is blue.".
Proof.
  apply (upload_size_limit_is_exact 5 17 "The sky is blue."); simpl; lia.
Defined.

(** *** Collection names *)

Lemma str_of_Z_inj a b : str_of_Z a = str_of_Z b -> a = b.
Proof.
  unfold str_of_Z. intros H.
  assert (P : forall z, NilZero.int_of_string
                          (NilZero.string_of_int (Z.to_int z))
                        = Some (Z.to_int z)).
  { intros z. apply NilZero.isi; destruct z; simpl; try discriminate;
      intros [= E]; by apply DecimalPos.Unsigned.to_uint_nonnil in E. }
  apply DecimalZ.to_int_inj.
  pose proof (P a) as Pa. rewrite H, P in Pa. congruence.
Qed.

Lemma append_inj_l a : forall b c, a +:+ b = a +:+ c -> b = c.
Proof.
  induction a as [|x a IH]; intros b c; [done|].
  rewrite !append_cons. intros [= H]. by apply IH.
Qed.

(** X6: Two index builds that succeed receive the same collection name
    exactly when their clock readings fall into the same whole second; a
    name is [collection_] followed by that second in decimal. *)
Theorem collection_names_differ_by_second :
  forall (sv : Services) (self : Chatbot.DocumentChatbot)
         (texts1 texts2 : list Document) (w1 w2 w1' w2' : World)
         (vs1 vs2 : VectorStore),
    Chatbot.create_vector_store sv self texts1 w1 = (inr vs1, w1') ->
    Chatbot.create_vector_store sv self texts2 w2 = (inr vs2, w2') ->
    (vs_collection_name vs1 = vs_collection_name vs2
     <-> Z.quot (time_time sv (length (trace w1))) 1000000
         = Z.quot (time_time sv (length (trace w2))) 1000000).
Proof.
  intros sv self texts1 texts2 w1 w2 w1' w2' vs1 vs2 H1 H2.
  apply create_vector_store_inr in H1 as [_ ->].
  apply create_vector_store_inr in H2 as [_ ->]. simpl. split.
  - intros [= H]. by apply append_inj_l, str_of_Z_inj in H.
  - by intros ->.
Qed.

Lemma collection_names_differ_by_second_witness :
  let chunk := {| page_content := "The sky is blue."; source := None |} in
  let w1 := set_trace (repeat EvClock 5) Sample.empty_world in
  let w2 := set_trace (repeat EvClock 10) Sample.empty_world in
  let d := {| vs_documents := []; vs_collection_name := None;
              vs_persist_directory := "" |} in
  let r1 := Chatbot.create_vector_store Sample.services Sample.unbound
              [chunk] w1 in
  let r2 := Chatbot.create_vector_store Sample.services Sample.unbound
              [chunk] w2 in
  vs_collection_name (value_of d r1.1) = vs_collection_name (value_of d r2.1)
  <-> Z.quot (time_time Sample.services 5) 1000000
      = Z.quot (time_time Sample.services 10) 1000000.
Proof.
  intros chunk w1 w2 d r1 r2.
  assert (H1 : r1 = (inr (value_of d r1.1), r1.2))
    by (vm_compute; reflexivity).
  assert (H2 : r2 = (inr (value_of d r2.1), r2.2))
    by (vm_compute; reflexivity).
  exact (collection_names_differ_by_second Sample.services Sample.unbound
           [chunk] [chunk] w1 w2 r1.2 r2.2 (value_of d r1.1)
           (value_of d r2.1) H1 H2).
Defined.

(** *** Bound chatbots and their memories *)

Lemma memories_extended_refl ms : memories_extended ms ms.
Proof. exists 0%nat. by rewrite app_nil_r. Qed.

Lemma memories_extended_trans ms1 ms2 ms3 :
  memories_extended ms1 ms2 -> memories_extended ms2 ms3 ->
  memories_extended ms1 ms3.
Proof.
  intros [n ->] [m ->]. exists (n + m)%nat.
  by rewrite repeat_app, app_assoc.
Qed.

Lemma memories_extended_one ms : memories_extended ms (ms ++ [[]]).
Proof. by exists 1%nat. Qed.

Lemma memories_extended_eq ms ms' : ms' = ms -> memories_extended ms ms'.
Proof. intros ->. apply memories_extended_refl. Qed.

Lemma memories_extended_lookup ms ms' m (h : list Turn) :
  memories_extended ms ms' -> ms !! m = Some h -> ms' !! m = Some h.
Proof. intros [n ->] H. by apply lookup_app_l_Some. Qed.

Lemma well_bound_extended cb w w' :
  memories_extended (memories w) (memories w') ->
  well_bound cb w -> well_bound cb w'.
Proof.
  intros E (c & Hc & Hm & [h Hh] & K). exists c. repeat split; try tauto.
  exists h. by eapply memories_extended_lookup.
Qed.

Lemma setup_chain_ok sv self w :
  let r := Chatbot.setup_chain sv (self, w) in
  memories_extended (memories w) (memories r.2.2)
  /\ (well_bound self w \/ is_ok r.1 = true -> well_bound r.2.1 r.2.2).
Proof.
  cbv zeta.
  destruct (Chatbot.setup_chain sv (self, w)) as [[e|[]] [self' w']] eqn:H;
    simpl.
  - apply setup_chain_inl in H as (Hc & Hm & _ & _ & M).
    split; [by apply memories_extended_eq|].
    intros [(c & ? & ? & ? & ?)|]; [|done].
    exists c. rewrite Hc, Hm, M. tauto.
  - apply setup_chain_inr in H
      as (docs & texts & vs & w1 & w2 & Hl & _ & Hv & -> & ->).
    pose proof (load_documents_same_store sv self w) as (_ & _ & M1 & _).
    pose proof (create_vector_store_frame sv self texts w1) as (_ & _ & M2).
    rewrite Hl in M1. rewrite Hv in M2. simpl in *.
    apply create_vector_store_inr in Hv as [Hne ->].
    split.
    + rewrite M2, <- M1. apply memories_extended_one.
    + intros _. eexists. simpl. repeat split; [|done].
      rewrite lookup_app_r; [|done]. rewrite Nat.sub_diag. by eexists.
Qed.

Lemma init_ok sv w :
  let r := Chatbot.init sv w in
  memories_extended (memories w) (memories r.2)
  /\ (forall cb, r.1 = inr cb -> well_bound cb r.2).
Proof.
  cbv zeta. unfold Chatbot.init, Chatbot.getenv_key, Chatbot.on_new. unfold_m.
  destruct (Chatbot.nonempty (OPENAI_API_KEY w)) as [key|];
    [|split; [apply memories_extended_refl|done]].
  destruct (Os.makedirs "chroma_db" (fs w)) as [e|f1];
    [split; [apply memories_extended_refl|done]|].
  match goal with |- context [Chatbot.setup_chain sv (?o, ?v)] =>
    pose proof (setup_chain_ok sv o v) as [E K];
    destruct (Chatbot.setup_chain sv (o, v)) as [[e|[]] [self' w']]
  end; simpl in *; split; try done.
  intros cb [= <-]. apply K. by right.
Qed.

Lemma chat_ok sv cb query w :
  let r := Chatbot.chat sv cb query w in
  length (memories r.2) = length (memories w)
  /\ forall m h,
       memories w !! m = Some h ->
       memories r.2 !! m = Some h
       \/ exists a, r.1 = inr a
            /\ memories r.2 !! m
               = Some (h ++ [{| question := query; answer := a |}]).
Proof.
  cbv zeta.
  destruct (Chatbot.chat sv cb query w) as [[e|a] w'] eqn:H; simpl.
  - apply chat_inl in H. rewrite H. by auto.
  - destruct (Chatbot.chain cb) as [c|] eqn:Hc.
    2:{ unfold Chatbot.chat in H. rewrite Hc in H. done. }
    pose proof (chat_inr _ _ _ _ _ _ _ Hc H) as (h0 & H0 & E). rewrite E.
    split; [by rewrite length_insert|].
    intros m h Hm. destruct (decide (m = chain_memory c)) as [->|N].
    + right. exists a. split; [done|].
      rewrite list_lookup_insert_eq by (by eapply lookup_lt_Some).
      congruence.
    + left. by rewrite list_lookup_insert_ne.
Qed.

Lemma well_bound_same_length cb w w' :
  length (memories w') = length (memories w) ->
  well_bound cb w -> well_bound cb w'.
Proof.
  intros E (c & Hc & Hm & [h Hh] & K). exists c. repeat split; try tauto.
  apply lookup_lt_is_Some. rewrite E. by eapply lookup_lt_Some.
Qed.

Lemma initialize_chatbot_ok sv s :
  let r := Api.initialize_chatbot sv s in
  memories_extended (memories (Api.world s)) (memories (Api.world r.2))
  /\ (chatbot_ok s -> chatbot_ok r.2)
  /\ (forall cb, r.1 = inr (Some cb) -> Api.chatbot r.2 = Some cb).
Proof.
  cbv zeta. destruct s as [w c].
  unfold Api.initialize_chatbot, Api.in_world, Api.set_chatbot,
    Api.get_chatbot, Api.on_chatbot, chatbot_ok.
  unfold_m. simpl.
  destruct c as [cb0|]; simpl.
  { split; [apply memories_extended_refl|]. split; done. }
  pose proof (init_ok sv w) as [E K].
  destruct (Chatbot.init sv w) as [[e|new] w1]; simpl in *.
  { destruct (contains _ _); simpl; split; try done. }
  specialize (K new eq_refl).
  destruct (Os.path_exists "documents" (fs w1)); simpl.
  - destruct (Os.listdir "documents" (fs w1)) as [e|[|n names]]; simpl.
    + destruct (contains _ _); simpl; (split; [done|]); split; try done;
        by intros _ cb [= <-].
    + split; [done|]. split; [|done]. by intros _ cb [= <-].
    + pose proof (setup_chain_ok sv new w1) as [E2 K2].
      destruct (Chatbot.setup_chain sv (new, w1)) as [[e|[]] [cb w2]];
        simpl in *.
      * destruct (contains _ _); simpl;
          (split; [by eapply memories_extended_trans|]); split; try done;
          intros _ cb' [= <-]; apply K2; by left.
      * split; [by eapply memories_extended_trans|]. split.
        -- intros _ cb' [= <-]. apply K2. by left.
        -- by intros cb' [= <-].
  - destruct (Os.makedirs "documents" (fs w1)) as [e|f2]; simpl.
    + destruct (contains _ _); simpl; (split; [done|]); split; try done;
        by intros _ cb [= <-].
    + split; [done|]. split; [|done]. by intros _ cb [= <-].
Qed.

Lemma chatbot_ok_frame s s' :
  Api.chatbot s' = Api.chatbot s ->
  memories_extended (memories (Api.world s)) (memories (Api.world s')) ->
  chatbot_ok s -> chatbot_ok s'.
Proof.
  intros Hc E K cb H. rewrite Hc in H.
  eapply well_bound_extended; [exact E|]. by apply K.
Qed.

Lemma upload_file_ok filename content s :
  let s' := (Api.upload_file filename content s).2 in
  memories (Api.world s') = memories (Api.world s)
  /\ (chatbot_ok s -> chatbot_ok s').
Proof.
  cbv zeta. pose proof (upload_file_frame filename content s) as [Hc Hm].
  split; [done|].
  apply chatbot_ok_frame; [done|]. by apply memories_extended_eq.
Qed.

Lemma init_chatbot_ok sv file_path s :
  let s' := (Api.init_chatbot sv file_path s).2 in
  memories_extended (memories (Api.world s)) (memories (Api.world s'))
  /\ (chatbot_ok s -> chatbot_ok s').
Proof.
  cbv zeta. destruct s as [w c].
  unfold Api.init_chatbot, Api.in_world, Api.set_chatbot, Api.on_chatbot,
    chatbot_ok.
  unfold_m. simpl.
  pose proof (init_ok sv w) as [E K].
  destruct (Chatbot.init sv w) as [[e|new] w1]; simpl in *.
  { destruct (os_remove_cases sv file_path w1) as [[e' R]|(f' & _ & _ & R)];
      rewrite R; simpl; (split; [done|]);
      intros H cb Hcb; eapply well_bound_extended; try exact E; by apply H. }
  specialize (K new eq_refl).
  pose proof (setup_chain_ok sv new w1) as [E2 K2].
  destruct (Chatbot.setup_chain sv (new, w1)) as [[e|[]] [cb w2]];
    simpl in *.
  - destruct (os_remove_cases sv file_path w2) as [[e' R]|(f' & _ & _ & R)];
      rewrite R; simpl;
      (split; [by eapply memories_extended_trans|]);
      intros _ cb' [= <-]; apply (well_bound_extended cb w2);
      try apply memories_extended_refl; apply K2; by left.
  - split; [by eapply memories_extended_trans|].
    intros _ cb' [= <-]. apply K2. by left.
Qed.

Lemma delete_document_ok sv document_id s :
  let s' := (Api.delete_document sv document_id s).2 in
  memories_extended (memories (Api.world s)) (memories (Api.world s'))
  /\ (chatbot_ok s -> chatbot_ok s').
Proof.
  cbv zeta. destruct s as [w c].
  unfold Api.delete_document, Api.in_world, Api.set_chatbot. unfold_m. simpl.
  destruct (Os.listdir "documents" (fs w)) as [e|names]; simpl.
  { split; [apply memories_extended_refl|done]. }
  rewrite delete_loop_spec.
  destruct (first_removable sv w names) as [name|]; simpl.
  2:{ split; [apply memories_extended_refl|done]. }
  match goal with |- context [Os.listdir "documents" ?f] =>
    destruct (Os.listdir "documents" f) as [e|[|r rs]] end; simpl.
  - split; [apply memories_extended_refl|]. by intros _ cb.
  - split; [apply memories_extended_refl|]. by intros _ cb.
  - match goal with |- context [Api.initialize_chatbot sv ?t] =>
      pose proof (initialize_chatbot_ok sv t) as (E & K & _);
      destruct (Api.initialize_chatbot sv t) as [[e|o] s1]
    end; simpl in *; (split; [done|]); intros _; apply K; by intros cb.
Qed.

Lemma health_check_ok sv s :
  let s' := (Endpoints.health_check sv s).2 in
  memories_extended (memories (Api.world s)) (memories (Api.world s'))
  /\ (chatbot_ok s -> chatbot_ok s').
Proof.
  cbv zeta. destruct s as [w c].
  unfold Endpoints.health_check, Api.in_world, Api.get_chatbot.
  unfold_m. simpl.
  assert (R : memories_extended (memories w) (memories w))
    by apply memories_extended_refl.
  destruct (Os.path_exists "documents" (fs w)); simpl.
  - destruct (Os.listdir "documents" (fs w)) as [e|[|n names]]; simpl.
    + done.
    + by destruct c.
    + destruct c as [cb|]; simpl; [done|].
      pose proof (initialize_chatbot_ok sv
                    {| Api.world := w; Api.chatbot := None |}) as (E & K & _).
      destruct (Api.initialize_chatbot sv _) as [[e|o] s1]; simpl in *;
        done.
  - by destruct c.
Qed.

Lemma api_chat_ok sv message s :
  let r := Api.chat sv message s in
  (chatbot_ok s -> chatbot_ok r.2)
  /\ forall m h,
       memories (Api.world s) !! m = Some h ->
       memories (Api.world r.2) !! m = Some h
       \/ exists a, r.1 = inr a
            /\ memories (Api.world r.2) !! m
               = Some (h ++ [{| question := message; answer := a |}]).
Proof.
  cbv zeta. destruct s as [w c].
  unfold Api.chat, Api.in_world, Api.get_chatbot, Api.set_chatbot.
  unfold_m. simpl.
  destruct (Os.path_exists "documents" (fs w)); simpl; [|by auto].
  destruct (Os.listdir "documents" (fs w)) as [e|[|n names]]; simpl.
  { destruct (is_HTTPException e); simpl; [by auto|].
    destruct (contains _ _); by auto. }
  { by auto. }
  assert (L : forall cb w1 (r := Chatbot.chat sv cb message w1),
    (well_bound cb w1 -> well_bound cb r.2)
    /\ forall m h, memories w1 !! m = Some h ->
         memories r.2 !! m = Some h
         \/ exists a, r.1 = inr a
              /\ memories r.2 !! m
                 = Some (h ++ [{| question := message; answer := a |}])).
  { intros cb w1 r. pose proof (chat_ok sv cb message w1) as [E K].
    split; [by apply well_bound_same_length|exact K]. }
  destruct c as [cb|]; simpl.
  - destruct (Chatbot.chain cb) as [ch|] eqn:Hc; simpl; [|by auto].
    destruct (L cb w) as [L1 L2].
    destruct (Chatbot.chat sv cb message w) as [[e|a] w1]; simpl in *.
    + assert (G : (chatbot_ok {| Api.world := w; Api.chatbot := Some cb |} ->
                   chatbot_ok {| Api.world := w1; Api.chatbot := Some cb |})
                  /\ forall m h, memories w !! m = Some h ->
                       memories w1 !! m = Some h).
      { split.
        - intros K cb' [= <-]. apply L1. by apply K.
        - intros m h Hm. destruct (L2 m h Hm) as [?|(a & ? & _)]; done. }
      destruct G as [G1 G2].
      destruct (is_HTTPException e); simpl; [by auto|].
      destruct (contains _ _); simpl; by auto.
    + split; [|exact L2].
      intros K cb' [= <-]. apply L1. by apply K.
  - pose proof (initialize_chatbot_ok sv
                  {| Api.world := w; Api.chatbot := None |}) as (E & K & B).
    assert (K0 : chatbot_ok {| Api.world := w; Api.chatbot := None |})
      by (by intros cb).
    specialize (K K0).
    destruct (Api.initialize_chatbot sv _) as [[e|o] s1]; simpl in *.
    + assert (G : forall m h, memories w !! m = Some h ->
                    memories (Api.world s1) !! m = Some h)
        by (intros m h; by apply memories_extended_lookup).
      destruct (is_HTTPException e); simpl; [by auto|].
      destruct (contains _ _); simpl; by auto.
    + assert (G : forall m h, memories w !! m = Some h ->
                    memories (Api.world s1) !! m = Some h)
        by (intros m h; by apply memories_extended_lookup).
      destruct o as [cb|]; simpl.
      2:{ split; [by intros _ cb|by auto]. }
      specialize (B cb eq_refl).
      pose proof (K cb B) as W.
      destruct (Chatbot.chain cb) as [ch|] eqn:Hc; simpl.
      2:{ split; [|by auto]. by intros _ cb' [= <-]. }
      destruct (L cb (Api.world s1)) as [L1 L2].
      destruct (Chatbot.chat sv cb message (Api.world s1)) as [[e|a] w1];
        simpl in *.
      * assert (G2 : forall m h, memories w !! m = Some h ->
                       memories w1 !! m = Some h).
        { intros m h Hm. destruct (L2 m h (G m h Hm)) as [?|(a & ? & _)];
            done. }
        assert (G1 : chatbot_ok {| Api.world := w1; Api.chatbot := Some cb |})
          by (intros cb' [= <-]; by apply L1).
        destruct (is_HTTPException e); simpl; [by auto|].
        destruct (contains _ _); simpl; by auto.
      * split; [intros _ cb' [= <-]; by apply L1|].
        intros m h Hm.
        destruct (L2 m h (G m h Hm)) as [?|(a' & [= <-] & ?)];
          [by left|right; by exists a].
Qed.

(** X7: In every state the process can reach, a bound [chatbot] can answer:
    it has a chain that asks its retriever for three chunks of a non-empty
    index and keeps the conversation in the memory of the object, and that
    memory exists.  So the [chain is None] refusal of
    [DocumentChatbot.chat] is never met through the web application. *)
Theorem reachable_chatbot_can_answer :
  forall (sv : Services) (s : Api.State) (cb : Chatbot.DocumentChatbot),
    reachable sv s ->
    Api.chatbot s = Some cb ->
    well_bound cb (Api.world s).
Proof.
  intros sv s cb R. revert cb. change (chatbot_ok s).
  induction R as [w|s r R IH|s f key R IH].
  - by intros cb.
  - destruct r; simpl.
    + by apply initialize_chatbot_ok.
    + by apply upload_file_ok.
    + by apply init_chatbot_ok.
    + by apply api_chat_ok.
    + by apply delete_document_ok.
    + by apply health_check_ok.
  - intros cb H. simpl in H.
    destruct (IH cb H) as (c & W). by exists c.
Qed.

Lemma reachable_chatbot_can_answer_witness :
  well_bound Sample.bound_chatbot (Api.world Sample.two_documents).
Proof.
  assert (E : Sample.two_documents
              = handle Sample.services (Process "documents/b.txt")
                  (handle Sample.services (Upload "b.txt" "Grass is green.")
                     (handle Sample.services (Process "documents/a.txt")
                        (handle Sample.services
                           (Upload "a.txt" "The sky is blue.")
                           Sample.start))))
    by (vm_compute; reflexivity).
  assert (R : reachable Sample.services Sample.two_documents).
  { rewrite E. do 4 apply reachable_request. apply reachable_start. }
  assert (B : Api.chatbot Sample.two_documents = Some Sample.bound_chatbot)
    by (vm_compute; reflexivity).
  exact (reachable_chatbot_can_answer Sample.services Sample.two_documents
           Sample.bound_chatbot R B).
Defined.

(** X8: No request but a question writes into a conversation: whatever the
    request and however it ends, every conversation memory that exists
    keeps its turns, and a rebuild only adds new, empty memories.  A
    question extends a conversation by at most its own turn, and only when
    it is answered. *)
Theorem only_questions_extend_conversations :
  forall (sv : Services) (r : request) (s : Api.State) (m : nat)
         (h : list Turn),
    memories (Api.world s) !! m = Some h ->
    match r with
    | Chat message =>
        memories (Api.world (handle sv r s)) !! m = Some h
        \/ exists a,
             (Api.chat sv message s).1 = inr a
             /\ memories (Api.world (handle sv r s)) !! m
                = Some (h ++ [{| question := message; answer := a |}])
    | _ =>
        memories (Api.world (handle sv r s)) !! m = Some h
        /\ memories_extended (memories (Api.world s))
             (memories (Api.world (handle sv r s)))
    end.
Proof.
  intros sv r s m h H.
  assert (G : forall s', memories_extended (memories (Api.world s))
                           (memories (Api.world s')) ->
    memories (Api.world s') !! m = Some h
    /\ memories_extended (memories (Api.world s)) (memories (Api.world s'))).
  { intros s' E. split; [|done]. by eapply memories_extended_lookup. }
  destruct r; simpl.
  - by apply G, initialize_chatbot_ok.
  - apply G, memories_extended_eq. by apply upload_file_ok.
  - by apply G, init_chatbot_ok.
  - by apply api_chat_ok.
  - by apply G, delete_document_ok.
  - by apply G, health_check_ok.
Qed.

Lemma only_questions_extend_conversations_witness :
  let s' := handle Sample.services (Chat "What colour is the sky?")
              Sample.two_documents in
  memories (Api.world s') !! 3%nat = Some []
  \/ exists a,
       (Api.chat Sample.services "What colour is the sky?"
          Sample.two_documents).1 = inr a
       /\ memories (Api.world s') !! 3%nat
          = Some ([] ++ [{| question := "What colour is the sky?";
                            answer := a |}]).
Proof.
  assert (H : memories (Api.world Sample.two_documents) !! 3%nat = Some [])
    by (vm_compute; reflexivity).
  exact (only_questions_extend_conversations Sample.services
           (Chat "What colour is the sky?") Sample.two_documents 3%nat [] H).
Defined.

(** *** What the index holds *)

Lemma process_document_elem sv self d t :
  In t (Chatbot.process_document sv self d)
  <-> source t = None
      /\ is_blank (page_content d) = false
      /\ exists chunks,
           split_text sv (Chatbot.text_splitter self) (page_content d)
             = inr chunks
           /\ In (page_content t) chunks.
Proof.
  unfold Chatbot.process_document.
  destruct (is_blank (page_content d)); simpl.
  { split; [done|]. by intros (_ & ? & _). }
  destruct (split_text sv _ _) as [e|chunks]; simpl.
  { split; [done|]. by intros (_ & _ & ? & ? & _). }
  rewrite in_map_iff. split.
  - intros (chunk & <- & H). simpl. eauto.
  - intros (Hs & _ & chunks' & [= <-] & H). exists (page_content t).
    split; [|done]. destruct t; simpl in *. by subst.
Qed.

(** X9: The chunks that a successful rebuild hands to [create_vector_store],
    and so to [Chroma.from_documents], for the index it binds are exactly
    the chunks into which the splitter cuts the documents that
    [load_documents] returned and that are not blank; there is at least one;
    a document whose splitting fails contributes nothing, and no chunk
    carries the [source] of its document.  What the collection of that name
    held before the call is Chroma's matter and is not described. *)
Theorem rebuild_indexes_chunks_of_loaded_documents :
  forall (sv : Services) (self cb : Chatbot.DocumentChatbot) (w w' : World),
    Chatbot.setup_chain sv (self, w) = (inr tt, (cb, w')) ->
    exists documents texts w1 vs w2,
      Chatbot.load_documents sv self w = (inr documents, w1)
      /\ Chatbot.create_vector_store sv self texts w1 = (inr vs, w2)
      /\ Chatbot.vectorstore cb = Some vs
      /\ texts <> []
      /\ forall t,
           In t texts
           <-> source t = None
               /\ exists d chunks,
                    In d documents
                    /\ is_blank (page_content d) = false
                    /\ split_text sv (Chatbot.text_splitter self)
                         (page_content d) = inr chunks
                    /\ In (page_content t) chunks.
Proof.
  intros sv self cb w w' H.
  apply setup_chain_inr in H
    as (docs & texts & vs & w1 & w2 & Hl & Hp & Hv & _ & ->).
  exists docs, texts, w1, vs, w2.
  split; [done|]. split; [done|]. split; [done|].
  split; [by apply create_vector_store_inr in Hv as [? _]|].
  apply process_documents_inr in Hp as ->.
  intros t. rewrite in_flat_map. split.
  - intros (d & Hd & Ht). apply process_document_elem in Ht
      as (Hs & Hb & chunks & Hc & Hi).
    split; [done|]. by exists d, chunks.
  - intros (Hs & d & chunks & Hd & Hb & Hc & Hi). exists d. split; [done|].
    apply process_document_elem. eauto.
Qed.

Lemma rebuild_indexes_chunks_of_loaded_documents_witness :
  let r := Chatbot.setup_chain Sample.services
             (Sample.unbound, Api.world Sample.one_document) in
  exists documents texts w1 vs w2,
    Chatbot.load_documents Sample.services Sample.unbound
      (Api.world Sample.one_document) = (inr documents, w1)
    /\ Chatbot.create_vector_store Sample.services Sample.unbound texts w1
       = (inr vs, w2)
    /\ Chatbot.vectorstore r.2.1 = Some vs
    /\ texts <> []
    /\ forall t,
         In t texts
         <-> source t = None
             /\ exists d chunks,
                  In d documents
                  /\ is_blank (page_content d) = false
                  /\ split_text Sample.services
                       (Chatbot.text_splitter Sample.unbound)
                       (page_content d) = inr chunks
                  /\ In (page_content t) chunks.
Proof.
  intros r.
  assert (H : r = (inr tt, (r.2.1, r.2.2))) by (vm_compute; reflexivity).
  exact (rebuild_indexes_chunks_of_loaded_documents Sample.services
           Sample.unbound r.2.1 (Api.world Sample.one_document) r.2.2 H).
Defined.

(** *** The health probe *)

(** X10: [GET /health] never alters a document.  When it answers, the answer
    says [healthy], tells whether the [chatbot] global is bound after the
    request and whether the documents directory lists anything; when it
    fails, it fails with status 500.  It leaves the state as it is when the
    chatbot is bound or the directory is missing or empty; otherwise it runs
    [initialize_chatbot()]. *)
Theorem health_check_reports_state :
  forall (sv : Services) (s : Api.State),
    let r := Endpoints.health_check sv s in
    let listed :=
      match Os.listdir "documents" (fs (Api.world s)) with
      | inr (_ :: _) => true
      | _ => false
      end in
    same_files (fs (Api.world s)) (fs (Api.world r.2))
    /\ (forall h, r.1 = inr h ->
          Endpoints.status h = "healthy"
          /\ Endpoints.chatbot_initialized h
             = match Api.chatbot r.2 with Some _ => true | None => false end
          /\ Endpoints.has_documents h = listed)
    /\ (forall e, r.1 = inl e -> exists detail, e = HTTPException 500 detail)
    /\ (match Api.chatbot s with Some _ => true | None => negb listed end
          = true -> r.2 = s)
    /\ (Api.chatbot s = None -> listed = true ->
        r.2 = (Api.initialize_chatbot sv s).2).
Proof.
  intros sv s. cbv zeta. destruct s as [w c].
  unfold Endpoints.health_check, Api.in_world, Api.get_chatbot.
  unfold_m. simpl.
  unfold Os.path_exists, Os.listdir.
  change (normdir "documents") with "documents".
  destruct (Os.lookup "documents" (fs w)) as [[content|]|] eqn:Hd; simpl;
    rewrite ?Hd; simpl.
  all: try (pose proof (initialize_chatbot_same_files sv
                          {| Api.world := w; Api.chatbot := None |}) as F).
  all: try destruct (omap _ (fs w)) as [|n names]; simpl.
  all: destruct c as [cb|]; simpl.
  all: try destruct (Api.initialize_chatbot sv _) as [[e|o] s1]; simpl in *.
  all: (split; [first [apply same_files_refl | exact F]|]).
  all: (split; [intros h' E; inversion E; subst; by simpl|]).
  all: (split; [intros e' E; inversion E; subst; by eauto|]).
  all: split; done.
Qed.

(** *** Copying a document into the store *)

Lemma write_lookup_ne q p c f f' :
  Os.write p c f = inr f' -> q <> p -> Os.lookup q f' = Os.lookup q f.
Proof.
  unfold Os.write. intros H Hne.
  destruct (String.eqb (basename p) ""); [done|].
  assert (A : Os.lookup p f = None ->
              Os.lookup q (f ++ [(p, RegularFile c)]) = Os.lookup q f).
  { intros _. destruct (Os.lookup q f) as [n|] eqn:Eq.
    - by apply lookup_app_Some.
    - rewrite (lookup_app_None _ _ _ Eq). simpl.
      destruct (String.eqb p q) eqn:E; [|done].
      apply String.eqb_eq in E. congruence. }
  destruct (Os.lookup p f) as [[c0|]|] eqn:E; try done.
  - inversion H; subst. by apply lookup_replace_ne.
  - destruct (String.eqb (Os.dirname p) "").
    + inversion H; subst. by apply A.
    + destruct (Os.lookup (Os.dirname p) f) as [[|]|]; try done.
      inversion H; subst. by apply A.
Qed.

(** X11: When [DocumentManager.upload_document] returns [True], the source was
    a regular file and [shutil.copy2] has written its content to the target
    of the copy: the destination [documents_dir/basename], or the entry of
    the source's name inside it when that destination is an existing
    directory.  The target is another path than the source and now reads as
    the source does; the source and every other path are as they were. *)
Theorem upload_document_copies_content :
  forall (self : DocumentManager.DocumentManager) (file_path : string)
         (w w' : World),
    DocumentManager.upload_document self file_path w = (inr true, w') ->
    let destination :=
      path_join (DocumentManager.documents_dir self) (basename file_path) in
    let target :=
      if Os.isdir destination (fs w)
      then path_join destination (basename file_path)
      else destination in
    exists content,
      Os.read file_path (fs w) = inr content
      /\ Os.read target (fs w') = inr content
      /\ Os.read file_path (fs w') = inr content
      /\ file_path <> target
      /\ forall q, q <> target -> Os.lookup q (fs w') = Os.lookup q (fs w).
Proof.
  intros self file_path w w'. cbv zeta.
  unfold DocumentManager.upload_document, Os.copy2, Os.copy_target.
  unfold_m.
  set (destination := path_join _ (basename file_path)).
  set (target := if Os.isdir destination (fs w) then _ else _).
  destruct (Os.read file_path (fs w)) as [e|content] eqn:Hr; [done|].
  destruct (String.eqb file_path target) eqn:E; [done|].
  apply String.eqb_neq in E.
  destruct (Os.write target content (fs w)) as [e|f'] eqn:Hw; [done|].
  intros [= <-]. simpl. exists content.
  assert (K : forall q, q <> target -> Os.lookup q f' = Os.lookup q (fs w)).
  { intros q Hq. by eapply write_lookup_ne. }
  repeat split; try done.
  - by eapply write_read.
  - unfold Os.read in *. by rewrite (K _ E).
Qed.

Lemma upload_document_copies_content_witness :
  let self := {| DocumentManager.documents_dir := "documents/" |} in
  let w' := (DocumentManager.upload_document self "uploads/b.txt"
               Sample.cli_world).2 in
  let w2 := (DocumentManager.upload_document self "inbox/notes"
               Sample.nested_world).2 in
  (exists content,
     Os.read "uploads/b.txt" (fs Sample.cli_world) = inr content
     /\ Os.read "documents/b.txt" (fs w') = inr content
     /\ Os.read "uploads/b.txt" (fs w') = inr content
     /\ "uploads/b.txt" <> "documents/b.txt"
     /\ forall q,
          q <> "documents/b.txt" ->
          Os.lookup q (fs w') = Os.lookup q (fs Sample.cli_world))
  /\ (exists content,
        Os.read "inbox/notes" (fs Sample.nested_world) = inr content
        /\ Os.read "documents/notes/notes" (fs w2) = inr content
        /\ Os.read "inbox/notes" (fs w2) = inr content
        /\ "inbox/notes" <> "documents/notes/notes"
        /\ forall q,
             q <> "documents/notes/notes" ->
             Os.lookup q (fs w2) = Os.lookup q (fs Sample.nested_world)).
Proof.
  intros self w' w2. split.
  - assert (H : DocumentManager.upload_document self "uploads/b.txt"
                  Sample.cli_world = (inr true, w'))
      by (vm_compute; reflexivity).
    exact (upload_document_copies_content self "uploads/b.txt"
             Sample.cli_world w' H).
  - assert (H : DocumentManager.upload_document self "inbox/notes"
                  Sample.nested_world = (inr true, w2))
      by (vm_compute; reflexivity).
    exact (upload_document_copies_content self "inbox/notes"
             Sample.nested_world w2 H).
Defined.

(** *** The command-line chatbot on an empty store *)

Lemma cli_load_loop_unsupported sv self names : forall docs w,
  Forall (fun n => Cli.choose_loader n = None) names ->
  Cli.load_loop sv self names docs w = (inr docs, w).
Proof.
  induction names as [|n names IH]; intros docs w H; [done|].
  inversion H as [|? ? Hn Hr]; subst. simpl. unfold_m.
  unfold Cli.load_file. unfold_m. rewrite Hn. rewrite app_nil_r.
  by apply IH.
Qed.

(** X12: The command-line [DocumentChatbot()] cannot be constructed while
    the documents directory holds no file of a supported type, as when it is
    empty or was just created: [setup_vectorstore] returns without assigning
    [vectorstore], and [setup_chain] fails on the missing attribute.  No
    loader, embedding or model was called, and the memory that
    [setup_chain] had created is left behind. *)
Theorem cli_cannot_start_without_documents :
  forall (sv : Services) (w : World) (key : string)
         (f1 : list (string * node)) (names : list string),
    OPENAI_API_KEY w = Some key ->
    Os.makedirs "documents/" (fs w) = inr f1 ->
    Os.listdir "documents/" f1 = inr names ->
    Forall (fun n => Cli.choose_loader n = None) names ->
    Cli.init sv w
    = (inl (AttributeError
              "'DocumentChatbot' object has no attribute 'vectorstore'"),
       set_memories (memories w ++ [[]]) (set_fs f1 w)).
Proof.
  intros sv w key f1 names Hk Hm Hl Hn.
  unfold Cli.init, Cli.on_new, Chatbot.getenv_key, Cli.setup_vectorstore,
    Cli.setup_chain, Cli.in_world, Cli.get_self, Cli.on_self,
    Langchain.ConversationBufferMemory.
  unfold_m. rewrite Hm. simpl. rewrite Hk. simpl. rewrite Hl.
  rewrite (cli_load_loop_unsupported sv _ names [] _ Hn). reflexivity.
Qed.

Lemma cli_cannot_start_without_documents_witness :
  Cli.init Sample.services Sample.empty_world
  = (inl (AttributeError
            "'DocumentChatbot' object has no attribute 'vectorstore'"),
     set_memories [[]] Sample.empty_world).
Proof.
  apply (cli_cannot_start_without_documents Sample.services
           Sample.empty_world "sk-test" (fs Sample.empty_world) []).
  - reflexivity.
  - reflexivity.
  - reflexivity.
  - constructor.
Defined.

(** *** Accounts *)

Arguments Auth.commit : simpl never.
Arguments Auth.add : simpl never.
Arguments Auth.constr : simpl never.

Lemma find_key_unique {A} (key : A -> string) (l : list A) (x : A) :
  NoDup (map key l) -> In x l ->
  List.find (fun v => String.eqb (key v) (key x)) l = Some x.
Proof.
  induction l as [|a l IH]; simpl; [done|].
  intros Hn Hx. apply NoDup_cons in Hn as [Ha Hn].
  destruct (String.eqb (key a) (key x)) eqn:E.
  - apply String.eqb_eq in E. destruct Hx as [->|Hx]; [done|].
    exfalso. apply Ha. rewrite E. apply list_elem_of_In.
    by apply in_map.
  - destruct Hx as [->|Hx]; [by rewrite String.eqb_refl in E|].
    by apply IH.
Qed.

Lemma find_key_None {A} (key : A -> string) (l : list A) (k : string) :
  List.find (fun v => String.eqb (key v) k) l = None <->
  ~ In k (map key l).
Proof.
  induction l as [|a l IH]; simpl; [tauto|].
  destruct (String.eqb (key a) k) eqn:E.
  - apply String.eqb_eq in E. split; [done|]. intros H. exfalso. auto.
  - apply String.eqb_neq in E. rewrite IH. tauto.
Qed.

Lemma row_of_member s user :
  Auth.unique (Auth.users s) -> In user (Auth.users s) ->
  Auth.row (Auth.username user) s = Some user.
Proof. intros [U _] H. by apply (find_key_unique Auth.username). Qed.

Lemma find_member {A} (p : A -> bool) l x :
  List.find p l = Some x -> In x l /\ p x = true.
Proof. apply find_some. Qed.

Lemma row_name name s user :
  Auth.row name s = Some user -> Auth.username user = name.
Proof.
  intros H. apply find_some in H as [_ H]. by apply String.eqb_eq.
Qed.

Lemma find_rewritten user rows n :
  List.find (fun u => String.eqb (Auth.username u) n) (rewritten user rows)
  = if String.eqb (Auth.username user) n then
      match List.find (fun u => String.eqb (Auth.username u) n) rows with
      | Some _ => Some user
      | None => None
      end
    else List.find (fun u => String.eqb (Auth.username u) n) rows.
Proof.
  induction rows as [|a rows IH]; simpl.
  { by destruct (String.eqb _ n). }
  destruct (String.eqb (Auth.username a) (Auth.username user)) eqn:E.
  - apply String.eqb_eq in E. rewrite E. simpl.
    destruct (String.eqb (Auth.username user) n) eqn:E'; [done|].
    by rewrite IH.
  - destruct (String.eqb (Auth.username a) n) eqn:E'.
    + apply String.eqb_eq in E'. subst n.
      rewrite String.eqb_sym in E. by rewrite E.
    + exact IH.
Qed.

Lemma commit_found name user user' s :
  Auth.row name s = Some user ->
  Auth.username user' = name ->
  Auth.email user' = Auth.email user ->
  Auth.commit user' s
  = (inr tt, {| Auth.users := rewritten user' (Auth.users s);
                Auth.calls := Auth.calls s |}).
Proof.
  unfold Auth.commit, Auth.row. intros H <- E. rewrite H, E.
  by rewrite String.eqb_refl.
Qed.

Lemma commit_state user s :
  Auth.calls (Auth.commit user s).2 = Auth.calls s
  /\ ((Auth.commit user s).2 = s
      \/ (Auth.commit user s).1 = inr tt
         /\ Auth.users (Auth.commit user s).2
            = rewritten user (Auth.users s)).
Proof.
  unfold Auth.commit.
  destruct (List.find _ (Auth.users s)); simpl; [|by auto].
  destruct (_ && _); simpl; by auto.
Qed.

Lemma commit_inl user s e s' :
  Auth.commit user s = (inl e, s') -> s' = s.
Proof.
  unfold Auth.commit.
  destruct (List.find _ (Auth.users s)); simpl; [|done].
  destruct (_ && _); simpl; [|done]. by intros [= _ <-].
Qed.

Lemma row_after_commit name user user' s :
  Auth.row name s = Some user ->
  Auth.username user' = name ->
  Auth.row name {| Auth.users := rewritten user' (Auth.users s);
                   Auth.calls := Auth.calls s |} = Some user'.
Proof.
  unfold Auth.row. simpl. intros H E. rewrite find_rewritten, E.
  by rewrite String.eqb_refl, H.
Qed.

Lemma any_spec p s :
  Auth.any p s = true <-> exists c, In c (list_ascii_of_string s) /\ p c = true.
Proof.
  induction s as [|c s IH]; simpl.
  - split; [done|]. by intros (? & [] & _).
  - rewrite orb_true_iff, IH. split.
    + intros [H|(c' & H1 & H2)]; [exists c; by auto|exists c'; by auto].
    + intros (c' & [<-|H1] & H2); [by left|right; by exists c'].
Qed.

(** X13: [POST /register] first validates its body, a [UserCreate]: a user
    name of fewer than 3 or more than 50 characters, an address that
    [EmailStr] refuses and a password of fewer than 8 characters are each
    answered with status 422.  The registration succeeds exactly when the
    body is accepted, the password has an uppercase letter and a digit,
    neither the user name nor the validated address is taken, and the
    hashing succeeds.  It then appends one row, holding the name, the
    validated address, the hash and no failed sign-in, and answers with it;
    a registration that fails leaves the table as it is, and a failure
    after validation has status 400 unless it is the hashing that failed. *)
Theorem register_user_outcomes :
  forall (sv : Auth.Services) (name mail password : string) (s : Auth.Db),
    let r := Auth.register_user sv name mail password s in
    let accepted :=
      Auth.constr 3 (Some 50%nat) name
      && match Auth.email_str sv mail with Some _ => true | None => false end
      && Auth.constr 8 None password in
    (is_ok r.1 = true
     <-> accepted = true
         /\ Auth.acceptable password = true
         /\ ~ In name (map Auth.username (Auth.users s))
         /\ (forall address,
               Auth.email_str sv mail = Some address ->
               ~ In address (map Auth.email (Auth.users s)))
         /\ is_ok (Auth.pwd_hash sv (Auth.calls s) password) = true)
    /\ match r.1 with
       | inr u =>
           Auth.users r.2 = Auth.users s ++ [u]
           /\ Auth.pwd_hash sv (Auth.calls s) password
              = inr (Auth.hashed_password u)
           /\ Auth.email_str sv mail = Some (Auth.email u)
           /\ u = {| Auth.username := name; Auth.email := Auth.email u;
                     Auth.hashed_password := Auth.hashed_password u;
                     Auth.disabled := false;
                     Auth.failed_login_attempts := 0;
                     Auth.last_failed_login := None;
                     Auth.refresh_token := None; Auth.reset_token := None;
                     Auth.reset_token_expires := None |}
       | inl e =>
           Auth.users r.2 = Auth.users s
           /\ if accepted then
                (exists detail, e = HTTPException 400 detail)
                \/ Auth.pwd_hash sv (Auth.calls s) password = inl e
              else e = HTTPException 422 "Unprocessable Entity"
       end.
Proof.
  intros sv name mail password s. cbv zeta.
  assert (HA : Auth.acceptable password
               = negb (String.length password <? 8)%nat
                 && Auth.any Auth.isupper password
                 && Auth.any Auth.isdigit password).
  { unfold Auth.acceptable. by rewrite Nat.ltb_antisym, negb_involutive. }
  rewrite HA. clear HA.
  unfold Auth.register_user, Auth.UserCreate, Auth.unprocessable.
  destruct (Auth.constr 3 (Some 50%nat) name); cbn [negb andb];
    [|unfold_m; simpl; split; [split; [done|by intros (? & _)]|done]].
  destruct (Auth.email_str sv mail) as [address|]; cbn [negb andb];
    [|unfold_m; simpl; split; [split; [done|by intros (? & _)]|done]].
  destruct (Auth.constr 8 None password); cbn [negb andb];
    [|unfold_m; simpl; split; [split; [done|by intros (? & _)]|done]].
  unfold Auth.get_user, Auth.get_user_by_email,
    Auth.first, Auth.get_password_hash, Auth.call.
  unfold_m. simpl.
  destruct (List.find _ (Auth.users s)) as [u0|] eqn:Hu; simpl.
  { apply find_some in Hu as [Hi He]. apply String.eqb_eq in He.
    split; [|by eauto]. split; [done|]. intros (_ & _ & N & _). exfalso.
    apply N. rewrite <- He. by apply in_map. }
  apply find_key_None in Hu.
  destruct (List.find (fun u => String.eqb (Auth.email u) address)
              (Auth.users s)) as [u0|] eqn:Hm; simpl.
  { apply find_some in Hm as [Hi He]. apply String.eqb_eq in He.
    split; [|by eauto]. split; [done|]. intros (_ & _ & _ & N & _).
    exfalso. apply (N address eq_refl). rewrite <- He. by apply in_map. }
  apply (find_key_None Auth.email) in Hm.
  destruct (String.length password <? 8)%nat; simpl;
    [split; [|by eauto]; split; [done|]; by intros (_ & ? & _)|].
  destruct (Auth.any Auth.isupper password); simpl;
    [|split; [|by eauto]; split; [done|]; by intros (_ & ? & _)].
  destruct (Auth.any Auth.isdigit password); simpl;
    [|split; [|by eauto]; split; [done|]; by intros (_ & ? & _)].
  destruct (Auth.pwd_hash sv (Auth.calls s) password) as [e|h]; simpl.
  { split; [|by auto]. split; [done|]. by intros (_ & _ & _ & _ & ?). }
  unfold Auth.add. simpl.
  assert (E : existsb (fun u => String.eqb (Auth.username u) name
                                || String.eqb (Auth.email u) address)
                (Auth.users s) = false).
  { apply not_true_is_false. intros H.
    apply existsb_exists in H as (u & Hi & H).
    apply orb_true_iff in H as [H|H]; apply String.eqb_eq in H.
    - apply Hu. rewrite <- H. by apply in_map.
    - apply Hm. rewrite <- H. by apply in_map. }
  rewrite E. simpl. split; [|done].
  split; [|done]. intros _. repeat split; try done.
  by intros a [= <-].
Qed.

(** *** Sign-in attempts *)

Lemma authenticate_wrong sv name password s user :
  Auth.row name s = Some user ->
  Auth.failed_login_attempts user < 5 ->
  Auth.pwd_verify sv password (Auth.hashed_password user) = inr false ->
  Auth.authenticate_user sv name password s
  = (inl (HTTPException 401 "Incorrect password"),
     {| Auth.users :=
          rewritten
            (Auth.with_failed_login (Auth.failed_login_attempts user + 1)
               (Some (Auth.now sv (Auth.calls s))) user) (Auth.users s);
        Auth.calls := S (Auth.calls s) |}).
Proof.
  intros Hr Hf Hv. pose proof (row_name _ _ _ Hr) as Hn.
  unfold Auth.authenticate_user, Auth.get_user, Auth.first,
    Auth.verify_password, Auth.call, Auth.MAX_LOGIN_ATTEMPTS.
  unfold_m. unfold Auth.row in Hr. rewrite Hr.
  destruct (5 <=? Auth.failed_login_attempts user) eqn:E;
    [apply Z.leb_le in E; lia|].
  rewrite Hv. cbn [negb].
  match goal with |- context [Auth.commit ?u ?t] =>
    rewrite (commit_found name user u t) by done
  end.
  reflexivity.
Qed.

Lemma authenticate_locked sv name password s user t :
  Auth.row name s = Some user ->
  5 <= Auth.failed_login_attempts user ->
  Auth.last_failed_login user = Some t ->
  t <> 0 ->
  Auth.now sv (Auth.calls s) < t + Auth.minutes 15 ->
  Auth.authenticate_user sv name password s
  = (inl (HTTPException 403
            ("Account locked. Try again after " +:+
             Auth.datetime_str sv (t + Auth.minutes 15))),
     {| Auth.users := Auth.users s; Auth.calls := S (Auth.calls s) |}).
Proof.
  intros Hr Hf Hl Ht Hnow.
  unfold Auth.authenticate_user, Auth.get_user, Auth.first,
    Auth.verify_password, Auth.call, Auth.MAX_LOGIN_ATTEMPTS,
    Auth.LOGIN_COOLDOWN_MINUTES.
  unfold_m. unfold Auth.row in Hr. rewrite Hr.
  destruct (5 <=? Auth.failed_login_attempts user) eqn:E;
    [|apply Z.leb_gt in E; lia].
  rewrite Hl.
  destruct (t =? 0) eqn:E0; [apply Z.eqb_eq in E0; done|].
  cbn [Auth.calls Auth.users].
  destruct (Auth.now sv (Auth.calls s) <? t + Auth.minutes 15) eqn:En;
    [done|apply Z.ltb_ge in En; lia].
Qed.

Lemma attempts_wrong sv name passwords : forall s user,
  Auth.row name s = Some user ->
  Auth.failed_login_attempts user + Z.of_nat (length passwords) <= 5 ->
  Forall (fun p => Auth.pwd_verify sv p (Auth.hashed_password user)
                   = inr false) passwords ->
  let s' := Auth.attempts sv name passwords s in
  Auth.calls s' = (Auth.calls s + length passwords)%nat
  /\ exists user',
       Auth.row name s' = Some user'
       /\ Auth.failed_login_attempts user'
          = Auth.failed_login_attempts user + Z.of_nat (length passwords)
       /\ Auth.hashed_password user' = Auth.hashed_password user
       /\ (passwords <> [] ->
           Auth.last_failed_login user'
           = Some (Auth.now sv (Auth.calls s' - 1))).
Proof.
  induction passwords as [|p ps IH]; intros s user Hr Hf Hw; cbv zeta.
  { simpl. split; [lia|]. exists user. repeat split; try done.
    simpl. lia. }
  inversion Hw as [|? ? Hp Hps]; subst.
  cbn [Auth.attempts length] in *.
  rewrite (authenticate_wrong sv name p s user Hr) by (done || lia).
  cbn [snd].
  set (user1 := Auth.with_failed_login _ _ user).
  set (s1 := {| Auth.users := rewritten user1 (Auth.users s);
                Auth.calls := S (Auth.calls s) |}).
  assert (Hr1 : Auth.row name s1 = Some user1).
  { pose proof (row_after_commit name user user1 s Hr) as K.
    apply K. exact (row_name _ _ _ Hr). }
  destruct (IH s1 user1 Hr1) as (Hc & user' & Hr' & Hf' & Hh' & Hl').
  { subst user1. simpl. lia. }
  { exact Hps. }
  split; [rewrite Hc; simpl; lia|].
  exists user'. split; [done|]. split; [rewrite Hf'; subst user1; simpl; lia|].
  split; [by rewrite Hh'|].
  intros _. destruct ps as [|p' ps'].
  - simpl in *. inversion Hr' as [Hx]. rewrite Hr1 in Hx.
    inversion Hx; subst user'. subst user1. simpl.
    by rewrite Nat.sub_0_r.
  - by apply Hl'.
Qed.

(** X14: Five failed sign-ins in a row lock an account: from then on, and
    until fifteen minutes after the last failure, every further attempt is
    refused with status 403 without the password being looked at, so the
    right password is refused as well, and the refusal changes no row. *)
Theorem five_failures_lock_account :
  forall (sv : Auth.Services) (name password : string)
         (passwords : list string) (s : Auth.Db) (user : Auth.DBUser),
    Auth.row name s = Some user ->
    Auth.failed_login_attempts user = 0 ->
    length passwords = 5%nat ->
    Forall (fun p => Auth.pwd_verify sv p (Auth.hashed_password user)
                     = inr false) passwords ->
    let s5 := Auth.attempts sv name passwords s in
    let last := Auth.now sv (Auth.calls s5 - 1) in
    last <> 0 ->
    Auth.now sv (Auth.calls s5) < last + Auth.minutes 15 ->
    Auth.authenticate_user sv name password s5
    = (inl (HTTPException 403
              ("Account locked. Try again after " +:+
               Auth.datetime_str sv (last + Auth.minutes 15))),
       {| Auth.users := Auth.users s5; Auth.calls := S (Auth.calls s5) |}).
Proof.
  intros sv name password passwords s user Hr Hf Hlen Hw s5 last H0 Hnow.
  destruct (attempts_wrong sv name passwords s user Hr) as
    (_ & user' & Hr' & Hf' & _ & Hl'); [rewrite Hf, Hlen; lia|done|].
  apply (authenticate_locked sv name password s5 user' last); try done.
  - fold s5 in Hf'. rewrite Hf', Hf, Hlen. lia.
  - apply Hl'. by destruct passwords.
Qed.

Lemma five_failures_lock_account_witness :
  let s5 := Auth.attempts AuthSample.services "alice"
              ["a"; "b"; "c"; "d"; "e"] AuthSample.registered in
  Auth.authenticate_user AuthSample.services "alice" "Secret123" s5
  = (inl (HTTPException 403
            ("Account locked. Try again after " +:+
             Auth.datetime_str AuthSample.services
               (Auth.now AuthSample.services (Auth.calls s5 - 1)
                + Auth.minutes 15))),
     {| Auth.users := Auth.users s5; Auth.calls := S (Auth.calls s5) |}).
Proof.
  intros s5.
  apply (five_failures_lock_account AuthSample.services "alice" "Secret123"
           ["a"; "b"; "c"; "d"; "e"] AuthSample.registered AuthSample.alice).
  - vm_compute; reflexivity.
  - reflexivity.
  - reflexivity.
  - repeat constructor.
  - vm_compute. discriminate.
  - vm_compute. reflexivity.
Defined.

Lemma commit_inr_found name user0 user s s' :
  Auth.row name s = Some user0 ->
  Auth.username user = name ->
  Auth.commit user s = (inr tt, s') ->
  s' = {| Auth.users := rewritten user (Auth.users s);
          Auth.calls := Auth.calls s |}
  /\ Auth.row name s' = Some user.
Proof.
  intros Hr <-. unfold Auth.commit. pose proof Hr as Hr'.
  unfold Auth.row in Hr'. rewrite Hr'.
  destruct (negb _ && _); [by intros [=]|].
  intros [= <-]. split; [done|]. by eapply row_after_commit.
Qed.

Lemma authenticate_inr sv name password s u s' :
  Auth.authenticate_user sv name password s = (inr (Some u), s') ->
  exists user,
    Auth.row name s = Some user
    /\ Auth.pwd_verify sv password (Auth.hashed_password user) = inr true
    /\ u = Auth.with_failed_login 0 None user
    /\ Auth.row name s' = Some u.
Proof.
  unfold Auth.authenticate_user, Auth.get_user, Auth.first,
    Auth.verify_password, Auth.call, Auth.MAX_LOGIN_ATTEMPTS.
  unfold_m.
  destruct (List.find _ (Auth.users s)) as [user|] eqn:Hr; [|done].
  change (Auth.row name s = Some user) in Hr.
  pose proof (row_name _ _ _ Hr) as Hn.
  intros H. exists user. split; [done|].
  assert (T : forall user1 s1,
    Auth.row name s1 = Some user1 ->
    Auth.hashed_password user1 = Auth.hashed_password user ->
    Auth.with_failed_login 0 None user1 = Auth.with_failed_login 0 None user ->
    forall r,
      r = Auth.commit (Auth.with_failed_login 0 None user1) s1 ->
      Auth.pwd_verify sv password (Auth.hashed_password user) = inr true ->
      match r with
      | (inl e, s'0) => (inl e, s'0)
      | (inr _, s'0) =>
          (inr (Some (Auth.with_failed_login 0 None user1)), s'0)
      end = (inr (Some u), s') ->
      Auth.pwd_verify sv password (Auth.hashed_password user) = inr true
      /\ u = Auth.with_failed_login 0 None user
      /\ Auth.row name s' = Some u).
  { intros user1 s1 Hr1 Hh Hw [[e|[]] s2] Hc Hv; [done|].
    intros [= <- <-]. split; [done|]. split; [done|].
    symmetry in Hc.
    eapply commit_inr_found in Hc as [_ Hc]; [exact Hc|exact Hr1|].
    simpl. exact (row_name _ _ _ Hr1). }
  destruct (5 <=? Auth.failed_login_attempts user).
  - destruct (Auth.last_failed_login user) as [t|] eqn:Hl.
    + destruct (t =? 0).
      * simpl in H.
        destruct (Auth.pwd_verify sv password (Auth.hashed_password user))
          as [e|[|]] eqn:Hv; simpl in H; [done| |].
        -- by eapply (T user s).
        -- destruct (Auth.commit _ _) as [[e|[]] s2]; done.
      * cbn [Auth.calls Auth.users] in H.
        destruct (Auth.now sv (Auth.calls s) <? _); [done|].
        destruct (Auth.commit _ _) as [[e|[]] s1] eqn:Hc; [done|].
        eapply commit_inr_found in Hc as [_ Hc]; [|exact Hr|exact Hn].
        simpl in H.
        destruct (Auth.pwd_verify sv password (Auth.hashed_password user))
          as [e|[|]] eqn:Hv; simpl in H; [done| |].
        -- by eapply (T _ s1).
        -- destruct (Auth.commit _ _) as [[e|[]] s2]; done.
    + simpl in H.
      destruct (Auth.pwd_verify sv password (Auth.hashed_password user))
        as [e|[|]] eqn:Hv; simpl in H; [done| |].
      * by eapply (T user s).
      * destruct (Auth.commit _ _) as [[e|[]] s2]; done.
  - simpl in H.
    destruct (Auth.pwd_verify sv password (Auth.hashed_password user))
      as [e|[|]] eqn:Hv; simpl in H; [done| |].
    + by eapply (T user s).
    + destruct (Auth.commit _ _) as [[e|[]] s2]; done.
Qed.

(** X15: [POST /token] issues tokens only to a password that verifies against
    the stored hash.  It then clears the record of failed sign-ins, stores
    the refresh token it returns in the row of the user, and both tokens
    name that user, the access token expiring after thirty minutes and the
    refresh token after seven days. *)
Theorem tokens_only_for_verified_password :
  forall (sv : Auth.Services) (name password : string) (s s' : Auth.Db)
         (tok : Auth.Token),
    Auth.login_for_access_token sv name password s = (inr tok, s') ->
    exists user i,
      Auth.row name s = Some user
      /\ Auth.pwd_verify sv password (Auth.hashed_password user) = inr true
      /\ Auth.row name s'
         = Some (Auth.with_refresh_token
                   (Some (Auth.token_refresh_token tok))
                   (Auth.with_failed_login 0 None user))
      /\ Auth.token_type tok = "bearer"
      /\ Auth.access_token tok
         = Auth.jwt_encode sv
             {| Auth.sub := name; Auth.refresh := false;
                Auth.exp := Auth.utcnow sv i + Auth.minutes 30 |}
      /\ Auth.token_refresh_token tok
         = Auth.jwt_encode sv
             {| Auth.sub := name; Auth.refresh := true;
                Auth.exp := Auth.utcnow sv (S i) + Auth.days 7 |}.
Proof.
  intros sv name password s s' tok.
  unfold Auth.login_for_access_token. unfold_m.
  destruct (Auth.authenticate_user sv name password s) as [[e|[u|]] s1]
    eqn:Ha; [done| |done].
  apply authenticate_inr in Ha as (user & Hr & Hv & -> & Hr1).
  unfold Auth.create_token, Auth.call. unfold_m.
  change (Auth.minutes Auth.ACCESS_TOKEN_EXPIRE_MINUTES =? 0) with false.
  change (Auth.days Auth.REFRESH_TOKEN_EXPIRE_DAYS =? 0) with false.
  cbn [Auth.calls Auth.users Auth.username Auth.with_failed_login].
  destruct (Auth.commit _ _) as [[e|[]] s2] eqn:Hc; [done|].
  intros [= <- <-].
  eapply (commit_inr_found name (Auth.with_failed_login 0 None user))
    in Hc as [_ Hc]; [|exact Hr1|exact (row_name _ _ _ Hr)].
  exists user, (Auth.calls s1).
  rewrite (row_name _ _ _ Hr) in Hc. rewrite (row_name _ _ _ Hr).
  repeat split; try done.
Qed.

Lemma tokens_only_for_verified_password_witness :
  exists user,
    Auth.row "alice" AuthSample.registered = Some user
    /\ Auth.pwd_verify AuthSample.services "Secret123"
         (Auth.hashed_password user) = inr true.
Proof.
  set (r := Auth.login_for_access_token AuthSample.services "alice"
              "Secret123" AuthSample.registered).
  assert (H : r = (inr (value_of {| Auth.access_token := "";
                                    Auth.token_refresh_token := "";
                                    Auth.token_type := "" |} r.1), r.2))
    by (vm_compute; reflexivity).
  destruct (tokens_only_for_verified_password AuthSample.services "alice"
              "Secret123" AuthSample.registered r.2 _ H)
    as (user & i & Hr & Hv & _).
  by exists user.
Defined.

(** *** Password reset *)

Lemma find_rewritten_holder (p : Auth.DBUser -> bool) u rows :
  p u = true ->
  (forall v, In v rows -> p v = false) ->
  In (Auth.username u) (map Auth.username rows) ->
  List.find p (rewritten u rows) = Some u.
Proof.
  intros Hu Hn. induction rows as [|a rows IH]; simpl; [done|].
  intros Hi.
  destruct (String.eqb (Auth.username a) (Auth.username u)) eqn:E.
  - by rewrite Hu.
  - rewrite (Hn a) by (by left). apply IH.
    + intros v Hv. apply Hn. by right.
    + destruct Hi as [Hi|Hi]; [|done].
      rewrite Hi, String.eqb_refl in E. done.
Qed.

Lemma find_rewritten_none (p : Auth.DBUser -> bool) u rows :
  p u = false ->
  (forall v, In v rows -> p v = false) ->
  List.find p (rewritten u rows) = None.
Proof.
  intros Hu Hn. induction rows as [|a rows IH]; simpl; [done|].
  destruct (String.eqb (Auth.username a) (Auth.username u)).
  - rewrite Hu. apply IH. intros v Hv. apply Hn. by right.
  - rewrite (Hn a) by (by left). apply IH. intros v Hv. apply Hn. by right.
Qed.

Lemma rewritten_twice u1 u2 rows :
  Auth.username u1 = Auth.username u2 ->
  rewritten u2 (rewritten u1 rows) = rewritten u2 rows.
Proof.
  intros E. unfold rewritten. rewrite map_map. apply map_ext. intros a.
  rewrite E.
  destruct (String.eqb (Auth.username a) (Auth.username u2)) eqn:Ea.
  - by rewrite <- E, String.eqb_refl.
  - by rewrite Ea.
Qed.

Lemma row_In name s user :
  Auth.row name s = Some user ->
  In (Auth.username user) (map Auth.username (Auth.users s)).
Proof. intros H. apply find_some in H as [H _]. by apply in_map. Qed.

Lemma constr_min_8 p :
  Auth.constr 8 None p = negb (String.length p <? 8)%nat.
Proof.
  unfold Auth.constr. by rewrite andb_true_r, Nat.ltb_antisym, negb_involutive.
Qed.

(** X16: A reset token works for fifteen minutes and once, for a new
    password that the request model accepts.  After [POST /reset-password]
    for a valid address, that of a user, the token that was generated resets
    the password to one of at least 8 characters while the clock has not
    passed the expiry, fifteen minutes after the request; later it is
    refused and the password stays.  A new password of fewer than 8
    characters is answered with status 422 and changes nothing.  Once the
    token has been used it is refused whatever the new password, with
    status 422 for a short one and 400 otherwise, and nothing changes any
    more. *)
Theorem reset_token_is_single_use :
  forall (sv : Auth.Services) (mail address new_password : string)
         (s : Auth.Db) (user : Auth.DBUser) (h : string),
    Auth.unique (Auth.users s) ->
    Auth.email_str sv mail = Some address ->
    (Auth.get_user_by_email address s).1 = inr (Some user) ->
    let token := Auth.token_urlsafe sv (Auth.calls s) in
    let expires := Auth.now sv (S (Auth.calls s)) + Auth.minutes 15 in
    (forall v, In v (Auth.users s) -> Auth.reset_token v <> Some token) ->
    expires <> 0 ->
    (8 <= String.length new_password)%nat ->
    Auth.pwd_hash sv (S (S (S (Auth.calls s)))) new_password = inr h ->
    let s1 := (Auth.request_password_reset sv mail s).2 in
    let r2 := Auth.confirm_password_reset sv token new_password s1 in
    Auth.row (Auth.username user) s1
      = Some (Auth.with_reset_token (Some token) (Some expires) user)
    /\ (forall p,
          (String.length p < 8)%nat ->
          Auth.confirm_password_reset sv token p s1
          = (inl (HTTPException 422 "Unprocessable Entity"), s1))
    /\ if expires <? Auth.now sv (S (S (Auth.calls s))) then
         r2.1 = inl (HTTPException 400 "Reset token has expired")
         /\ Auth.users r2.2 = Auth.users s1
       else
         r2.1 = inr "Password has been reset successfully"
         /\ Auth.row (Auth.username user) r2.2
            = Some (Auth.with_reset_token None None
                      (Auth.with_hashed_password h user))
         /\ forall p,
              Auth.confirm_password_reset sv token p r2.2
              = (inl (if (String.length p <? 8)%nat
                      then HTTPException 422 "Unprocessable Entity"
                      else HTTPException 400
                             "Invalid or expired reset token"),
                 r2.2).
Proof.
  intros sv mail address new_password s user h U Hv Hf token expires Hfresh
    He Hlen Hh.
  cbv zeta.
  unfold Auth.get_user_by_email, Auth.first in Hf. simpl in Hf.
  injection Hf as Hf.
  pose proof (find_some _ _ Hf) as [Hin _].
  pose proof (row_of_member s user U Hin) as Hr.
  set (user1 := Auth.with_reset_token (Some token) (Some expires) user).
  assert (S1 : Auth.request_password_reset sv mail s
               = (inr Auth.reset_message,
                  {| Auth.users := rewritten user1 (Auth.users s);
                     Auth.calls := S (S (Auth.calls s)) |})).
  { unfold Auth.request_password_reset. rewrite Hv.
    unfold Auth.get_user_by_email, Auth.first,
      Auth.call, Auth.PASSWORD_RESET_TOKEN_EXPIRE_MINUTES.
    unfold_m. rewrite Hf. cbn [Auth.calls Auth.users].
    fold token. fold expires. fold user1.
    rewrite (commit_found (Auth.username user) user user1) by done.
    reflexivity. }
  rewrite S1. cbn [snd].
  set (s1 := {| Auth.users := rewritten user1 (Auth.users s);
                Auth.calls := S (S (Auth.calls s)) |}).
  assert (Hr1 : Auth.row (Auth.username user) s1 = Some user1).
  { pose proof (row_after_commit (Auth.username user) user user1 s Hr eq_refl)
      as K. exact K. }
  split; [exact Hr1|].
  split.
  { intros p Hp. unfold Auth.confirm_password_reset, Auth.unprocessable.
    rewrite constr_min_8. apply Nat.ltb_lt in Hp. rewrite Hp. reflexivity. }
  assert (Hc : Auth.constr 8 None new_password = true).
  { rewrite constr_min_8. apply negb_true_iff, Nat.ltb_ge. exact Hlen. }
  set (holds := fun u : Auth.DBUser =>
                  match Auth.reset_token u with
                  | Some t => String.eqb t token
                  | None => false
                  end).
  assert (Hnone : forall v, In v (Auth.users s) -> holds v = false).
  { intros v Hv'. unfold holds. specialize (Hfresh v Hv').
    destruct (Auth.reset_token v) as [t|]; [|done].
    apply String.eqb_neq. congruence. }
  assert (E0 : (expires =? 0) = false) by (by apply Z.eqb_neq).
  assert (Hfind : List.find holds (Auth.users s1) = Some user1).
  { apply find_rewritten_holder; [|done|exact (row_In _ _ _ Hr)].
    unfold holds. simpl. apply String.eqb_refl. }
  set (user2 := Auth.with_reset_token None None
                  (Auth.with_hashed_password h user1)).
  assert (S2 : Auth.confirm_password_reset sv token new_password s1
               = if expires <? Auth.now sv (S (S (Auth.calls s))) then
                   (inl (HTTPException 400 "Reset token has expired"),
                    {| Auth.users := Auth.users s1;
                       Auth.calls := S (Auth.calls s1) |})
                 else
                   (inr "Password has been reset successfully",
                    {| Auth.users := rewritten user2 (Auth.users s);
                       Auth.calls := S (S (Auth.calls s1)) |})).
  { unfold Auth.confirm_password_reset. rewrite Hc. cbn [negb].
    unfold Auth.first, Auth.get_password_hash, Auth.call.
    unfold_m. fold holds. rewrite Hfind.
    cbn [Auth.reset_token_expires user1 Auth.with_reset_token].
    rewrite E0.
    cbn [Auth.calls Auth.users s1 fst snd].
    destruct (expires <? Auth.now sv (S (S (Auth.calls s)))); [done|].
    cbn [Auth.calls Auth.users s1 fst snd]. rewrite Hh.
    match goal with |- context [Auth.commit ?u ?t] =>
      rewrite (commit_found (Auth.username user) user1 u t) by done
    end.
    cbn [fst snd Auth.users Auth.calls].
    fold user2. by rewrite rewritten_twice. }
  rewrite S2.
  destruct (expires <? Auth.now sv (S (S (Auth.calls s)))); [done|].
  cbn [fst snd]. split; [done|]. split.
  - apply (row_after_commit (Auth.username user) user user2
             {| Auth.users := Auth.users s; Auth.calls := _ |}); done.
  - intros p. unfold Auth.confirm_password_reset, Auth.unprocessable.
    rewrite constr_min_8, negb_involutive.
    destruct (String.length p <? 8)%nat; [reflexivity|].
    unfold Auth.first. unfold_m.
    cbn [Auth.users]. fold holds.
    by rewrite find_rewritten_none.
Qed.

Lemma sample_accounts_unique : Auth.unique (Auth.users AuthSample.registered).
Proof.
  split; apply (bool_decide_unpack _); vm_compute; exact I.
Qed.

Lemma reset_token_is_single_use_witness :
  let s1 := (Auth.request_password_reset AuthSample.services
               "alice@example.org" AuthSample.registered).2 in
  let token := Auth.token_urlsafe AuthSample.services
                 (Auth.calls AuthSample.registered) in
  let r2 := Auth.confirm_password_reset AuthSample.services token
              "Fresh1Pass" s1 in
  Auth.confirm_password_reset AuthSample.services token "short" s1
  = (inl (HTTPException 422 "Unprocessable Entity"), s1)
  /\ r2.1 = inr "Password has been reset successfully"
  /\ Auth.confirm_password_reset AuthSample.services token "Again2Pass" r2.2
     = (inl (HTTPException 400 "Invalid or expired reset token"), r2.2)
  /\ Auth.confirm_password_reset AuthSample.services token "again" r2.2
     = (inl (HTTPException 422 "Unprocessable Entity"), r2.2).
Proof.
  intros s1 token r2.
  assert (Hv : Auth.email_str AuthSample.services "alice@example.org"
               = Some "alice@example.org") by (vm_compute; reflexivity).
  assert (Hf : (Auth.get_user_by_email "alice@example.org"
                  AuthSample.registered).1 = inr (Some AuthSample.alice))
    by (vm_compute; reflexivity).
  assert (Hfresh : forall v, In v (Auth.users AuthSample.registered) ->
                     Auth.reset_token v <> Some token).
  { intros v [<-|[<-|[]]]; discriminate. }
  assert (He : Auth.now AuthSample.services
                 (S (Auth.calls AuthSample.registered)) + Auth.minutes 15
               <> 0) by (vm_compute; discriminate).
  assert (Hlen : (8 <= String.length "Fresh1Pass")%nat)
    by (apply Nat.leb_le; reflexivity).
  assert (Hh : Auth.pwd_hash AuthSample.services
                 (S (S (S (Auth.calls AuthSample.registered)))) "Fresh1Pass"
               = inr "bcrypt:Fresh1Pass") by reflexivity.
  pose proof (reset_token_is_single_use AuthSample.services
                "alice@example.org" "alice@example.org" "Fresh1Pass"
                AuthSample.registered
                AuthSample.alice "bcrypt:Fresh1Pass" sample_accounts_unique
                Hv Hf Hfresh He Hlen Hh) as (_ & K0 & K).
  assert (E : (Auth.now AuthSample.services
                 (S (Auth.calls AuthSample.registered)) + Auth.minutes 15
               <? Auth.now AuthSample.services
                    (S (S (Auth.calls AuthSample.registered)))) = false)
    by (vm_compute; reflexivity).
  rewrite E in K. destruct K as (K1 & _ & K2).
  split; [apply K0; apply Nat.ltb_lt; reflexivity|].
  split; [exact K1|]. split.
  - exact (K2 "Again2Pass").
  - exact (K2 "again").
Defined.

(** *** Changing an account *)

Lemma commit_outcome cur u t :
  Auth.row (Auth.username cur) t = Some cur ->
  Auth.username u = Auth.username cur ->
  match Auth.commit u t with
  | (inl e, t') => t' = t
  | (inr _, t') =>
      t' = {| Auth.users := rewritten u (Auth.users t);
              Auth.calls := Auth.calls t |}
      /\ Auth.row (Auth.username cur) t' = Some u
      /\ (Auth.email cur = Auth.email u
          \/ forall v, In v (Auth.users t) -> Auth.email v <> Auth.email u)
  end.
Proof.
  intros Hr Hn.
  assert (Hr2 : List.find (fun v => String.eqb (Auth.username v)
                                      (Auth.username u)) (Auth.users t)
                = Some cur) by (rewrite Hn; exact Hr).
  pose proof (row_after_commit (Auth.username cur) cur u t Hr Hn) as Ha.
  unfold Auth.commit. rewrite Hr2.
  destruct (String.eqb (Auth.email cur) (Auth.email u)) eqn:E; simpl.
  - apply String.eqb_eq in E. split; [done|]. split; [exact Ha|by left].
  - destruct (existsb _ (Auth.users t)) eqn:X; [done|].
    split; [done|]. split; [exact Ha|].
    right. intros v Hv Hm.
    assert (existsb (fun u0 => String.eqb (Auth.email u0) (Auth.email u))
              (Auth.users t) = true); [|congruence].
    apply existsb_exists. exists v. split; [done|].
    by apply String.eqb_eq.
Qed.

Lemma unique_email_member rows v w :
  Auth.unique rows -> In v rows -> In w rows ->
  Auth.email v = Auth.email w -> v = w.
Proof.
  intros [_ U] Hv Hw E.
  pose proof (find_key_unique Auth.email rows v U Hv) as F1.
  pose proof (find_key_unique Auth.email rows w U Hw) as F2.
  rewrite E in F1. congruence.
Qed.

(** X17: [PUT /users/me] changes the address and the password of the current
    user and nothing else.  The address is changed only to one that no other
    user holds; the password only when the current password verifies, and
    then to the hash of whatever non-empty string was sent: the rules of
    registration are not applied.  The change is committed as a whole: when
    the request fails, for instance on a wrong current password sent along
    with a valid new address, no row has changed. *)
Theorem update_user_outcomes :
  forall (sv : Auth.Services) (user_update : Auth.UserUpdate)
         (current_user : Auth.DBUser) (s : Auth.Db),
    Auth.unique (Auth.users s) ->
    Auth.row (Auth.username current_user) s = Some current_user ->
    let r := Auth.update_user sv user_update current_user s in
    let wants_password :=
      Auth.truthy (Auth.current_password user_update)
      && Auth.truthy (Auth.new_password user_update) in
    let current_password := default "" (Auth.current_password user_update) in
    let new_password := default "" (Auth.new_password user_update) in
    match r.1 with
    | inl e => Auth.users r.2 = Auth.users s
    | inr u =>
        Auth.users r.2 = rewritten u (Auth.users s)
        /\ u = Auth.with_hashed_password (Auth.hashed_password u)
                 (Auth.with_email (Auth.email u) current_user)
        /\ Auth.email u
           = (if Auth.truthy (Auth.update_email user_update)
              then default "" (Auth.update_email user_update)
              else Auth.email current_user)
        /\ (forall v, In v (Auth.users s) ->
              Auth.email v = Auth.email u -> v = current_user)
        /\ if wants_password then
             Auth.pwd_verify sv current_password
               (Auth.hashed_password current_user) = inr true
             /\ Auth.pwd_hash sv (Auth.calls s) new_password
                = inr (Auth.hashed_password u)
           else Auth.hashed_password u = Auth.hashed_password current_user
    end
    /\ (forall h,
          Auth.update_email user_update = None ->
          wants_password = true ->
          Auth.pwd_verify sv current_password
            (Auth.hashed_password current_user) = inr true ->
          Auth.pwd_hash sv (Auth.calls s) new_password = inr h ->
          r.1 = inr (Auth.with_hashed_password h current_user)).
Proof.
  intros sv upd cur s U Hr. cbv zeta.
  pose proof (find_some _ _ Hr) as [Hin _].
  assert (Fin : forall (u : Auth.DBUser) (t : Auth.Db),
    Auth.users t = Auth.users s ->
    Auth.username u = Auth.username cur ->
    u = Auth.with_hashed_password (Auth.hashed_password u)
          (Auth.with_email (Auth.email u) cur) ->
    (Auth.email u = Auth.email cur
     \/ forall v, In v (Auth.users s) ->
          Auth.email v = Auth.email u -> v = cur) ->
    match (Auth.commit u t).1 with
    | inl e => Auth.users (Auth.commit u t).2 = Auth.users s
    | inr _ =>
        Auth.users (Auth.commit u t).2 = rewritten u (Auth.users s)
        /\ u = Auth.with_hashed_password (Auth.hashed_password u)
                 (Auth.with_email (Auth.email u) cur)
        /\ (forall v, In v (Auth.users s) ->
              Auth.email v = Auth.email u -> v = cur)
    end).
  { intros u t Ht Hn Hu He.
    assert (Hrt : Auth.row (Auth.username cur) t = Some cur)
      by (unfold Auth.row in *; by rewrite Ht).
    pose proof (commit_outcome cur u t Hrt Hn) as K.
    destruct (Auth.commit u t) as [[e|[]] t']; simpl.
    - by subst t'.
    - destruct K as (-> & _ & K). simpl. rewrite Ht. split; [done|].
      split; [done|]. intros v Hv Hm. destruct He as [He|He]; [|by apply He].
      apply (unique_email_member (Auth.users s)); try done. congruence. }
  split.
  - unfold Auth.update_user, Auth.get_user_by_email, Auth.first,
      Auth.verify_password, Auth.get_password_hash, Auth.call.
    unfold_m.
    destruct (Auth.truthy (Auth.update_email upd)) eqn:Te.
    + set (mail := default "" (Auth.update_email upd)).
      destruct (List.find _ (Auth.users s)) as [ex|] eqn:Hex.
      * destruct (String.eqb (Auth.username ex) (Auth.username cur))
          eqn:En; cbn [negb]; [|done].
        apply String.eqb_eq in En.
        pose proof (find_some _ _ Hex) as [Hexin Hexm].
        apply String.eqb_eq in Hexm.
        assert (ex = cur) as ->.
        { pose proof (row_of_member s ex U Hexin) as R.
          rewrite En in R. congruence. }
        cbn [Auth.hashed_password Auth.with_email].
        destruct (_ && _).
        -- destruct (Auth.pwd_verify sv _ _) as [e|[|]]; [done| |done].
           cbn [negb Auth.calls Auth.users].
           destruct (Auth.pwd_hash sv _ _) as [e|h]; [done|].
           match goal with |- context [Auth.commit ?u ?t] =>
             pose proof (Fin u t eq_refl eq_refl eq_refl) as K;
             destruct (Auth.commit u t) as [[e|[]] t']
           end; simpl in *.
           ++ apply K. left. by rewrite Hexm.
           ++ destruct K as (K1 & K2 & K3); [left; by rewrite Hexm|].
              repeat split; try done.
        -- match goal with |- context [Auth.commit ?u ?t] =>
             pose proof (Fin u t eq_refl eq_refl) as K;
             destruct (Auth.commit u t) as [[e|[]] t']
           end; simpl in *.
           ++ apply K; [by destruct cur|]. left. by rewrite Hexm.
           ++ destruct K as (K1 & K2 & K3);
                [by destruct cur|left; by rewrite Hexm|].
              repeat split; try done.
      * assert (Hnone : forall v, In v (Auth.users s) ->
                          Auth.email v = mail -> v = cur).
        { intros v Hv Hm. exfalso.
          apply (find_key_None Auth.email) in Hex. apply Hex.
          rewrite <- Hm. by apply in_map. }
        cbn [Auth.hashed_password Auth.with_email].
        destruct (_ && _).
        -- destruct (Auth.pwd_verify sv _ _) as [e|[|]]; [done| |done].
           cbn [negb Auth.calls Auth.users].
           destruct (Auth.pwd_hash sv _ _) as [e|h]; [done|].
           match goal with |- context [Auth.commit ?u ?t] =>
             pose proof (Fin u t eq_refl eq_refl eq_refl) as K;
             destruct (Auth.commit u t) as [[e|[]] t']
           end; simpl in *.
           ++ apply K. by right.
           ++ destruct K as (K1 & K2 & K3); [by right|].
              repeat split; try done.
        -- match goal with |- context [Auth.commit ?u ?t] =>
             pose proof (Fin u t eq_refl eq_refl) as K;
             destruct (Auth.commit u t) as [[e|[]] t']
           end; simpl in *.
           ++ apply K; [by destruct cur|]. by right.
           ++ destruct K as (K1 & K2 & K3); [by destruct cur|by right|].
              repeat split; try done.
    + destruct (_ && _).
      * destruct (Auth.pwd_verify sv _ _) as [e|[|]]; [done| |done].
        cbn [negb Auth.calls Auth.users].
        destruct (Auth.pwd_hash sv _ _) as [e|h]; [done|].
        match goal with |- context [Auth.commit ?u ?t] =>
          pose proof (Fin u t eq_refl eq_refl) as K;
          destruct (Auth.commit u t) as [[e|[]] t']
        end; simpl in *.
        -- apply K; [by destruct cur|]. by left.
        -- destruct K as (K1 & K2 & K3); [by destruct cur|by left|].
           repeat split; try done.
      * match goal with |- context [Auth.commit ?u ?t] =>
          pose proof (Fin u t eq_refl eq_refl) as K;
          destruct (Auth.commit u t) as [[e|[]] t']
        end; simpl in *.
        -- apply K; [by destruct cur|]. by left.
        -- destruct K as (K1 & K2 & K3); [by destruct cur|by left|].
           repeat split; try done.
  - intros h He Hw Hv Hh.
    unfold Auth.update_user, Auth.get_user_by_email, Auth.first,
      Auth.verify_password, Auth.get_password_hash, Auth.call.
    unfold_m. rewrite He. cbn [Auth.truthy]. rewrite Hw, Hv.
    cbn [negb Auth.calls Auth.users]. rewrite Hh.
    match goal with |- context [Auth.commit ?u ?t] =>
      rewrite (commit_found (Auth.username cur) cur u t) by done
    end.
    reflexivity.
Qed.

Lemma update_user_outcomes_witness :
  (Auth.update_user AuthSample.services
     {| Auth.update_email := None;
        Auth.current_password := Some "Secret123";
        Auth.new_password := Some "x" |}
     AuthSample.alice AuthSample.registered).1
  = inr (Auth.with_hashed_password "bcrypt:x" AuthSample.alice).
Proof.
  assert (Hr : Auth.row (Auth.username AuthSample.alice) AuthSample.registered
               = Some AuthSample.alice) by (vm_compute; reflexivity).
  destruct (update_user_outcomes AuthSample.services
              {| Auth.update_email := None;
                 Auth.current_password := Some "Secret123";
                 Auth.new_password := Some "x" |}
              AuthSample.alice AuthSample.registered
              sample_accounts_unique Hr) as [_ K].
  apply K; reflexivity.
Defined.

(** *** Refresh tokens *)

Lemma refresh_replay sv t s u :
  (forall v, In v (Auth.users s) ->
     Auth.refresh_token v = Some t -> Auth.username v = Auth.username u) ->
  Auth.refresh_token u <> Some t ->
  forall n,
    Auth.refresh_access_token sv t
      {| Auth.users := rewritten u (Auth.users s); Auth.calls := n |}
    = (inl (HTTPException 401 "Invalid refresh token"),
       {| Auth.users := rewritten u (Auth.users s); Auth.calls := S n |}).
Proof.
  intros Hone Hu n.
  unfold Auth.refresh_access_token, Auth.get_user, Auth.first, Auth.call.
  unfold_m. cbn [Auth.calls Auth.users].
  destruct (Auth.jwt_decode sv n t) as [sub|]; [|done].
  destruct (Auth.truthy sub); cbn [negb]; [|done].
  cbv zeta. cbn [Auth.users]. rewrite find_rewritten.
  assert (Ku : match Auth.refresh_token u with
               | Some t' => negb (String.eqb t' t)
               | None => true
               end = true).
  { destruct (Auth.refresh_token u) as [t'|]; [|done].
    apply negb_true_iff, String.eqb_neq. congruence. }
  destruct (String.eqb (Auth.username u) (default "" sub)) eqn:E.
  - destruct (List.find _ (Auth.users s)); [|done]. by rewrite Ku.
  - destruct (List.find _ (Auth.users s)) as [v|] eqn:Hv; [|done].
    apply find_some in Hv as [Hin Hn]. apply String.eqb_eq in Hn.
    destruct (Auth.refresh_token v) as [t'|] eqn:Hr; [|done].
    destruct (String.eqb t' t) eqn:Et; [|done].
    apply String.eqb_eq in Et. subst t'.
    apply Hone in Hr; [|done]. apply String.eqb_neq in E. congruence.
Qed.

(** X18: A refresh token is good for one exchange.  [POST /refresh-token]
    answers only when the token names a user whose row stores exactly that
    token, and it stores the new refresh token in its place.  Offered again,
    the old token is refused with status 401 and nothing changes, given that
    the new token differs from it and no other row stores it. *)
Theorem refresh_token_rotates :
  forall (sv : Auth.Services) (t : string) (s s' : Auth.Db)
         (tok : Auth.Token),
    Auth.refresh_access_token sv t s = (inr tok, s') ->
    exists name user,
      Auth.jwt_decode sv (Auth.calls s) t = Some (Some name)
      /\ Auth.row name s = Some user
      /\ Auth.refresh_token user = Some t
      /\ Auth.row name s'
         = Some (Auth.with_refresh_token
                   (Some (Auth.token_refresh_token tok)) user)
      /\ (Auth.token_refresh_token tok <> t ->
          (forall v, In v (Auth.users s) ->
             Auth.refresh_token v = Some t -> Auth.username v = name) ->
          Auth.refresh_access_token sv t s'
          = (inl (HTTPException 401 "Invalid refresh token"),
             {| Auth.users := Auth.users s';
                Auth.calls := S (Auth.calls s') |})).
Proof.
  intros sv t s s' tok.
  unfold Auth.refresh_access_token at 1.
  unfold Auth.get_user, Auth.first, Auth.create_token. unfold Auth.call.
  unfold_m. cbn [Auth.calls Auth.users].
  destruct (Auth.jwt_decode sv (Auth.calls s) t) as [[name|]|]; try done.
  destruct (Auth.truthy (Some name)); cbn [negb default]; [|done].
  cbv zeta. cbn [Auth.users Auth.calls].
  destruct (List.find _ (Auth.users s)) as [user|] eqn:Hr; [|done].
  change (Auth.row name s = Some user) in Hr.
  destruct (Auth.refresh_token user) as [t'|] eqn:Ht; [|done].
  destruct (String.eqb t' t) eqn:Et; cbn [negb]; [|done].
  apply String.eqb_eq in Et. subst t'.
  change (Auth.minutes Auth.ACCESS_TOKEN_EXPIRE_MINUTES =? 0) with false.
  change (Auth.days Auth.REFRESH_TOKEN_EXPIRE_DAYS =? 0) with false.
  cbn [Auth.calls Auth.users]. unfold id.
  destruct (Auth.commit _ _) as [[e|[]] s2] eqn:Hc; [done|].
  intros [= <- <-].
  eapply (commit_inr_found name user) in Hc as [-> Hc];
    [|exact Hr|exact (row_name _ _ _ Hr)].
  exists name, user. repeat split; try done.
  intros Hne Hone. cbn [Auth.users Auth.calls Auth.token_refresh_token] in *.
  apply refresh_replay.
  - intros v Hv Hv'. simpl. rewrite (row_name _ _ _ Hr). by apply Hone.
  - simpl. congruence.
Qed.

Lemma refresh_token_rotates_witness :
  let s1 := (Auth.login_for_access_token AuthSample.services "alice"
               "Secret123" AuthSample.registered).2 in
  let t := default "" (Auth.refresh_token
                         (default AuthSample.alice (Auth.row "alice" s1))) in
  let r := Auth.refresh_access_token AuthSample.services t s1 in
  Auth.refresh_access_token AuthSample.services t r.2
  = (inl (HTTPException 401 "Invalid refresh token"),
     {| Auth.users := Auth.users r.2; Auth.calls := S (Auth.calls r.2) |}).
Proof.
  intros s1 t r.
  set (d := {| Auth.access_token := ""; Auth.token_refresh_token := "";
               Auth.token_type := "" |}).
  assert (H : Auth.refresh_access_token AuthSample.services t s1
              = (inr (value_of d r.1), r.2)) by (vm_compute; reflexivity).
  destruct (refresh_token_rotates AuthSample.services t s1 r.2
              (value_of d r.1) H) as (name & user & Hd & _ & _ & _ & K).
  assert (name = "alice") as -> by (vm_compute in Hd; congruence).
  apply K.
  - vm_compute. discriminate.
  - intros v Hv. vm_compute in Hv.
    destruct Hv as [<-|[<-|[]]]; vm_compute; congruence.
Defined.

(** *** Loading through the document manager *)

Lemma manager_load_file sv self filename w :
  let r := Document_manager.load_file sv self filename w in
  r.1 = inr (Document_manager.contribution sv self (fs w) filename)
  /\ same_store w r.2.
Proof.
  cbv zeta.
  unfold Document_manager.load_file, Document_manager.contribution,
    DocumentLoader.load_document, Langchain.load.
  unfold_m. cbv zeta.
  destruct (DocumentLoader.loaders _) as [l|]; simpl; [|done].
  destruct (Os.read _ (fs w)) as [e|content]; simpl; [done|].
  destruct (loader_load sv l _ content); simpl; done.
Qed.

Lemma manager_load_loop sv self filenames : forall documents w,
  let r := Document_manager.load_loop sv self filenames documents w in
  r.1 = inr (documents
             ++ flat_map (Document_manager.contribution sv self (fs w))
                  filenames)
  /\ same_store w r.2.
Proof.
  induction filenames as [|n names IH]; intros documents w; cbv zeta.
  { simpl. by rewrite app_nil_r. }
  cbn [Document_manager.load_loop flat_map]. unfold_m.
  pose proof (manager_load_file sv self n w) as [E S1].
  destruct (Document_manager.load_file sv self n w) as [[e|docs] w1];
    simpl in *; [done|].
  injection E as ->.
  pose proof (IH (documents ++ Document_manager.contribution sv self (fs w) n)
                w1) as [E2 S2].
  split.
  - rewrite E2. destruct S1 as [-> _]. by rewrite app_assoc.
  - eapply same_store_trans; [exact S1|exact S2].
Qed.

(** X19: A document manager that was constructed can always load: its
    [load_documents] does not raise, it leaves files, memories and persisted
    stores alone, and it returns, in the order of the directory listing, what
    the loader for the type of each file returned.  The type is the
    lower-cased extension; a file of another type, an unreadable file and a
    file whose loader fails are skipped, each without ending the run. *)
Theorem manager_load_documents_skips_failures :
  forall (sv : Services) (documents_dir : string) (w w1 : World)
         (self : DocumentManager.DocumentManager),
    DocumentManager.init documents_dir w = (inr self, w1) ->
    exists filenames,
      Os.listdir documents_dir (fs w1) = inr filenames
      /\ (Document_manager.load_documents sv self w1).1
         = inr (flat_map (Document_manager.contribution sv self (fs w1))
                  filenames)
      /\ same_store w1 (Document_manager.load_documents sv self w1).2.
Proof.
  intros sv documents_dir w w1 self.
  unfold DocumentManager.init. unfold_m.
  destruct (Os.makedirs documents_dir (fs w)) as [e|f1] eqn:Hm; [done|].
  intros [= <- <-]. apply makedirs_inr in Hm as [_ Hd].
  unfold Document_manager.load_documents. unfold_m.
  cbn [DocumentManager.documents_dir fs set_fs].
  unfold Os.listdir. rewrite Hd.
  eexists. split; [done|].
  match goal with |- context [Document_manager.load_loop sv ?s ?n [] ?v] =>
    pose proof (manager_load_loop sv s n [] v) as [E S1];
    destruct (Document_manager.load_loop sv s n [] v) as [r w2]
  end.
  simpl in *. done.
Qed.

Lemma manager_load_documents_skips_failures_witness :
  let self := {| DocumentManager.documents_dir := "documents" |} in
  (Document_manager.load_documents Sample.services self Sample.mixed_world).1
  = inr [{| page_content := "The sky is blue.";
            source := Some "documents/a.txt" |};
         {| page_content := "junk"; source := Some "documents/b.pdf" |}].
Proof.
  intros self.
  assert (H : DocumentManager.init "documents" Sample.mixed_world
              = (inr self, Sample.mixed_world)) by (vm_compute; reflexivity).
  destruct (manager_load_documents_skips_failures Sample.services
              "documents" Sample.mixed_world Sample.mixed_world self H)
    as (filenames & Hl & -> & _).
  vm_compute in Hl. injection Hl as <-. vm_compute. reflexivity.
Defined.

(** *** The listing of documents *)

Lemma insert_perm doc l : Permutation (Listing.insert doc l) (doc :: l).
Proof.
  induction l as [|y r IH]; simpl; [done|].
  destruct (_ <=? _); [done|].
  rewrite IH. apply perm_swap.
Qed.

Lemma sorted_reverse_perm l : Permutation (Listing.sorted_reverse l) l.
Proof.
  induction l as [|x r IH]; simpl; [done|].
  rewrite insert_perm. by constructor.
Qed.

Lemma insert_sorted doc l :
  Sorted.StronglySorted (fun a b => Listing.uploaded_at b <= Listing.uploaded_at a) l ->
  Sorted.StronglySorted (fun a b => Listing.uploaded_at b <= Listing.uploaded_at a)
    (Listing.insert doc l).
Proof.
  induction l as [|y r IH]; simpl; intros H.
  - constructor; [constructor|constructor].
  - apply Sorted.StronglySorted_inv in H as [Hr Hy].
    destruct (Listing.uploaded_at y <=? Listing.uploaded_at doc) eqn:E.
    + apply Z.leb_le in E. constructor.
      * by constructor.
      * constructor; [done|].
        eapply Forall_impl; [exact Hy|]. simpl. intros a Ha. lia.
    + apply Z.leb_gt in E. constructor; [by apply IH|].
      assert (P : Permutation (Listing.insert doc r) (doc :: r))
        by apply insert_perm.
      rewrite P. constructor; [lia|done].
Qed.

Lemma sorted_reverse_sorted l :
  Sorted.StronglySorted (fun a b => Listing.uploaded_at b <= Listing.uploaded_at a)
    (Listing.sorted_reverse l).
Proof.
  induction l as [|x r IH]; simpl; [constructor|]. by apply insert_sorted.
Qed.

Lemma list_loop_spec sv user names : forall documents s r s',
  Listing.list_loop sv user names documents s = (r, s') ->
  Listing.world s' = Listing.world s
  /\ forall documents',
       r = inr documents' ->
       exists new,
         documents' = documents ++ new
         /\ map Listing.filename new
            = List.filter (fun n => Os.isfile (path_join "documents" n)
                                      (fs (Listing.world s))) names
         /\ map Listing.id new
            = map (Listing.uuid4 sv) (seq (Listing.uuids s) (length new))
         /\ Listing.uuids s' = (Listing.uuids s + length new)%nat
         /\ Forall (fun d =>
              Listing.user_id d = user
              /\ Listing.getctime sv (path_join "documents"
                                        (Listing.filename d))
                 = inr (Listing.uploaded_at d)) new.
Proof.
  induction names as [|n names IH]; intros documents s r s'.
  { simpl. intros [= <- <-]. split; [done|]. intros d [= <-].
    exists []. rewrite app_nil_r. simpl. repeat split; try done; lia. }
  cbn [Listing.list_loop List.filter].
  unfold Listing.in_world, Listing.draw. unfold_m. cbn [fst snd].
  cbn [Listing.world Listing.uuids].
  destruct (Os.isfile (path_join "documents" n) (fs (Listing.world s)))
    eqn:E.
  - destruct (Listing.getctime sv (path_join "documents" n)) as [e|ctime]
      eqn:Hc.
    { intros [= <- <-]. split; [done|]. done. }
    intros H. apply IH in H as [W K]. cbn [Listing.world Listing.uuids] in *.
    split; [done|]. intros documents' ->.
    destruct (K _ eq_refl) as (new & -> & Hf & Hi & Hu & Ha).
    eexists (_ :: new). rewrite <- app_assoc. split; [reflexivity|].
    cbn [map length seq Listing.filename Listing.id]. rewrite Hf, Hi.
    split; [done|]. split; [done|]. split; [lia|].
    constructor; [|done]. by simpl.
  - destruct s. intros H. apply IH in H as [W K]. split; [done|].
    intros documents' ->. destruct (K _ eq_refl) as (new & -> & Hf & Hi & Hu & Ha).
    exists new. done.
Qed.

(** X20: When [GET /documents] answers, it names every regular file of the
    documents directory exactly once and nothing else, the newest first; it
    has drawn a new random identifier for each, so that no identifier
    outlives the answer; it attributes every document to the user who asks;
    and it has changed neither a file nor any other part of the state.  When
    it fails, the failure has status 500. *)
Theorem list_documents_lists_regular_files :
  forall (sv : Listing.Services) (current_user : Auth.DBUser)
         (s : Listing.State),
    let r := Listing.list_documents sv current_user s in
    Listing.world r.2 = Listing.world s
    /\ match r.1 with
       | inr documents =>
           Permutation (map Listing.filename documents)
             (Listing.regular_files (fs (Listing.world s)))
           /\ Sorted.StronglySorted
                (fun a b => Listing.uploaded_at b <= Listing.uploaded_at a)
                documents
           /\ Permutation (map Listing.id documents)
                (map (Listing.uuid4 sv)
                   (seq (Listing.uuids s) (length documents)))
           /\ Listing.uuids r.2 = (Listing.uuids s + length documents)%nat
           /\ Forall (fun d =>
                Listing.user_id d = Auth.username current_user
                /\ Listing.getctime sv (path_join "documents"
                                          (Listing.filename d))
                   = inr (Listing.uploaded_at d)) documents
       | inl e => exists detail, e = HTTPException 500 detail
       end.
Proof.
  intros sv current_user [w k]. cbv zeta.
  unfold Listing.list_documents, Listing.in_world, Listing.regular_files.
  unfold_m. cbn [fst snd Listing.world Listing.uuids].
  unfold Os.path_exists, Os.listdir.
  change (normdir "documents") with "documents".
  simpl.
  destruct (Os.lookup "documents" (fs w)) as [[c|]|] eqn:Hd; simpl;
    rewrite ?Hd; simpl.
  - split; [done|]. by eauto.
  - match goal with |- context [Listing.list_loop sv ?u ?n [] ?t] =>
      pose proof (list_loop_spec sv u n [] t) as K;
      destruct (Listing.list_loop sv u n [] t) as [[e|documents] s']
    end; destruct (K _ _ eq_refl) as [W K'];
      cbn [fst snd Listing.world Listing.uuids] in *.
    + split; [done|]. by eauto.
    + split; [done|].
      destruct (K' _ eq_refl) as (new & -> & Hf & Hi & Hu & Ha).
      cbn [app] in *.
      pose proof (sorted_reverse_perm new) as P.
      pose proof (Permutation_length P) as L.
      split; [rewrite <- Hf; by apply Permutation_map|].
      split; [apply sorted_reverse_sorted|].
      rewrite L. split; [rewrite <- Hi; by apply Permutation_map|].
      split; [done|].
      apply List.Forall_forall. intros d Hin.
      apply (proj1 (List.Forall_forall _ _) Ha).
      by apply (Permutation_in _ P).
  - split; [done|]. simpl. repeat split; try done; constructor.
Qed.
